(** * utilities/dataset_prep.py: data preparation for the kidney classifier

    A shallow embedding of the record extractor ([get_data_dicts]), the
    train/test split ([load_dataset]), the train/validation split
    ([make_train_val_split]), the image preprocessor
    ([process_input_image], [special_ST_preprocessing]), the dataset adapter
    ([KidneyDataset.__getitem__]) and the data module
    ([KidneyDataModule.setup], [KidneyDataModule.val_dataloader]).

    Python values are kept as the interpreter has them after [json.load]:
    dictionaries are insertion-ordered association lists, exceptions are
    explicit results, and the dictionaries the extractor mutates in place
    (together with the image cache on disk) are threaded as a state that
    survives a raised exception, as it does in Python. *)

From Stdlib Require Import List String Ascii ZArith QArith Bool Arith Lia.
From Stdlib Require Import Strings.Byte QArith.Qround.
From Stdlib Require Import Permutation Lqa.
Import ListNotations.
Open Scope string_scope.
Open Scope Z_scope.

Set Implicit Arguments.
Set Warnings "-register-all".

(** ** Exceptions and results *)

Inductive exn : Type :=
| KeyError | AttributeError | AssertionError | TypeError | IndexError
| ValueError | FileNotFoundError | RecursionError | NotImplementedError.

Inductive result (A : Type) : Type :=
| Ok (a : A)
| Raise (e : exn).
Arguments Ok {A} a.
Arguments Raise {A} e.

Definition exn_eqb (a b : exn) : bool :=
  match a, b with
  | KeyError, KeyError | AttributeError, AttributeError
  | AssertionError, AssertionError | TypeError, TypeError
  | IndexError, IndexError | ValueError, ValueError
  | FileNotFoundError, FileNotFoundError | RecursionError, RecursionError
  | NotImplementedError, NotImplementedError => true
  | _, _ => false
  end.

Definition rbind {A B} (r : result A) (k : A -> result B) : result B :=
  match r with Ok a => k a | Raise e => Raise e end.

Definition of_option {A} (e : exn) (o : option A) : result A :=
  match o with Some a => Ok a | None => Raise e end.

(** ** Python values, as [json.load] builds them *)

(** A float is its exact rational value, or one of the three specials the
    [json] module accepts ([NaN], [Infinity], [-Infinity]). *)
Inductive pyfloat : Type :=
| FFinite (q : Q)
| FNaN
| FInf (negative : bool).

Inductive pyval : Type :=
| PNone
| PBool (b : bool)
| PInt (z : Z)
| PFloat (f : pyfloat)
| PStr (s : string)
| PList (l : list pyval)
| PDict (d : list (string * pyval)).

(** ** Insertion-ordered dictionaries with string keys *)

Definition dict (V : Type) : Type := list (string * V).

Fixpoint dict_get {V} (d : dict V) (k : string) : option V :=
  match d with
  | [] => None
  | (k', v) :: rest => if String.eqb k k' then Some v else dict_get rest k
  end.

(** [d[k] = v]: an existing key keeps its position, a new key goes last. *)
Fixpoint dict_set {V} (d : dict V) (k : string) (v : V) : dict V :=
  match d with
  | [] => [(k, v)]
  | (k', v') :: rest =>
      if String.eqb k k' then (k', v) :: rest else (k', v') :: dict_set rest k v
  end.

Definition dict_keys {V} (d : dict V) : list string := map fst d.

Definition dict_mem {V} (d : dict V) (k : string) : bool :=
  existsb (String.eqb k) (dict_keys d).

Fixpoint dict_pop {V} (d : dict V) (k : string) : dict V :=
  match d with
  | [] => []
  | (k', v) :: rest => if String.eqb k k' then rest else (k', v) :: dict_pop rest k
  end.

(** [d[k]] on a Python dict. *)
Definition dict_index {V} (d : dict V) (k : string) : result V :=
  of_option KeyError (dict_get d k).

(** [v[k]] with a string [k]: only a dict can be subscripted by a string. *)
Definition subscript (v : pyval) (k : string) : result pyval :=
  match v with
  | PDict d => dict_index d k
  | _ => Raise TypeError
  end.

(** [v.keys()]: only a dict has the attribute. *)
Definition py_keys (v : pyval) : result (list string) :=
  match v with
  | PDict d => Ok (dict_keys d)
  | _ => Raise AttributeError
  end.

(** ** Strings

    Keys, identifiers and paths are taken to be ASCII: a character is a
    byte, and the order of strings is the order of their bytes. *)

(** [needle in hay]. *)
Fixpoint contains (needle hay : string) : bool :=
  match hay with
  | EmptyString => String.prefix needle hay
  | String _ rest => String.prefix needle hay || contains needle rest
  end.

(** [s.split(sep)] for a one-character separator. *)
Fixpoint split (sep : ascii) (s : string) : list string :=
  match s with
  | EmptyString => [EmptyString]
  | String c rest =>
      if Ascii.eqb c sep then EmptyString :: split sep rest
      else match split sep rest with
           | [] => [String c EmptyString]
           | w :: ws => String c w :: ws
           end
  end.

(** The characters of a string, as iterating over it yields them. *)
Fixpoint chars (s : string) : list string :=
  match s with
  | EmptyString => []
  | String c rest => String c EmptyString :: chars rest
  end.

(** Stable insertion sort: what [sorted] returns for a total order given by
    its strict comparison [ltb]. An element goes after those it is not
    smaller than, so equal elements keep their order. *)
Section Sorted.
Variable A : Type.
Variable ltb : A -> A -> bool.

Fixpoint insert_sorted (x : A) (l : list A) : list A :=
  match l with
  | [] => [x]
  | y :: ys => if ltb x y then x :: y :: ys else y :: insert_sorted x ys
  end.

Definition sorted_by (l : list A) : list A :=
  fold_left (fun acc x => insert_sorted x acc) l [].
End Sorted.

(** ** Images and the disk *)

(** A greyscale image as [np.array(Image.open(f).convert('L'))] gives it:
    its shape and its 8-bit pixels, row by row. *)
Record image : Type := { height : nat; width : nat; pixels : list byte }.

Definition shape_eqb (a b : image) : bool :=
  Nat.eqb (height a) (height b) && Nat.eqb (width a) (width b).

(** The image files on disk, most recent write first. *)
Definition disk : Type := list (string * image).

Definition path_exists (d : disk) (f : string) : bool :=
  match dict_get d f with Some _ => true | None => false end.

Definition image_open (d : disk) (f : string) : result image :=
  of_option FileNotFoundError (dict_get d f).

Definition image_save (d : disk) (f : string) (im : image) : disk := (f, im) :: d.

Section ImagePreprocessing.

(** The pixels that resizing to 256x256, [set_contrast] (histogram
    equalisation) and the PNG round trip compute from a source image.
    They are numerical code of scikit-image and PIL; only the shape of
    the result matters below. *)
Variable contrast_resized : image -> list byte.

(** [img_folder + "/Preprocessed/" + img_name.split('.')[0] + "-preprocessed.png"] *)
Definition out_img_filename (img_file : string) : string :=
  let parts := split "/" img_file in
  let img_name := nth (List.length parts - 1) parts "" in
  let img_folder := String.concat "/" (firstn (List.length parts - 2) parts) in
  img_folder ++ "/Preprocessed/" ++ hd "" (split "." img_name) ++ "-preprocessed.png".

(** The two functions call each other; [depth] is the number of stack
    frames the interpreter still allows, and running out of them is
    Python's [RecursionError]. *)
Fixpoint process_input_image (depth : nat) (img_file : string) (d : disk)
  : disk * result image :=
  match depth with
  | O => (d, Raise RecursionError)
  | S depth' =>
      match image_open d img_file with
      | Raise e => (d, Raise e)
      | Ok fit_img =>
          if negb (Nat.eqb (height fit_img) 256) || negb (Nat.eqb (width fit_img) 256)
          then special_ST_preprocessing depth' img_file d
          else (d, Ok fit_img)
      end
  end
with special_ST_preprocessing (depth : nat) (img_file : string) (d : disk)
  : disk * result image :=
  match depth with
  | O => (d, Raise RecursionError)
  | S depth' =>
      if contains "preprocessed" img_file
      then process_input_image depth' img_file d
      else
        let out := out_img_filename img_file in
        if negb (path_exists d out) then
          match image_open d img_file with
          | Raise e => (d, Raise e)
          | Ok image0 =>
              let my_img :=
                {| height := 256; width := 256; pixels := contrast_resized image0 |} in
              let d' := image_save d out my_img in
              (d', image_open d' out)
          end
        else (d, image_open d out)
  end.

End ImagePreprocessing.

(** ** The record extractor *)

(** What [img_dict] holds under a key: the empty [dict()] placed when a key
    is first seen outside sequence mode, one stacked pair
    [np.stack([sag, trv])], or, in sequence mode, the list of the stacked
    pairs of the visits. *)
Inductive img_entry : Type :=
| ImgDict
| ImgStack (sag trv : image)
| ImgList (l : list (image * image)).

(** What [cov_dict] holds under a key: a plain [dict()], or in sequence
    mode a [defaultdict(list)], whose missing fields read as [[]]. *)
Record cov_entry : Type := { defaulting : bool; fields : dict pyval }.

Record extractor_state : Type := {
  img_dict : dict img_entry;
  label_dict : dict Z;
  cov_dict : dict cov_entry;
  files : disk
}.

Definition set_img_dict (s : extractor_state) (v : dict img_entry) :=
  {| img_dict := v; label_dict := label_dict s; cov_dict := cov_dict s; files := files s |}.
Definition set_label_dict (s : extractor_state) (v : dict Z) :=
  {| img_dict := img_dict s; label_dict := v; cov_dict := cov_dict s; files := files s |}.
Definition set_cov_dict (s : extractor_state) (v : dict cov_entry) :=
  {| img_dict := img_dict s; label_dict := label_dict s; cov_dict := v; files := files s |}.
Definition set_files (s : extractor_state) (v : disk) :=
  {| img_dict := img_dict s; label_dict := label_dict s; cov_dict := cov_dict s; files := v |}.

(** Statements of the extractor: they update the state, and the updates
    made before an exception is raised stay. *)
Definition M (A : Type) : Type := extractor_state -> extractor_state * result A.

Definition ret {A} (a : A) : M A := fun s => (s, Ok a).
Definition raise {A} (e : exn) : M A := fun s => (s, Raise e).
Definition bind {A B} (m : M A) (k : A -> M B) : M B :=
  fun s => match m s with
           | (s', Ok a) => k a s'
           | (s', Raise e) => (s', Raise e)
           end.
Definition lift {A} (r : result A) : M A := fun s => (s, r).
Definition gets {A} (f : extractor_state -> A) : M A := fun s => (s, Ok (f s)).
Definition modify (f : extractor_state -> extractor_state) : M unit :=
  fun s => (f s, Ok tt).

(** [try: body except <handled>: print(e)] *)
Definition try_except (body : M unit) (handled : exn -> bool) : M unit :=
  fun s => match body s with
           | (s', Raise e) => if handled e then (s', Ok tt) else (s', Raise e)
           | r => r
           end.

Declare Scope py_scope.
Delimit Scope py_scope with py.
Notation "x <- c ;; k" := (bind c (fun x => k))
  (at level 61, c at next level, right associativity) : py_scope.
Notation "c ;;; k" := (bind c (fun _ => k))
  (at level 61, right associativity) : py_scope.

Fixpoint for_each {A} (l : list A) (body : A -> M unit) : M unit :=
  match l with
  | [] => ret tt
  | x :: rest => bind (body x) (fun _ => for_each rest body)
  end.

Record extractor_config : Type := {
  data_dir : string;
  update_num : option string;
  silent_trial : bool;
  last_visit_only : bool;
  seq : bool;
  include_baseline_date : bool
}.

Definition is_int (v : pyval) : bool :=
  match v with PInt _ => true | _ => false end.

(** [get_surgery_label]: [type(x) == int] holds of an integer only, not of
    a boolean. *)
Definition get_surgery_label (side_dict : pyval) : option Z :=
  match side_dict with
  | PDict d =>
      if dict_mem d "surgery" then
        match dict_get d "surgery" with
        | Some (PInt z) => Some z
        | Some (PList l) =>
            match filter is_int l with
            | PInt z :: _ => Some z
            | _ => None
            end
        | _ => None
        end
      else None
  | _ => None
  end.

(** [np.unique]: sorted, without repetitions. *)
Fixpoint drop_repeats (l : list string) : list string :=
  match l with
  | [] => []
  | x :: rest =>
      match rest with
      | [] => [x]
      | y :: _ => if String.eqb x y then drop_repeats rest else x :: drop_repeats rest
      end
  end.

Definition np_unique (l : list string) : list string :=
  drop_repeats (sorted_by String.ltb l).

(** [np.setdiff1d(ar1, ar2)]: the sorted unique values of [ar1] that are
    not in [ar2]. *)
Definition setdiff1d (ar1 ar2 : list string) : list string :=
  let ar2' := np_unique ar2 in
  filter (fun x => negb (existsb (String.eqb x) ar2')) (np_unique ar1).

(** A boolean as the integer it is in arithmetic. *)
Definition bool_Z (b : bool) : Z := if b then 1 else 0.

(** [v < bound] and [v > bound] for an integer [bound]: numbers compare,
    anything else is a [TypeError]. *)
Definition num_lt (v : pyval) (bound : Z) : result bool :=
  match v with
  | PInt z => Ok (z <? bound)
  | PBool b => Ok (bool_Z b <? bound)
  | PFloat (FFinite q) => Ok (negb (Qle_bool (inject_Z bound) q))
  | PFloat FNaN => Ok false
  | PFloat (FInf negative) => Ok negative
  | _ => Raise TypeError
  end.

Definition num_gt (v : pyval) (bound : Z) : result bool :=
  match v with
  | PInt z => Ok (bound <? z)
  | PBool b => Ok (bound <? bool_Z b)
  | PFloat (FFinite q) => Ok (negb (Qle_bool q (inject_Z bound)))
  | PFloat FNaN => Ok false
  | PFloat (FInf negative) => Ok (negb negative)
  | _ => Raise TypeError
  end.

(** [v in ["NA", None]] *)
Definition is_NA_or_None (v : pyval) : bool :=
  match v with
  | PNone => true
  | PStr s => String.eqb s "NA"
  | _ => false
  end.

(** [data_dir + v]: a string can only be joined to a string. *)
Definition str_add (s : string) (v : pyval) : result string :=
  match v with
  | PStr t => Ok (s ++ t)
  | _ => Raise TypeError
  end.

(** [np.stack([sag, trv])] needs equal shapes. *)
Definition np_stack (sag trv : image) : result (image * image) :=
  if shape_eqb sag trv then Ok (sag, trv) else Raise ValueError.

Section Extractor.

Variable contrast_resized : image -> list byte.
(** Stack frames left for the image preprocessor when the extractor
    calls it. *)
Variable recursion_limit : nat.
Variable cfg : extractor_config.

Local Open Scope py_scope.

Definition on_disk (f : disk -> disk * result image) : M image :=
  fun s => let (d, r) := f (files s) in (set_files s d, r).

(** [assign_images(img_dict, dict_key, sag_img, trv_img, split_view=False, seq=seq)] *)
Definition assign_images (dict_key : string) (sag_img trv_img : image) : M unit :=
  if negb (seq cfg) then
    stacked <- lift (np_stack sag_img trv_img) ;;
    modify (fun s =>
      set_img_dict s (dict_set (img_dict s) dict_key (ImgStack (fst stacked) (snd stacked))))
  else
    imgs <- gets img_dict ;;
    entry <- lift (dict_index imgs dict_key) ;;
    match entry with
    | ImgList l =>
        stacked <- lift (np_stack sag_img trv_img) ;;
        modify (fun s =>
          set_img_dict s (dict_set (img_dict s) dict_key (ImgList (l ++ [stacked]))))
    | _ => raise AttributeError
    end.

(** [cov_dict[dict_key][field] = v] *)
Definition cov_setitem (dict_key field : string) (v : pyval) : M unit :=
  covs <- gets cov_dict ;;
  e <- lift (dict_index covs dict_key) ;;
  modify (fun s =>
    set_cov_dict s (dict_set (cov_dict s) dict_key
      {| defaulting := defaulting e; fields := dict_set (fields e) field v |})).

(** [cov_dict[dict_key][field].append(v)] *)
Definition cov_append (dict_key field : string) (v : pyval) : M unit :=
  covs <- gets cov_dict ;;
  e <- lift (dict_index covs dict_key) ;;
  match dict_get (fields e) field with
  | Some (PList l) =>
      modify (fun s =>
        set_cov_dict s (dict_set (cov_dict s) dict_key
          {| defaulting := defaulting e;
             fields := dict_set (fields e) field (PList (l ++ [v])) |}))
  | Some _ => raise AttributeError
  | None =>
      if defaulting e then
        modify (fun s =>
          set_cov_dict s (dict_set (cov_dict s) dict_key
            {| defaulting := defaulting e;
               fields := dict_set (fields e) field (PList [v]) |}))
      else raise KeyError
  end.

(** [cov_dict[dict_key][field]] *)
Definition cov_getitem (dict_key field : string) : M pyval :=
  covs <- gets cov_dict ;;
  e <- lift (dict_index covs dict_key) ;;
  match dict_get (fields e) field with
  | Some v => ret v
  | None =>
      if defaulting e then
        modify (fun s =>
          set_cov_dict s (dict_set (cov_dict s) dict_key
            {| defaulting := defaulting e;
               fields := dict_set (fields e) field (PList []) |})) ;;;
        ret (PList [])
      else raise KeyError
  end.

(** [sex] if it is an integer, else [1 if (sex == "M") else 2]. *)
Definition sex_code (sex : pyval) : pyval :=
  match sex with
  | PInt z => PInt z
  | PStr s => if String.eqb s "M" then PInt 1 else PInt 2
  | _ => PInt 2
  end.

Definition assign_covariates (dict_key : string) (machine sex age_wks bl_date : pyval)
  : M unit :=
  if negb (seq cfg) then
    cov_setitem dict_key "US_machine" machine ;;;
    cov_setitem dict_key "Sex" (sex_code sex) ;;;
    cov_setitem dict_key "Age_wks" age_wks ;;;
    match bl_date with
    | PNone => ret tt
    | _ => cov_setitem dict_key "BL_date" bl_date
    end
  else
    cov_append dict_key "US_machine" machine ;;;
    cov_append dict_key "Sex" (sex_code sex) ;;;
    cov_append dict_key "Age_wks" age_wks ;;;
    match bl_date with
    | PNone => ret tt
    | _ => cov_setitem dict_key "BL_date" bl_date
    end.

Definition assert_not_None (v : pyval) : M unit :=
  match v with PNone => raise AssertionError | _ => ret tt end.

Definition make_dict_key (study_id side us_num : string) : string :=
  study_id ++ "_" ++ side
    ++ (if negb (seq cfg) then "_" ++ us_num else "")
    ++ (match update_num cfg with Some u => "_" ++ u | None => "" end).

Definition preprocess (img_file : string) : M image :=
  if silent_trial cfg
  then on_disk (process_input_image contrast_resized recursion_limit img_file)
  else on_disk (special_ST_preprocessing contrast_resized recursion_limit img_file).

(** The block [# Initialize]: the key gets its empty entries the first
    time it is seen. *)
Definition init_entries (dict_key : string) : M unit :=
  modify (fun s =>
    if dict_mem (img_dict s) dict_key then s
    else set_img_dict s
           (dict_set (img_dict s) dict_key
              (if negb (seq cfg) then ImgDict else ImgList []))) ;;;
  modify (fun s =>
    if dict_mem (cov_dict s) dict_key then s
    else set_cov_dict s
           (dict_set (cov_dict s) dict_key {| defaulting := seq cfg; fields := [] |})).

(** The block [# Assign values] and the assertions that follow it. *)
Definition store_visit (dict_key : string) (sag_img trv_img : image) (surgery : Z)
    (machine sex age_wks bl_date : pyval) : M unit :=
  assign_images dict_key sag_img trv_img ;;;
  modify (fun s => set_label_dict s (dict_set (label_dict s) dict_key surgery)) ;;;
  assign_covariates dict_key machine sex age_wks bl_date ;;;
  labels <- gets label_dict ;;
  lift (dict_index labels dict_key) ;;;
  imgs <- gets img_dict ;;
  lift (dict_index imgs dict_key) ;;;
  sex' <- cov_getitem dict_key "Sex" ;;
  assert_not_None sex' ;;;
  age' <- cov_getitem dict_key "Age_wks" ;;
  assert_not_None age'.

(** The body of [for us_num in us_nums]; a [continue] is a return. The
    inner [try] only prints and raises the [KeyError] again. *)
Definition visit_body (study_id : string) (patient : pyval) (side : string)
    (side_dict : pyval) (surgery : Z) (us_num : string) : M unit :=
  visit <- lift (subscript side_dict us_num) ;;
  age <- lift (subscript visit "Age_wks") ;;
  visit_keys <- lift (py_keys visit) ;;
  if is_NA_or_None age
     || negb (existsb (String.eqb "sag") visit_keys
              && existsb (String.eqb "trv") visit_keys)
  then ret tt
  else
    let dict_key := make_dict_key study_id side us_num in
    machine <- lift (subscript visit "US_machine") ;;
    sex <- lift (subscript patient "Sex") ;;
    age_wks <- lift (subscript visit "Age_wks") ;;
    bl_date <- (if include_baseline_date cfg
                then lift (subscript patient "BL_date") else ret PNone) ;;
    if negb ((surgery =? 0) || (surgery =? 1)) then ret tt
    else
      negative <- lift (num_lt age_wks 0) ;;
      if negative then ret tt
      else
        too_old <- lift (num_gt age_wks (52 * 10)) ;;
        if too_old then ret tt
        else
          init_entries dict_key ;;;
          sag_path <- lift (rbind (subscript visit "sag") (str_add (data_dir cfg))) ;;
          sag_img <- preprocess sag_path ;;
          trv_path <- lift (rbind (subscript visit "trv") (str_add (data_dir cfg))) ;;
          trv_img <- preprocess trv_path ;;
          store_visit dict_key sag_img trv_img surgery machine sex age_wks bl_date.

(** The body of [for side in sides]. *)
Definition side_body (study_id : string) (patient : pyval) (side : string) : M unit :=
  side_dict <- lift (subscript patient side) ;;
  let surgery := get_surgery_label side_dict in
  side_keys <- lift (py_keys side_dict) ;;
  let us_nums := filter (fun k => negb (String.eqb k "surgery")) side_keys in
  match surgery with
  | None => ret tt
  | Some surgery =>
      if Nat.eqb (List.length us_nums) 0 then ret tt
      else
        let us_nums :=
          if last_visit_only cfg
          then chars (last (sorted_by String.ltb us_nums) "")
          else us_nums in
        for_each us_nums (visit_body study_id patient side side_dict surgery)
  end.

Definition handled (e : exn) : bool :=
  exn_eqb e AttributeError || exn_eqb e AssertionError.

(** The body of [for study_id in in_dict.keys()]. *)
Definition patient_body (in_dict : dict pyval) (study_id : string) : M unit :=
  try_except
    (patient <- lift (dict_index in_dict study_id) ;;
     patient_keys <- lift (py_keys patient) ;;
     let sides := setdiff1d patient_keys ["BL_date"; "Sex"] in
     for_each sides (side_body study_id patient))
    handled.

Definition data_dicts : Type :=
  dict img_entry * dict Z * dict cov_entry * list string.

Definition initial_state (d : disk) : extractor_state :=
  {| img_dict := []; label_dict := []; cov_dict := []; files := d |}.

Definition get_data_dicts (in_dict : dict pyval) (d : disk) : disk * result data_dicts :=
  match for_each (dict_keys in_dict) (patient_body in_dict) (initial_state d) with
  | (s, Ok _) =>
      (files s, Ok (img_dict s, label_dict s, cov_dict s, dict_keys (img_dict s)))
  | (s, Raise e) => (files s, Raise e)
  end.

End Extractor.

(** ** The train/test split *)

Notation "'let?' x := r 'in' k" := (rbind r (fun x => k))
  (at level 10, x pattern, r at level 100, k at level 200).

(** [l[i]] on a list: a negative index counts from the end. *)
Definition py_index {A} (l : list A) (i : Z) : result A :=
  let n := Z.of_nat (List.length l) in
  if (0 <=? i) && (i <? n) then of_option IndexError (nth_error l (Z.to_nat i))
  else if (- n <=? i) && (i <? 0) then of_option IndexError (nth_error l (Z.to_nat (i + n)))
  else Raise IndexError.

(** [range(a, b)] *)
Definition py_range (a b : Z) : list Z :=
  map (fun k => a + Z.of_nat k) (List.seq 0 (Z.to_nat (b - a))).

(** [round(x)]: to the nearest integer, a tie goes to the even one. The
    product [len(pt_ids) * test_prop] is taken exactly, where Python rounds
    it to a double first. *)
Definition py_round (x : Q) : Z :=
  let lo := Qfloor x in
  match Qcompare (x - inject_Z lo) (1 # 2) with
  | Lt => lo
  | Gt => lo + 1
  | Eq => if Z.even lo then lo else lo + 1
  end.

(** A loop that builds a value and stops at the first exception. *)
Fixpoint rfold {A S} (body : S -> A -> result S) (l : list A) (acc : S) : result S :=
  match l with
  | [] => Ok acc
  | x :: rest => let? acc' := body acc x in rfold body rest acc'
  end.

Fixpoint rmap {A B} (f : A -> result B) (l : list A) : result (list B) :=
  match l with
  | [] => Ok []
  | x :: rest => let? y := f x in let? ys := rmap f rest in Ok (y :: ys)
  end.

(** [a < b] on the values found under ['BL_date']; only strings are
    ordered here. *)
Definition date_ltb (a b : pyval) : bool :=
  match a, b with
  | PStr s, PStr t => String.ltb s t
  | _, _ => false
  end.

(** [(id1, date1) < (id2, date2)] on tuples: the first components decide
    unless they are equal, which the keys of one dict never are. *)
Definition pair_ltb (a b : string * pyval) : bool :=
  if String.eqb (fst a) (fst b) then date_ltb (snd a) (snd b)
  else String.ltb (fst a) (fst b).

Definition excluded_id : string := "SU2bae8dc".

Section TrainTestSplit.

(** The order in which [sklearn.utils.shuffle(..., random_state=42)]
    returns the positions of an [n]-element array. *)
Variable shuffle_indices : nat -> list nat.

Definition shuffle42 {A} (l : list A) : list A :=
  flat_map (fun i => match nth_error l i with Some x => [x] | None => [] end)
           (shuffle_indices (List.length l)).

(** ['BL_date'] of a patient, ["2021-01-01"] if it has none. *)
Definition baseline_date (in_dict : dict pyval) (my_key : string) : result pyval :=
  let? patient := dict_index in_dict my_key in
  let? keys := py_keys patient in
  if existsb (String.eqb "BL_date") keys then subscript patient "BL_date"
  else Ok (PStr "2021-01-01").

(** [out[study_id] = in_dict[study_id]] for the patient at position [i]. *)
Definition take_patient {B} (in_dict : dict pyval) (ids : list B) (name : B -> string)
    (out : dict pyval) (i : Z) : result (dict pyval) :=
  let? entry := py_index ids i in
  let study_id := name entry in
  let? patient := dict_index in_dict study_id in
  Ok (dict_set out study_id patient).

(** [load_dataset], from the parsed JSON on; [None] stands for the
    missing test set of [train_only]. *)
Definition load_dataset (json : dict pyval) (test_prop : Q)
    (ordered_split train_only : bool) : result (dict pyval * option (dict pyval)) :=
  let in_dict := if dict_mem json excluded_id then dict_pop json excluded_id else json in
  if train_only then Ok (in_dict, None)
  else
    let pt_ids := dict_keys in_dict in
    let? BL_dates := rmap (baseline_date in_dict) pt_ids in
    if ordered_split then
      let sorted_pt_BL_dates := sorted_by pair_ltb (combine pt_ids BL_dates) in
      let n := Z.of_nat (List.length pt_ids) in
      let test_n := py_round (inject_Z n * test_prop) in
      let? train_out :=
        rfold (take_patient in_dict sorted_pt_BL_dates fst) (py_range 0 (n - test_n)) [] in
      let? test_out :=
        rfold (take_patient in_dict sorted_pt_BL_dates fst)
              (py_range (n - test_n + 1) n) [] in
      Ok (train_out, Some test_out)
    else
      let shuffled_pt_id := shuffle42 pt_ids in
      let n := Z.of_nat (List.length shuffled_pt_id) in
      let test_n := py_round (inject_Z n * test_prop) in
      let? test_out :=
        rfold (take_patient in_dict shuffled_pt_id (fun x => x)) (py_range 0 test_n) [] in
      let? train_out :=
        rfold (take_patient in_dict shuffled_pt_id (fun x => x)) (py_range (test_n + 1) n) [] in
      Ok (train_out, Some test_out).

Definition load_test_dataset (json : dict pyval) : dict pyval :=
  if dict_mem json excluded_id then dict_pop json excluded_id else json.

End TrainTestSplit.

(** [remove_bl_date]: drop ['BL_date'] from every covariate entry. *)
Definition remove_bl_date (cov : dict cov_entry) : dict cov_entry :=
  map (fun kv =>
         (fst kv,
          if dict_mem (fields (snd kv)) "BL_date"
          then {| defaulting := defaulting (snd kv);
                  fields := dict_pop (fields (snd kv)) "BL_date" |}
          else snd kv))
      cov.

(** ** The dataset adapter *)

(** A float tensor: its shape and its elements in row-major order. The
    elements are exact; the rounding of 32-bit floats is left out. *)
Record tensor : Type := { shape : list nat; data : list pyfloat }.

(** The dictionary [data] that [__getitem__] returns, with its three
    possible keys ['img'], ['Age_wks'] and ['Side_L']. *)
Record feature_bundle : Type := {
  img : tensor;
  Age_wks : option tensor;
  Side_L : option tensor
}.

Record KidneyDataset : Type := {
  image_dict : dict img_entry;
  labels : dict Z;
  covariates : dict cov_entry;
  study_ids : list string;
  include_cov : bool
}.

Definition float_of_byte (b : byte) : pyfloat :=
  FFinite (inject_Z (Z.of_nat (Byte.to_nat b))).

Definition stack_pixels (p : image * image) : list pyfloat :=
  map float_of_byte (pixels (fst p)) ++ map float_of_byte (pixels (snd p)).

(** [torch.FloatTensor(img)] for what the image dictionary holds. The
    arrays of a sequence must share one shape. *)
Definition image_tensor (e : img_entry) : result tensor :=
  match e with
  | ImgDict => Raise TypeError
  | ImgStack sag trv =>
      Ok {| shape := [2; height sag; width sag]%nat; data := stack_pixels (sag, trv) |}
  | ImgList [] => Ok {| shape := [0%nat]; data := [] |}
  | ImgList ((sag, trv) :: rest) =>
      if forallb (fun p => shape_eqb (fst p) sag) rest
      then Ok {| shape := [S (List.length rest); 2; height sag; width sag]%nat;
                 data := flat_map stack_pixels ((sag, trv) :: rest) |}
      else Raise ValueError
  end.

(** [torch.div(t, 255)] *)
Definition float_div (f : pyfloat) (d : Z) : pyfloat :=
  match f with
  | FFinite q => FFinite (q / inject_Z d)
  | other => other
  end.

Definition tensor_div (t : tensor) (d : Z) : tensor :=
  {| shape := shape t; data := map (fun f => float_div f d) (data t) |}.

(** An element of a list given to [torch.FloatTensor]: a number. *)
Definition float_of_number (v : pyval) : result pyfloat :=
  match v with
  | PInt z => Ok (FFinite (inject_Z z))
  | PBool b => Ok (FFinite (inject_Z (bool_Z b)))
  | PFloat f => Ok f
  | _ => Raise TypeError
  end.

(** [torch.FloatTensor(age)]: [age] has to be a list, here of numbers. *)
Definition number_tensor (age : pyval) : result tensor :=
  match age with
  | PList l =>
      let? xs := rmap float_of_number l in
      Ok {| shape := [List.length l]; data := xs |}
  | _ => Raise TypeError
  end.

(** [len(age)] *)
Definition py_len (v : pyval) : result nat :=
  match v with
  | PList l => Ok (List.length l)
  | PStr s => Ok (String.length s)
  | PDict d => Ok (List.length d)
  | _ => Raise TypeError
  end.

(** [type(v) in [int, float, np.int32, np.float32, np.float64]] for a value
    that came out of JSON. *)
Definition is_plain_number (v : pyval) : bool :=
  match v with
  | PInt _ | PFloat _ => true
  | _ => false
  end.

(** [cov['Age_wks']] read from a covariate entry. *)
Definition entry_read (e : cov_entry) (field : string) : result pyval :=
  match dict_get (fields e) field with
  | Some v => Ok v
  | None => if defaulting e then Ok (PList []) else Raise KeyError
  end.

(** [1 if id_split[1] == 'Left' else 0] *)
Definition side_flag (id_split : list string) : result pyfloat :=
  let? side := py_index id_split 1 in
  Ok (FFinite (inject_Z (if String.eqb side "Left" then 1 else 0))).

(** [KidneyDataset.__getitem__] *)
Definition getitem (ds : KidneyDataset) (index : Z)
  : result (feature_bundle * Z * string) :=
  let? id_ := py_index (study_ids ds) index in
  let? img0 := dict_index (image_dict ds) id_ in
  let? y := dict_index (labels ds) id_ in
  let? cov := dict_index (covariates ds) id_ in
  let id_split := split "_" id_ in
  let? t := image_tensor img0 in
  let scaled := tensor_div t 255 in
  if include_cov ds then
    let? age0 := entry_read cov "Age_wks" in
    let? age := (if is_plain_number age0 then Ok (PList [age0]) else entry_read cov "Age_wks") in
    let? age_t := number_tensor age in
    let? flag := side_flag id_split in
    let? n := py_len age in
    Ok ({| img := scaled; Age_wks := Some age_t;
           Side_L := Some {| shape := [n]; data := repeat flag n |} |}, y, id_)
  else
    Ok ({| img := scaled; Age_wks := None; Side_L := None |}, y, id_).

Definition dataset_len (ds : KidneyDataset) : nat := List.length (study_ids ds).

(** ** The data module *)

(** The index pairs [(train_idx, val_idx)], one per fold. *)
Definition folds : Type := list (list Z * list Z).

Record module_args : Type := {
  ordered_split : bool;
  train_only : bool;
  args_data_dir : string;
  single_visit : bool;
  ordered_validation : bool;
  include_validation : bool;
  cv : bool;
  num_folds : nat;
  args_include_cov : bool
}.

(** [DataLoader(dataset, **params)] *)
Record DataLoader : Type := {
  dataset : KidneyDataset;
  params : dict pyval
}.

Record KidneyDataModule : Type := {
  args : module_args;
  train_dataloader_params : dict pyval;
  val_dataloader_params : dict pyval;
  debug : bool;
  val_dicts : option (dict img_entry * dict Z * dict cov_entry * list string);
  fold : Z;
  train_img_dict : dict img_entry;
  train_label_dict : dict Z;
  train_cov_dict : dict cov_entry;
  train_study_ids : list string;
  _train_val_idx_generator : folds;
  test_set : option (dict img_entry * dict Z * dict cov_entry * list string)
}.

(** [KidneyDataModule(args, dataloader_params, debug)] *)
Definition new_module (a : module_args) (dataloader_params : dict pyval) (dbg : bool)
  : KidneyDataModule :=
  {| args := a;
     train_dataloader_params := dataloader_params;
     val_dataloader_params := dict_set dataloader_params "shuffle" (PBool false);
     debug := dbg;
     val_dicts := None;
     fold := 0;
     train_img_dict := [];
     train_label_dict := [];
     train_cov_dict := [];
     train_study_ids := [];
     _train_val_idx_generator := [];
     test_set := None |}.

(** [array[idx]] with a list of positions. *)
Definition np_take {A} (arr : list A) (idx : list Z) : result (list A) :=
  rmap (py_index arr) idx.

(** [{k: d[k] for k in keys}] *)
Definition dict_comprehension {V} (d : dict V) (keys : list string) : result (dict V) :=
  rfold (fun acc k => let? v := dict_index d k in Ok (dict_set acc k v)) keys [].

Definition set_val_dicts (dm : KidneyDataModule)
    (v : dict img_entry * dict Z * dict cov_entry * list string) : KidneyDataModule :=
  {| args := args dm;
     train_dataloader_params := train_dataloader_params dm;
     val_dataloader_params := val_dataloader_params dm;
     debug := debug dm;
     val_dicts := Some v;
     fold := fold dm;
     train_img_dict := train_img_dict dm;
     train_label_dict := train_label_dict dm;
     train_cov_dict := train_cov_dict dm;
     train_study_ids := train_study_ids dm;
     _train_val_idx_generator := _train_val_idx_generator dm;
     test_set := test_set dm |}.

(** [KidneyDataModule.val_dataloader]: the module as it is left, and the
    loader returned, [None] being Python's [None]. *)
Definition val_dataloader (dm : KidneyDataModule)
  : KidneyDataModule * result (option DataLoader) :=
  match py_index (_train_val_idx_generator dm) (fold dm) with
  | Raise e => (dm, Raise e)
  | Ok (_, val_idx) =>
      match np_take (train_study_ids dm) val_idx with
      | Raise e => (dm, Raise e)
      | Ok val_ids =>
          if Nat.eqb (List.length val_ids) 0 then (dm, Ok None)
          else
            match
              (let? val_imgs_dict := dict_comprehension (train_img_dict dm) val_ids in
               let? val_labels_dict := dict_comprehension (train_label_dict dm) val_ids in
               let? val_cov_dict := dict_comprehension (train_cov_dict dm) val_ids in
               Ok (val_imgs_dict, val_labels_dict, val_cov_dict, val_ids))
            with
            | Raise e => (dm, Raise e)
            | Ok (val_imgs_dict, val_labels_dict, val_cov_dict, val_ids') =>
                let dm' :=
                  if debug dm
                  then set_val_dicts dm (val_imgs_dict, val_labels_dict, val_cov_dict, val_ids')
                  else dm in
                (dm',
                 Ok (Some {| dataset := {| image_dict := val_imgs_dict;
                                           labels := val_labels_dict;
                                           covariates := val_cov_dict;
                                           study_ids := val_ids';
                                           include_cov := args_include_cov (args dm) |};
                             params := val_dataloader_params dm |}))
            end
      end
  end.

(** ** The train/validation split *)

(** [a < b] for the values a baseline date takes here, two strings or two
    integers; any other pair is taken as unordered, which is a
    [TypeError]. *)
Definition py_lt (a b : pyval) : result bool :=
  match a, b with
  | PStr s, PStr t => Ok (String.ltb s t)
  | PInt x, PInt y => Ok (x <? y)
  | _, _ => Raise TypeError
  end.

(** [sorted(l, key=...)] with a comparison that may raise. *)
Fixpoint rinsert {A} (lt : A -> A -> result bool) (x : A) (l : list A) : result (list A) :=
  match l with
  | [] => Ok [x]
  | y :: ys =>
      let? b := lt x y in
      if b then Ok (x :: y :: ys) else let? r := rinsert lt x ys in Ok (y :: r)
  end.

Definition rsorted {A} (lt : A -> A -> result bool) (l : list A) : result (list A) :=
  rfold (fun acc x => rinsert lt x acc) l [].

(** [l[:e]] *)
Definition slice_to {A} (l : list A) (e : Z) : list A :=
  if e <? 0 then firstn (Z.to_nat (Z.of_nat (List.length l) + e)) l
  else firstn (Z.to_nat e) l.

(** The loop of [make_train_val_split] that sends each position of
    [train_study_ids] to the train or to the validation side. *)
Fixpoint split_positions (train_ids : list string) (ids : list string) (i : Z)
  : list Z * list Z :=
  match ids with
  | [] => ([], [])
  | id_ :: rest =>
      let (train_idx, val_idx) := split_positions train_ids rest (i + 1) in
      if existsb (String.eqb id_) train_ids
      then (i :: train_idx, val_idx)
      else (train_idx, i :: val_idx)
  end.

Section DataModule.

Variable contrast_resized : image -> list byte.
Variable recursion_limit : nat.
Variable shuffle_indices : nat -> list nat.
(** [list(StratifiedKFold(n_splits, shuffle=True, random_state=42).split(X, y))]
    and [list(StratifiedShuffleSplit(n_splits=1, train_size, random_state=42).split(X, y))],
    which scikit-learn computes. *)
Variable stratified_kfold : nat -> list string -> list Z -> result folds.
Variable stratified_shuffle_split : Q -> list string -> list Z -> result folds.

Definition make_cross_validation_sets (train_study_ids : list string)
    (train_labels : list Z) (n_folds : nat) : result folds :=
  stratified_kfold n_folds train_study_ids train_labels.

(** In the ordered mode a missing ['BL_date'] of a [defaultdict] entry
    reads as the empty list (and is stored in the entry, which [setup]
    undoes with [remove_bl_date]). *)
Definition make_train_val_split (train_study_ids : list string) (train_labels : list Z)
    (cov : dict cov_entry) (split_prop : Q) (ordered : bool) : result folds :=
  if ordered then
    let? date :=
      rmap (fun id_ => let? e := dict_index cov id_ in entry_read e "BL_date")
           train_study_ids in
    let? sorted_id_date :=
      rsorted (fun a b => py_lt (snd a) (snd b)) (combine train_study_ids date) in
    let? sorted_ids :=
      (match sorted_id_date with
       | [] => Raise IndexError
       | _ => Ok (map fst sorted_id_date)
       end) in
    let end_idx := Qfloor (inject_Z (Z.of_nat (List.length sorted_ids)) * split_prop) in
    let train_ids := slice_to sorted_ids end_idx in
    let (train_idx, val_idx) := split_positions train_ids train_study_ids 0 in
    Ok [(shuffle42 shuffle_indices train_idx, shuffle42 shuffle_indices val_idx)]
  else stratified_shuffle_split split_prop train_study_ids train_labels.

Definition fit_config (a : module_args) : extractor_config :=
  {| data_dir := args_data_dir a;
     update_num := None;
     silent_trial := false;
     last_visit_only := false;
     seq := negb (single_visit a);
     include_baseline_date := ordered_validation a |}.

Definition test_config (a : module_args) : extractor_config :=
  {| data_dir := args_data_dir a;
     update_num := None;
     silent_trial := false;
     last_visit_only := single_visit a;
     seq := negb (single_visit a);
     include_baseline_date := false |}.

(** [KidneyDataModule.setup(stage='fit')], from the parsed JSON on: the
    disk and the module as they are left, and whether an exception was
    raised. *)
Definition setup (dm : KidneyDataModule) (json : dict pyval) (d : disk)
  : disk * KidneyDataModule * result unit :=
  let a := args dm in
  match load_dataset shuffle_indices json (1 # 5) (ordered_split a) (train_only a) with
  | Raise e => (d, dm, Raise e)
  | Ok (train_dict, test_dict) =>
      match get_data_dicts contrast_resized recursion_limit (fit_config a) train_dict d with
      | (d1, Raise e) => (d1, dm, Raise e)
      | (d1, Ok (train_img, train_label, train_cov, train_ids)) =>
          let generator :=
            if include_validation a then
              let train_labels := map snd train_label in
              if cv a
              then make_cross_validation_sets train_ids train_labels (num_folds a)
              else make_train_val_split train_ids train_labels train_cov (4 # 5)
                                        (ordered_validation a)
            else Ok [(py_range 0 (Z.of_nat (List.length train_ids)), [])] in
          match generator with
          | Raise e => (d1, dm, Raise e)
          | Ok train_val_ids_generator =>
              let fitted (tests : option data_dicts) :=
                {| args := a;
                   train_dataloader_params := train_dataloader_params dm;
                   val_dataloader_params := val_dataloader_params dm;
                   debug := debug dm;
                   val_dicts := val_dicts dm;
                   fold := fold dm;
                   train_img_dict := train_img;
                   train_label_dict := train_label;
                   train_cov_dict := remove_bl_date train_cov;
                   train_study_ids := dict_keys train_img;
                   _train_val_idx_generator := train_val_ids_generator;
                   test_set := tests |} in
              if negb (train_only a) then
                match test_dict with
                | None => (d1, fitted (test_set dm), Raise AttributeError)
                | Some test_dict' =>
                    match get_data_dicts contrast_resized recursion_limit
                                         (test_config a) test_dict' d1 with
                    | (d2, Raise e) => (d2, fitted (test_set dm), Raise e)
                    | (d2, Ok tests) => (d2, fitted (Some tests), Ok tt)
                    end
                end
              else (d1, fitted (test_set dm), Ok tt)
          end
      end
  end.

End DataModule.
(** * More of the program *)

(** ** [pad_img_le], on shapes *)

(** The loop [while im_shape[0] > dim or im_shape[1] > dim], which resizes
    both sides to four fifths (integer division), [resize] returning an
    image of the shape it is asked for; [fuel] bounds the number of
    turns. *)
Fixpoint shrink_to_fit (fuel h w dim : nat) : nat * nat :=
  match fuel with
  | O => (h, w)
  | S fuel' =>
      if Nat.ltb dim h || Nat.ltb dim w
      then shrink_to_fit fuel' (h * 4 / 5) (w * 4 / 5) dim
      else (h, w)
  end.

(** The shape of the resized image and the four borders handed to
    [cv2.copyMakeBorder]. *)
Record padding : Type := {
  inner_height : nat;
  inner_width : nat;
  top : Z;
  bottom : Z;
  left : Z;
  right : Z
}.

(** [pad_img_le(image_in, dim)] for an image of shape [(h, w)], without
    [random_pad] (the default): the halves of an integer are exact. The
    loop shrinks [h + w] at each turn, so [h + w] turns are enough. *)
Definition pad_img_le (h w dim : nat) : padding :=
  let (h', w') := shrink_to_fit (h + w) h w dim in
  let dh := Z.of_nat dim - Z.of_nat h' in
  let dw := Z.of_nat dim - Z.of_nat w' in
  {| inner_height := h'; inner_width := w';
     top := Qceiling (inject_Z dh / 2);
     bottom := Qfloor (inject_Z dh / 2);
     left := Qceiling (inject_Z dw / 2);
     right := Qfloor (inject_Z dw / 2) |}.

(** The shape of [cv2.copyMakeBorder(image, top, bottom, left, right, ...)]. *)
Definition padded_shape (p : padding) : Z * Z :=
  (Z.of_nat (inner_height p) + top p + bottom p,
   Z.of_nat (inner_width p) + left p + right p).

(** ** The other loaders of the data module *)

(** [KidneyDataModule.train_dataloader]: what [self.train_dicts] is set
    to ([None] when nothing is stored), and the loader returned. *)
Definition train_dataloader (dm : KidneyDataModule)
  : option data_dicts * result DataLoader :=
  match py_index (_train_val_idx_generator dm) (fold dm) with
  | Raise e => (None, Raise e)
  | Ok (train_idx, _) =>
      match np_take (train_study_ids dm) train_idx with
      | Raise e => (None, Raise e)
      | Ok train_ids =>
          match
            (let? train_imgs_dict := dict_comprehension (train_img_dict dm) train_ids in
             let? train_labels_dict := dict_comprehension (train_label_dict dm) train_ids in
             let? train_cov_dict' := dict_comprehension (train_cov_dict dm) train_ids in
             Ok (train_imgs_dict, train_labels_dict, train_cov_dict', train_ids))
          with
          | Raise e => (None, Raise e)
          | Ok (train_imgs_dict, train_labels_dict, train_cov_dict', train_ids') =>
              ((if debug dm
                then Some (train_imgs_dict, train_labels_dict, train_cov_dict', train_ids')
                else None),
               Ok {| dataset := {| image_dict := train_imgs_dict;
                                   labels := train_labels_dict;
                                   covariates := train_cov_dict';
                                   study_ids := train_ids';
                                   include_cov := args_include_cov (args dm) |};
                     params := train_dataloader_params dm |})
          end
      end
  end.


(** ** [autocrop], on two-dimensional arrays *)

(** A two-dimensional array of integers, as the list of its rows; an
    array without rows is taken to have no columns. *)
Definition array2 : Type := list (list Z).

(** [a[i, j]] *)
Definition pixel (a : array2) (i j : nat) : option Z :=
  match nth_error a i with
  | Some row => nth_error row j
  | None => None
  end.

(** [np.max(a, 0)]: the maxima of the columns. *)
Definition max_axis0 (a : array2) : list Z :=
  match a with
  | [] => []
  | row :: rest =>
      fold_left (fun acc r => map (fun p => Z.max (fst p) (snd p)) (combine acc r)) rest row
  end.

(** [np.max(a, 1)]: the maxima of the rows; a row without elements has
    none, which is a [ValueError]. *)
Definition row_max (row : list Z) : result Z :=
  match row with
  | [] => Raise ValueError
  | x :: xs => Ok (fold_left Z.max xs x)
  end.

Definition max_axis1 (a : array2) : result (list Z) := rmap row_max a.

(** [np.where(v > threshold)[0]]: the positions of the elements above the
    threshold, in increasing order. *)
Definition where_gt (v : list Z) (threshold : Z) : list nat :=
  filter (fun i => match nth_error v i with
                   | Some x => threshold <? x
                   | None => false
                   end)
         (List.seq 0 (List.length v)).

(** [l[a:b]] for [0 <= a]. *)
Definition slice {A} (a b : nat) (l : list A) : list A := firstn (b - a) (skipn a l).

(** [autocrop(image, threshold)] for a two-dimensional [image]. *)
Definition autocrop (image0 : array2) (threshold : Z) : result array2 :=
  let rows := where_gt (max_axis0 image0) threshold in
  if negb (Nat.eqb (List.length rows) 0) then
    let? maxima := max_axis1 image0 in
    let cols := where_gt maxima threshold in
    let? c0 := py_index cols 0 in
    let? c1 := py_index cols (-1) in
    let? r0 := py_index rows 0 in
    let? r1 := py_index rows (-1) in
    Ok (map (slice r0 (r1 + 1)) (slice c0 (c1 + 1) image0))
  else Ok (map (firstn 1) (firstn 1 image0)).


(** * Specification vocabulary *)

(** ** The image preprocessor *)

(** [fit_img.shape[0] != 256 or fit_img.shape[1] != 256] *)
Definition off_size (im : image) : bool :=
  negb (Nat.eqb (height im) 256) || negb (Nat.eqb (width im) 256).

(** A cached file that is not 256x256, under a path that contains
    "preprocessed". *)
Definition small_image : image := {| height := 100; width := 100; pixels := [] |}.
Definition cached_path : string := "data/preprocessed/a.png".
Definition cached_disk : disk := [(cached_path, small_image)].

(** ** The state of the extractor between two visits *)

(** The four results of [get_data_dicts]. *)
Definition dicts_img (out : data_dicts) : dict img_entry := fst (fst (fst out)).
Definition dicts_label (out : data_dicts) : dict Z := snd (fst (fst out)).
Definition dicts_cov (out : data_dicts) : dict cov_entry := snd (fst out).
Definition dicts_ids (out : data_dicts) : list string := snd out.

(** A key has at least two ["_"]-separated fields, so that
    [id_.split("_")[1]] exists. *)
Definition has_separator (k : string) : Prop := (2 <= List.length (split "_" k))%nat.

(** The list under a field of a [defaultdict(list)]: a field not yet
    written reads as the empty list; a field holding something else than a
    list has none. *)
Definition list_field (ce : cov_entry) (f : string) : option (list pyval) :=
  match dict_get (fields ce) f with
  | Some (PList a) => Some a
  | Some _ => None
  | None => Some []
  end.

(** In sequence mode a key holds a list of stacked pairs and a
    [defaultdict] whose three covariate fields are lists, with one age per
    stacked pair. *)
Definition sequence_entry (ie : img_entry) (ce : cov_entry) : Prop :=
  exists l lm ls la,
    ie = ImgList l /\ defaulting ce = true
    /\ list_field ce "US_machine" = Some lm
    /\ list_field ce "Sex" = Some ls
    /\ list_field ce "Age_wks" = Some la
    /\ List.length la = List.length l.

(** The entry's fields once a visit's covariates are stored. *)
Definition with_bl_date (bl_date : pyval) (f : dict pyval) : dict pyval :=
  match bl_date with
  | PNone => f
  | _ => dict_set f "BL_date" bl_date
  end.

Section Consistency.

Variable cfg : extractor_config.

(** The entries of a key between [# Initialize] and [# Assign values]. *)
Definition entry_started (ie : img_entry) (ce : cov_entry) : Prop :=
  seq cfg = true -> sequence_entry ie ce.

(** The entries of a key once a visit is stored under it. *)
Definition entry_done (ie : img_entry) (ce : cov_entry) : Prop :=
  if seq cfg then sequence_entry ie ce /\ ie <> ImgList []
  else exists sag trv age,
      ie = ImgStack sag trv /\ dict_get (fields ce) "Age_wks" = Some age.

(** Every label stored so far is 0 or 1. *)
Definition labels01 (s : extractor_state) : Prop :=
  Forall (fun kv => snd kv = 0 \/ snd kv = 1) (label_dict s).

(** The state between two visits: the three dictionaries list the same
    keys in the same order, and each key is complete. *)
Definition consistent (s : extractor_state) : Prop :=
  dict_keys (img_dict s) = dict_keys (label_dict s)
  /\ dict_keys (img_dict s) = dict_keys (cov_dict s)
  /\ Forall has_separator (dict_keys (img_dict s))
  /\ labels01 s
  /\ (forall k ie ce,
        dict_get (img_dict s) k = Some ie -> dict_get (cov_dict s) k = Some ce ->
        entry_done ie ce).

(** The state while the visit stored under [k] is being processed: [k]
    has its entries in the image and covariate dictionaries, and its label
    may still be missing if [k] is new. *)
Definition mid_insertion (k : string) (s : extractor_state) : Prop :=
  dict_keys (img_dict s) = dict_keys (cov_dict s)
  /\ (dict_keys (label_dict s) = dict_keys (img_dict s)
      \/ ((dict_keys (label_dict s) ++ [k])%list = dict_keys (img_dict s)
          /\ ~ In k (dict_keys (label_dict s))))
  /\ In k (dict_keys (img_dict s))
  /\ Forall has_separator (dict_keys (img_dict s))
  /\ labels01 s
  /\ (forall k' ie ce, k' <> k ->
        dict_get (img_dict s) k' = Some ie -> dict_get (cov_dict s) k' = Some ce ->
        entry_done ie ce)
  /\ (forall ie ce,
        dict_get (img_dict s) k = Some ie -> dict_get (cov_dict s) k = Some ce ->
        entry_started ie ce).

(** What a statement may leave behind when the state was consistent before
    it: a consistent state, or an exception that no handler of the
    extractor catches. *)
Definition outcome (x : extractor_state * result unit) : Prop :=
  match x with
  | (s', Ok _) => consistent s'
  | (s', Raise e) => handled e = false \/ consistent s'
  end.

End Consistency.

(** ** Labels *)

(** The label as the specification words it: the [surgery] field when it
    is a bare integer, the first integer element when it is a list, and
    undefined otherwise. *)
Definition first_integer (l : list pyval) : option Z :=
  match find is_int l with
  | Some (PInt z) => Some z
  | _ => None
  end.

Definition resolved_label (surgery_field : option pyval) : option Z :=
  match surgery_field with
  | Some (PInt z) => Some z
  | Some (PList l) => first_integer l
  | _ => None
  end.

(** [type(v) == dict] *)
Definition is_dict (v : pyval) : bool :=
  match v with PDict _ => true | _ => false end.

(** ** Example records *)

(** A stand-in for the resizing and contrast code. *)
Definition example_contrast (im : image) : list byte := pixels im.

(** Two source images, neither of them 256x256. *)

Definition example_disk : disk :=
  [("data/a.png", {| height := 100; width := 100; pixels := [x00; x80; xff] |});
   ("data/b.png", {| height := 300; width := 200; pixels := [x10; xf0] |})].

(** A visit with both views, an age and a machine. *)
Definition example_visit : pyval :=
  PDict [("sag", PStr "a.png"); ("trv", PStr "b.png"); ("Age_wks", PInt 10);
         ("US_machine", PStr "X")].

(** [get_data_dicts(in_dict, "data/", seq=True)] and
    [get_data_dicts(in_dict, "data/", last_visit_only=True)]. *)
Definition sequence_config : extractor_config :=
  {| data_dir := "data/"; update_num := None; silent_trial := false;
     last_visit_only := false; seq := true; include_baseline_date := false |}.

Definition last_visit_config : extractor_config :=
  {| data_dir := "data/"; update_num := None; silent_trial := false;
     last_visit_only := true; seq := false; include_baseline_date := false |}.

(** A patient with one side, one visit and the label 1. *)
Definition example_patient : pyval :=
  PDict [("Sex", PStr "M"); ("BL_date", PStr "2021-01-01");
         ("Left", PDict [("surgery", PInt 1); ("1", example_visit)])].

Definition example_record : dict pyval :=
  [("P1", example_patient); ("P2", example_patient)].

(** The first patient has no ["Sex"]; the second is complete. *)
Definition missing_sex_record : dict pyval :=
  [("P1", PDict [("BL_date", PStr "2021-01-01");
                 ("Left", PDict [("surgery", PInt 1); ("1", example_visit)])]);
   ("P2", example_patient)].

(** One side with the visits "0", "1" and "10". *)
Definition three_visits_record : dict pyval :=
  [("P1", PDict [("Sex", PStr "M");
                 ("Left", PDict [("surgery", PInt 1); ("0", example_visit);
                                 ("1", example_visit); ("10", example_visit)])])].

(** A patient entry with a baseline date and no side. *)
Definition dated (date : string) : pyval :=
  PDict [("Sex", PStr "M"); ("BL_date", PStr date)].

(** Four patients whose order by identifier is the reverse of their order
    by baseline date. *)
Definition reversed_dates_record : dict pyval :=
  [("A", dated "2023-01-01"); ("B", dated "2022-01-01");
   ("C", dated "2021-01-01"); ("D", dated "2020-01-01")].

(** The keys that an extraction returned, if it returned. *)
Definition result_ids (r : result data_dicts) : option (list string) :=
  match r with
  | Ok out => Some (dicts_ids out)
  | Raise _ => None
  end.

(** What the extractor returns on [example_record] in sequence mode. *)
Definition example_dicts : data_dicts :=
  Eval vm_compute in
    match snd (get_data_dicts example_contrast 1000 sequence_config
                 example_record example_disk) with
    | Ok out => out
    | Raise _ => ([], [], [], [])
    end.

(** ** The train/test split *)


(** Ten patients, the later in the alphabet the earlier the date. *)
Definition ten_patients_record : dict pyval :=
  [("P0", dated "2020-10-01"); ("P1", dated "2020-09-01"); ("P2", dated "2020-08-01");
   ("P3", dated "2020-07-01"); ("P4", dated "2020-06-01"); ("P5", dated "2020-05-01");
   ("P6", dated "2020-04-01"); ("P7", dated "2020-03-01"); ("P8", dated "2020-02-01");
   ("P9", dated "2020-01-01")].

(** A stand-in for the order drawn by [sklearn.utils.shuffle]. *)
Definition example_shuffle (n : nat) : list nat := List.seq 0 n.

(** ** The dataset adapter *)





(** ** The data module *)

(** A module after [setup] with validation on: three keys, and one fold
    that validates on the key at position 1. *)
Definition example_module : KidneyDataModule :=
  {| args := {| ordered_split := false; train_only := true; args_data_dir := "data/";
                single_visit := false; ordered_validation := false;
                include_validation := true; cv := false; num_folds := 5;
                args_include_cov := true |};
     train_dataloader_params := [("batch_size", PInt 1); ("shuffle", PBool true)];
     val_dataloader_params := [("batch_size", PInt 1); ("shuffle", PBool false)];
     debug := true;
     val_dicts := None;
     fold := 0;
     train_img_dict := [("A_Left", ImgList []); ("B_Left", ImgList []); ("C_Left", ImgList [])];
     train_label_dict := [("A_Left", 0); ("B_Left", 1); ("C_Left", 0)];
     train_cov_dict := [("A_Left", {| defaulting := true; fields := [] |});
                        ("B_Left", {| defaulting := true; fields := [] |});
                        ("C_Left", {| defaulting := true; fields := [] |})];
     train_study_ids := ["A_Left"; "B_Left"; "C_Left"];
     _train_val_idx_generator := [([0; 2], [1])];
     test_set := None |}.
(** * More specification vocabulary *)

(** ** The image cache *)

(** The file that [special_ST_preprocessing] writes for a source image. *)
Definition cache_image (contrast_resized : image -> list byte) (im : image) : image :=
  {| height := 256; width := 256; pixels := contrast_resized im |}.

(** ** Invariants of the extractor *)

(** A statement keeps [P]: the state it leaves satisfies [P] if the state
    it started from did, whether it returns or raises. *)
Definition keeps (P : extractor_state -> Prop) (A : Type) (c : M A) : Prop :=
  forall s s' r, P s -> c s = (s', r) -> P s'.

(** The disk [d] holds every file of [d0] as it was, and differs from it
    only at names that contain "preprocessed". *)
Definition disk_extends (d0 d : disk) : Prop :=
  (forall p im, dict_get d0 p = Some im -> dict_get d p = Some im)
  /\ (forall p, contains "preprocessed" p = false -> dict_get d p = dict_get d0 p).

(** [0 <= v <= 520] as the extractor checks it: neither [v < 0] nor
    [v > 52 * 10] holds, which is also the case of a NaN. *)
Definition age_in_range (v : pyval) : Prop :=
  num_lt v 0 = Ok false /\ num_gt v (52 * 10) = Ok false.

(** A visit that the extractor stores: its age is there, is neither "NA"
    nor [None] and is in range, and both views are there. *)
Definition valid_visit (visit : pyval) : Prop :=
  (exists age_wks,
      subscript visit "Age_wks" = Ok age_wks
      /\ is_NA_or_None age_wks = false
      /\ age_in_range age_wks)
  /\ (exists sag trv, subscript visit "sag" = Ok sag /\ subscript visit "trv" = Ok trv).

Section Provenance.

Variable cfg : extractor_config.
Variable in_dict : dict pyval.

(** A covariate field holds one value per key, or in sequence mode the
    list of the values of the visits. *)
Definition values_ok (ok : pyval -> Prop) (v : pyval) : Prop :=
  if seq cfg then exists l, v = PList l /\ Forall ok l else ok v.

Definition covariates_ok (ce : cov_entry) : Prop :=
  defaulting ce = seq cfg
  /\ (forall v, dict_get (fields ce) "Age_wks" = Some v -> values_ok age_in_range v)
  /\ (forall v, dict_get (fields ce) "Sex" = Some v ->
                values_ok (fun x => is_int x = true) v)
  /\ NoDup (dict_keys (fields ce)).

(** The key [k] and the label [z] come from a valid visit of a side of a
    patient of the record. *)
Definition label_source (k : string) (z : Z) : Prop :=
  exists study_id patient side side_dict us_num visit,
    dict_get in_dict study_id = Some patient
    /\ subscript patient side = Ok side_dict
    /\ side <> "BL_date" /\ side <> "Sex"
    /\ get_surgery_label side_dict = Some z
    /\ subscript side_dict us_num = Ok visit
    /\ k = make_dict_key cfg study_id side us_num
    /\ valid_visit visit.

(** What is known of the values a visit is stored with: where the record
    holds them, and the checks they went through. *)
Definition stored_visit (dict_key : string) (surgery : Z)
    (machine sex age_wks bl_date : pyval) : Prop :=
  exists study_id patient side side_dict us_num visit,
    dict_get in_dict study_id = Some patient
    /\ subscript patient side = Ok side_dict
    /\ side <> "BL_date" /\ side <> "Sex"
    /\ get_surgery_label side_dict = Some surgery
    /\ subscript side_dict us_num = Ok visit
    /\ dict_key = make_dict_key cfg study_id side us_num
    /\ subscript visit "US_machine" = Ok machine
    /\ subscript patient "Sex" = Ok sex
    /\ subscript visit "Age_wks" = Ok age_wks
    /\ is_NA_or_None age_wks = false
    /\ (exists sag trv, subscript visit "sag" = Ok sag /\ subscript visit "trv" = Ok trv)
    /\ (if include_baseline_date cfg then subscript patient "BL_date" else Ok PNone)
       = Ok bl_date
    /\ (surgery = 0 \/ surgery = 1)
    /\ num_lt age_wks 0 = Ok false
    /\ num_gt age_wks (52 * 10) = Ok false.

(** Every label has a source in the record. *)
Definition labels_sourced (l : dict Z) : Prop :=
  forall k z, dict_get l k = Some z -> label_source k z.

(** Every covariate entry went through the checks. *)
Definition covariates_checked (c : dict cov_entry) : Prop :=
  forall k ce, dict_get c k = Some ce -> covariates_ok ce.

End Provenance.

(** ** The data module *)

Section SetupFolds.

Variable shuffle_indices : nat -> list nat.
Variable stratified_kfold : nat -> list string -> list Z -> result folds.
Variable stratified_shuffle_split : Q -> list string -> list Z -> result folds.

(** The folds [setup] computes from the training extraction. *)
Definition setup_folds (a : module_args) (out : data_dicts) : result folds :=
  if include_validation a then
    if cv a
    then make_cross_validation_sets stratified_kfold (dicts_ids out)
                                    (map snd (dicts_label out)) (num_folds a)
    else make_train_val_split shuffle_indices stratified_shuffle_split
                              (dicts_ids out) (map snd (dicts_label out))
                              (dicts_cov out) (4 # 5) (ordered_validation a)
  else Ok [(py_range 0 (Z.of_nat (List.length (dicts_ids out))), [])].

End SetupFolds.

(** ** The ordered validation split *)

(** [train_cov_dict[id_]['BL_date']] *)
Definition date_of (cov : dict cov_entry) (id_ : string) : result pyval :=
  let? e := dict_index cov id_ in entry_read e "BL_date".

(** The date of [a] is not later than the date of [b], both being
    strings. *)
Definition not_later (a b : string * pyval) : Prop :=
  exists sa sb, snd a = PStr sa /\ snd b = PStr sb /\ String.ltb sb sa = false.

Definition string_dated (a : string * pyval) : Prop := exists s, snd a = PStr s.

(** ** [autocrop] *)

(** Every row has [w] elements. *)
Definition rectangular (a : array2) (w : nat) : Prop :=
  Forall (fun row => List.length row = w) a.

(** Some element of the row, or of the column, is above the threshold. *)
Definition row_above (a : array2) (threshold : Z) (i : nat) : Prop :=
  exists j p, pixel a i j = Some p /\ threshold < p.

Definition column_above (a : array2) (threshold : Z) (j : nat) : Prop :=
  exists i p, pixel a i j = Some p /\ threshold < p.

(** * More example data *)

(** ["data/a.png"] of [example_disk] preprocessed: the disk that is left
    and the image that is returned. *)
Definition example_cached_disk : disk :=
  Eval vm_compute in
    fst (process_input_image example_contrast 10 "data/a.png" example_disk).

Definition example_cached_image : image :=
  Eval vm_compute in
    match snd (process_input_image example_contrast 10 "data/a.png" example_disk) with
    | Ok im => im
    | Raise _ => small_image
    end.

(** The ordered split of [ten_patients_record] with a fifth for testing. *)
Definition example_ordered_train : dict pyval :=
  Eval vm_compute in
    match load_dataset example_shuffle ten_patients_record (1 # 5) true false with
    | Ok (train, _) => train
    | Raise _ => []
    end.

Definition example_ordered_test : dict pyval :=
  Eval vm_compute in
    match load_dataset example_shuffle ten_patients_record (1 # 5) true false with
    | Ok (_, Some test) => test
    | _ => []
    end.

(** The first patient is a string, not a mapping. *)
Definition non_mapping_record : dict pyval :=
  [("P1", PStr "withdrawn"); ("P2", example_patient)].

(** The disk after the extraction of [example_record] in sequence mode. *)
Definition example_disk_after : disk :=
  Eval vm_compute in
    fst (get_data_dicts example_contrast 1000 sequence_config example_record example_disk).

(** The disk when the extraction of [missing_sex_record] stops. *)
Definition missing_sex_disk : disk :=
  Eval vm_compute in
    fst (get_data_dicts example_contrast 1000 sequence_config
           missing_sex_record example_disk).

(** The covariates of the first key of [example_dicts]. *)
Definition example_cov_entry : cov_entry :=
  Eval vm_compute in
    match dict_get (dicts_cov example_dicts) "P1_Left" with
    | Some ce => ce
    | None => {| defaulting := true; fields := [] |}
    end.

(** Two keys with their baseline dates, the second the earlier. *)
Definition dated_covariates : dict cov_entry :=
  [("A_Left", {| defaulting := false;
                 fields := [("Age_wks", PInt 10); ("BL_date", PStr "2020-02-01")] |});
   ("B_Left", {| defaulting := false;
                 fields := [("Age_wks", PInt 12); ("BL_date", PStr "2020-01-01")] |})].

(** A module for [example_record], all of it for training, with or
    without the ordered validation split. *)
Definition example_args (validation : bool) : module_args :=
  {| ordered_split := false; train_only := true; args_data_dir := "data/";
     single_visit := false; ordered_validation := validation;
     include_validation := validation; cv := false; num_folds := 5;
     args_include_cov := true |}.

Definition example_params : dict pyval := [("batch_size", PInt 1); ("shuffle", PBool true)].

(** A stand-in for the two splitters of scikit-learn, which the examples
    do not call. *)
Definition no_folds (A : Type) (_ : A) (_ : list string) (_ : list Z) : result folds :=
  Ok [].

Definition example_setup (validation : bool) : disk * KidneyDataModule * result unit :=
  setup example_contrast 1000 example_shuffle (@no_folds nat) (@no_folds Q)
        (new_module (example_args validation) example_params true)
        example_record example_disk.


Definition example_validated : KidneyDataModule :=
  Eval vm_compute in snd (fst (example_setup true)).

Definition empty_loader : DataLoader :=
  {| dataset := {| image_dict := []; labels := []; covariates := []; study_ids := [];
                   include_cov := false |};
     params := [] |}.

Definition example_train_loader : DataLoader :=
  Eval vm_compute in
    match snd (train_dataloader example_validated) with
    | Ok loader => loader
    | Raise _ => empty_loader
    end.

Definition example_val_loader : DataLoader :=
  Eval vm_compute in
    match snd (val_dataloader example_validated) with
    | Ok (Some loader) => loader
    | _ => empty_loader
    end.

(** A side with the visits "1" and "2". *)
Definition two_visits_side : pyval :=
  PDict [("surgery", PInt 1); ("1", example_visit); ("2", example_visit)].

Definition two_visits_patient : pyval :=
  PDict [("Sex", PStr "M"); ("Left", two_visits_side)].

(** A patient whose only visit has no age. *)
Definition no_age_record : dict pyval :=
  [("P1", PDict [("Sex", PStr "M"); ("BL_date", PStr "2021-01-01");
                 ("Left", PDict [("surgery", PInt 1);
                                 ("1", PDict [("sag", PStr "a.png"); ("trv", PStr "b.png");
                                              ("Age_wks", PStr "NA");
                                              ("US_machine", PStr "X")])])])].

(** A dark frame around two bright elements, and a dark array. *)
Definition framed_array : array2 := [[0; 0; 0; 0]; [0; 3; 7; 0]; [0; 0; 0; 0]].


(** The four results of an extraction that stored nothing. *)
Definition empty_dicts : data_dicts := ([], [], [], []).

(** * Properties *)

Ltac conj_split := repeat match goal with |- _ /\ _ => split end.

(** ** The image preprocessor *)

Section ImagePreprocessingFacts.

Variable contrast_resized : image -> list byte.

Lemma image_open_raises d f e :
  image_open d f = Raise e -> e = FileNotFoundError.
Proof.
  unfold image_open, of_option. destruct (dict_get d f); congruence.
Qed.

(** On a file whose path contains "preprocessed" and whose image is not
    256x256, each function hands the same path to the other: whatever
    the depth allowed, the calls end in a [RecursionError]. *)
Lemma mutual_recursion_never_bottoms_out depth f d im :
  dict_get d f = Some im ->
  off_size im = true ->
  contains "preprocessed" f = true ->
  process_input_image contrast_resized depth f d = (d, Raise RecursionError)
  /\ special_ST_preprocessing contrast_resized depth f d = (d, Raise RecursionError).
Proof.
  intros Hopen Hsize Hname. induction depth as [|depth [IHp IHs]].
  - split; reflexivity.
  - split; simpl.
    + unfold image_open. rewrite Hopen. simpl.
      unfold off_size in Hsize. rewrite Hsize. exact IHs.
    + simpl in Hname. rewrite Hname. exact IHp.
Qed.

(** Both functions raise nothing but what opening a file and the
    interpreter's stack raise. *)
Lemma preprocessing_raises depth :
  forall f d e,
    (snd (process_input_image contrast_resized depth f d) = Raise e ->
     e = FileNotFoundError \/ e = RecursionError)
    /\ (snd (special_ST_preprocessing contrast_resized depth f d) = Raise e ->
        e = FileNotFoundError \/ e = RecursionError).
Proof.
  induction depth as [|depth IH]; intros f d e.
  - split; simpl; intros H; inversion H; auto.
  - split; simpl.
    + destruct (image_open d f) as [im|e'] eqn:Hopen.
      * destruct (negb (Nat.eqb (height im) 256) || negb (Nat.eqb (width im) 256)).
        -- apply IH.
        -- simpl. discriminate.
      * simpl. intros H. inversion H; subst.
        left. eapply image_open_raises; eauto.
    + destruct (contains "preprocessed" f).
      * apply IH.
      * destruct (negb (path_exists d (out_img_filename f))).
        -- destruct (image_open d f) as [im|e'] eqn:Hopen.
           ++ simpl. unfold image_open, image_save. simpl.
              rewrite String.eqb_refl. simpl. discriminate.
           ++ simpl. intros H. inversion H; subst.
              left. eapply image_open_raises; eauto.
        -- simpl. intros H. left. eapply image_open_raises; eauto.
Qed.

(** Away from paths that contain "preprocessed", two frames are enough:
    the recursion is not entered a second time. *)
Lemma process_input_image_two_frames depth f d :
  contains "preprocessed" f = false ->
  snd (process_input_image contrast_resized (S (S depth)) f d) <> Raise RecursionError.
Proof.
  intros Hname.
  change (process_input_image contrast_resized (S (S depth)) f d) with
    (match image_open d f with
     | Raise e => (d, Raise e)
     | Ok fit_img =>
         if negb (Nat.eqb (height fit_img) 256) || negb (Nat.eqb (width fit_img) 256)
         then special_ST_preprocessing contrast_resized (S depth) f d
         else (d, Ok fit_img)
     end).
  destruct (image_open d f) as [im|e'] eqn:Hopen.
  - destruct (negb (Nat.eqb (height im) 256) || negb (Nat.eqb (width im) 256)).
    + simpl. simpl in Hname. rewrite Hname.
      destruct (negb (path_exists d (out_img_filename f))).
      * rewrite Hopen. simpl. unfold image_open, image_save. simpl.
        rewrite String.eqb_refl. simpl. discriminate.
      * simpl. intros H. apply image_open_raises in H. discriminate.
    + simpl. discriminate.
  - simpl. intros H. inversion H; subst.
    apply image_open_raises in Hopen. discriminate.
Qed.

End ImagePreprocessingFacts.

(** C9: on the file [cached_path] of [cached_disk], [process_input_image]
    does not return an array: for every number of stack frames the
    interpreter allows, the calls between [process_input_image] and
    [special_ST_preprocessing] use them all and a [RecursionError] is
    raised. *)
Theorem process_input_image_exhausts_stack :
  forall (contrast_resized : image -> list byte) (depth : nat),
    process_input_image contrast_resized depth cached_path cached_disk
    = (cached_disk, Raise RecursionError).
Proof.
  intros cr depth.
  apply (mutual_recursion_never_bottoms_out cr depth cached_path cached_disk
           (im := small_image)); reflexivity.
Qed.

(** ** Dictionaries *)

Section DictFacts.

Variable V : Type.
Implicit Types (d : dict V) (k : string) (v : V).

Lemma dict_mem_In d k : dict_mem d k = true <-> In k (dict_keys d).
Proof.
  unfold dict_mem. rewrite existsb_exists. split.
  - intros [x [Hin Heq]]. apply String.eqb_eq in Heq. now subst.
  - intros Hin. exists k. split; [assumption | apply String.eqb_refl].
Qed.

Lemma dict_mem_false d k : dict_mem d k = false <-> ~ In k (dict_keys d).
Proof.
  rewrite <- dict_mem_In. destruct (dict_mem d k); split; congruence.
Qed.

Lemma dict_get_In d k : (exists v, dict_get d k = Some v) <-> In k (dict_keys d).
Proof.
  induction d as [|[k' v'] d IH]; simpl.
  - split; [intros [v H]; discriminate | tauto].
  - destruct (String.eqb_spec k k') as [->|Hne].
    + split; [auto | intros _; eauto].
    + rewrite IH. split; [auto | intros [H|H]; [congruence | assumption]].
Qed.

Lemma dict_get_None d k : dict_get d k = None <-> ~ In k (dict_keys d).
Proof.
  rewrite <- dict_get_In. destruct (dict_get d k) as [v|].
  - split; [discriminate | intros H; exfalso; apply H; eauto].
  - split; [intros _ [v H]; discriminate | reflexivity].
Qed.


Lemma dict_get_set_same d k v : dict_get (dict_set d k v) k = Some v.
Proof.
  induction d as [|[k' v'] d IH]; simpl.
  - now rewrite String.eqb_refl.
  - destruct (String.eqb_spec k k') as [->|Hne]; simpl.
    + now rewrite String.eqb_refl.
    + destruct (String.eqb_spec k k'); [contradiction | assumption].
Qed.

Lemma dict_get_set_other d k k' v :
  k' <> k -> dict_get (dict_set d k v) k' = dict_get d k'.
Proof.
  intros Hne. induction d as [|[k0 v0] d IH]; simpl.
  - destruct (String.eqb_spec k' k); [contradiction | reflexivity].
  - destruct (String.eqb_spec k k0) as [->|Hne0]; simpl.
    + destruct (String.eqb_spec k' k0); [contradiction | reflexivity].
    + destruct (String.eqb_spec k' k0); [reflexivity | assumption].
Qed.

Lemma dict_keys_set_in d k v :
  In k (dict_keys d) -> dict_keys (dict_set d k v) = dict_keys d.
Proof.
  induction d as [|[k' v'] d IH]; simpl; [tauto|].
  destruct (String.eqb_spec k k') as [->|Hne]; simpl.
  - reflexivity.
  - intros [H|H]; [congruence | now rewrite IH].
Qed.

Lemma dict_keys_set_notin d k v :
  ~ In k (dict_keys d) -> dict_keys (dict_set d k v) = (dict_keys d ++ [k])%list.
Proof.
  induction d as [|[k' v'] d IH]; simpl; [reflexivity|].
  destruct (String.eqb_spec k k') as [->|Hne]; simpl.
  - intros H; exfalso; auto.
  - intros H. rewrite IH; auto.
Qed.

Lemma dict_set_set d k v v' : dict_set (dict_set d k v) k v' = dict_set d k v'.
Proof.
  induction d as [|[k' v0] d IH]; simpl.
  - now rewrite String.eqb_refl.
  - destruct (String.eqb_spec k k') as [->|Hne]; simpl.
    + now rewrite String.eqb_refl.
    + destruct (String.eqb_spec k k'); [contradiction | now rewrite IH].
Qed.

Lemma dict_set_values (P : V -> Prop) d k v :
  P v -> Forall (fun kv => P (snd kv)) d ->
  Forall (fun kv => P (snd kv)) (dict_set d k v).
Proof.
  intros Hv. induction d as [|[k' v'] d IH]; simpl; intros Hd.
  - constructor; auto.
  - inversion Hd; subst.
    destruct (String.eqb k k'); constructor; auto.
Qed.

Lemma dict_get_app_other (d1 d2 : dict V) k k' v :
  k' <> k -> dict_get (d1 ++ (k, v) :: d2)%list k' = dict_get (d1 ++ d2)%list k'.
Proof.
  intros Hne. induction d1 as [|[k0 v0] d1 IH]; simpl.
  - destruct (String.eqb_spec k' k); [contradiction | reflexivity].
  - destruct (String.eqb k' k0); [reflexivity | assumption].
Qed.

Lemma dict_get_app_here (d1 d2 : dict V) k v :
  ~ In k (dict_keys d1) -> dict_get (d1 ++ (k, v) :: d2)%list k = Some v.
Proof.
  induction d1 as [|[k0 v0] d1 IH]; simpl; intros Hnin.
  - now rewrite String.eqb_refl.
  - destruct (String.eqb_spec k k0) as [->|Hne]; [exfalso; auto | auto].
Qed.

End DictFacts.

(** ** The record extractor *)

Section ExtractorFacts.

Variable contrast_resized : image -> list byte.
Variable recursion_limit : nat.
Variable cfg : extractor_config.

Lemma entry_done_started ie ce : entry_done cfg ie ce -> entry_started cfg ie ce.
Proof.
  unfold entry_done, entry_started. intros H Hseq. rewrite Hseq in H. tauto.
Qed.

Lemma init_entries_opens k s :
  consistent cfg s -> has_separator k ->
  exists s1, init_entries cfg k s = (s1, Ok tt) /\ mid_insertion cfg k s1 /\ files s1 = files s.
Proof.
  intros (Hlab & Hcov & Hsep & H01 & Hent) Hk.
  unfold init_entries, bind, modify.
  destruct (dict_mem (img_dict s) k) eqn:Hmem.
  - assert (Hin : In k (dict_keys (img_dict s))) by (now apply dict_mem_In).
    assert (Hmem' : dict_mem (cov_dict s) k = true)
      by (apply dict_mem_In; now rewrite <- Hcov).
    rewrite Hmem'. exists s. split; [reflexivity|]. split; [|reflexivity].
    unfold mid_insertion. conj_split; eauto.
    intros ie ce H1 H2. apply entry_done_started. eauto.
  - assert (Hnin : ~ In k (dict_keys (img_dict s))) by (now apply dict_mem_false).
    assert (Hmem' : dict_mem (cov_dict s) k = false)
      by (apply dict_mem_false; now rewrite <- Hcov).
    simpl. rewrite Hmem'.
    eexists; split; [reflexivity|]. split; [|reflexivity].
    unfold mid_insertion; simpl.
    rewrite !dict_keys_set_notin by (rewrite <- ?Hcov; assumption).
    conj_split.
    + now rewrite Hcov.
    + right. split; [now rewrite Hlab | now rewrite <- Hlab].
    + apply in_or_app; right; simpl; auto.
    + apply Forall_app; split; auto.
    + exact H01.
    + intros k' ie ce Hne. rewrite !dict_get_set_other by assumption. apply Hent.
    + intros ie ce. rewrite !dict_get_set_same.
      intros H1 H2 Hseq. inversion H1; inversion H2; subst. rewrite Hseq. simpl.
      exists [], [], [], []. unfold list_field. simpl. conj_split; reflexivity.
Qed.


Lemma cov_setitem_spec k f v s ce :
  dict_get (cov_dict s) k = Some ce ->
  cov_setitem k f v s
  = (set_cov_dict s (dict_set (cov_dict s) k
       {| defaulting := defaulting ce; fields := dict_set (fields ce) f v |}), Ok tt).
Proof.
  intros H. unfold cov_setitem, bind, gets, lift, modify, dict_index.
  rewrite H. reflexivity.
Qed.

Lemma cov_append_spec k f v s ce a :
  dict_get (cov_dict s) k = Some ce ->
  defaulting ce = true ->
  list_field ce f = Some a ->
  cov_append k f v s
  = (set_cov_dict s (dict_set (cov_dict s) k
       {| defaulting := defaulting ce;
          fields := dict_set (fields ce) f (PList (a ++ [v])) |}), Ok tt).
Proof.
  intros H Hd Hf. unfold cov_append, bind, gets, lift, modify, dict_index.
  rewrite H. simpl. unfold list_field in Hf.
  destruct (dict_get (fields ce) f) as [[]|]; try discriminate.
  - inversion Hf; subst. reflexivity.
  - inversion Hf; subst. rewrite Hd. reflexivity.
Qed.

Lemma cov_getitem_spec k f s ce v :
  dict_get (cov_dict s) k = Some ce ->
  dict_get (fields ce) f = Some v ->
  cov_getitem k f s = (s, Ok v).
Proof.
  intros H Hf. unfold cov_getitem, bind, gets, lift, dict_index.
  rewrite H. simpl. rewrite Hf. reflexivity.
Qed.

Lemma with_bl_date_other bl f g :
  g <> "BL_date" -> dict_get (with_bl_date bl f) g = dict_get f g.
Proof.
  intros Hne. destruct bl; simpl; try reflexivity;
    now rewrite dict_get_set_other.
Qed.

Lemma set_cov_dict_twice s a b : set_cov_dict (set_cov_dict s a) b = set_cov_dict s b.
Proof. reflexivity. Qed.

Lemma assign_covariates_flat k machine sex age bl s ce :
  seq cfg = false ->
  dict_get (cov_dict s) k = Some ce ->
  assign_covariates cfg k machine sex age bl s
  = (set_cov_dict s (dict_set (cov_dict s) k
       {| defaulting := defaulting ce;
          fields := with_bl_date bl
            (dict_set (dict_set (dict_set (fields ce) "US_machine" machine)
                                "Sex" (sex_code sex))
                      "Age_wks" age) |}), Ok tt).
Proof.
  intros Hseq H. unfold assign_covariates. rewrite Hseq. simpl. unfold bind.
  erewrite cov_setitem_spec by exact H.
  erewrite cov_setitem_spec by (simpl; apply dict_get_set_same).
  erewrite cov_setitem_spec by (simpl; apply dict_get_set_same).
  simpl. rewrite !dict_set_set.
  destruct bl; unfold ret; simpl; try reflexivity;
    (erewrite cov_setitem_spec by (simpl; apply dict_get_set_same));
    simpl; rewrite !dict_set_set; reflexivity.
Qed.

Lemma list_field_set_other ce f g v d :
  g <> f ->
  list_field {| defaulting := d; fields := dict_set (fields ce) f v |} g = list_field ce g.
Proof.
  intros Hne. unfold list_field. simpl. now rewrite dict_get_set_other.
Qed.

Lemma assign_covariates_seq k machine sex age bl s ce lm ls la :
  seq cfg = true ->
  dict_get (cov_dict s) k = Some ce ->
  defaulting ce = true ->
  list_field ce "US_machine" = Some lm ->
  list_field ce "Sex" = Some ls ->
  list_field ce "Age_wks" = Some la ->
  assign_covariates cfg k machine sex age bl s
  = (set_cov_dict s (dict_set (cov_dict s) k
       {| defaulting := defaulting ce;
          fields := with_bl_date bl
            (dict_set (dict_set (dict_set (fields ce) "US_machine" (PList (lm ++ [machine])))
                                "Sex" (PList (ls ++ [sex_code sex])))
                      "Age_wks" (PList (la ++ [age]))) |}), Ok tt).
Proof.
  intros Hseq H Hd Hm Hs Ha. unfold assign_covariates. rewrite Hseq. simpl. unfold bind.
  erewrite cov_append_spec; [ | exact H | exact Hd | exact Hm ].
  erewrite cov_append_spec;
    [ | simpl; apply dict_get_set_same | exact Hd
      | simpl; rewrite list_field_set_other by discriminate; exact Hs ].
  erewrite cov_append_spec;
    [ | simpl; apply dict_get_set_same | exact Hd
      | simpl; unfold list_field; simpl;
        rewrite !dict_get_set_other by discriminate; exact Ha ].
  simpl. rewrite !dict_set_set.
  destruct bl; unfold ret; simpl; try reflexivity;
    (erewrite cov_setitem_spec by (simpl; apply dict_get_set_same));
    simpl; rewrite !dict_set_set; reflexivity.
Qed.


Lemma consistent_after_store k s IE CE surgery d :
  mid_insertion cfg k s -> surgery = 0 \/ surgery = 1 -> entry_done cfg IE CE ->
  consistent cfg {| img_dict := dict_set (img_dict s) k IE;
         label_dict := dict_set (label_dict s) k surgery;
         cov_dict := dict_set (cov_dict s) k CE;
         files := d |}.
Proof.
  intros (Hcov & Hlab & Hin & Hsep & H01 & Hother & _) Hs Hdone.
  unfold consistent; simpl.
  rewrite (@dict_keys_set_in _ (img_dict s) k IE Hin).
  assert (Hin' : In k (dict_keys (cov_dict s))) by (now rewrite <- Hcov).
  rewrite (@dict_keys_set_in _ (cov_dict s) k CE Hin').
  conj_split; auto.
  - destruct Hlab as [Hlab | [Hlab Hnin]].
    + rewrite dict_keys_set_in by (now rewrite Hlab). now rewrite Hlab.
    + rewrite dict_keys_set_notin by assumption. now rewrite Hlab.
  - unfold labels01; simpl.
    apply (dict_set_values (fun v => v = 0 \/ v = 1)); assumption.
  - intros k0 ie ce. destruct (String.eqb_spec k0 k) as [->|Hne].
    + rewrite !dict_get_set_same. intros H1 H2. inversion H1; inversion H2; subst.
      exact Hdone.
    + rewrite !dict_get_set_other by assumption. now apply Hother.
Qed.

Lemma np_stack_raises a b e : np_stack a b = Raise e -> e = ValueError.
Proof. unfold np_stack. destruct (shape_eqb a b); congruence. Qed.

Lemma store_visit_consistent k sag trv surgery machine sex age bl s :
  mid_insertion cfg k s -> surgery = 0 \/ surgery = 1 -> age <> PNone ->
  match store_visit cfg k sag trv surgery machine sex age bl s with
  | (s', Ok _) => consistent cfg s'
  | (_, Raise e) => handled e = false
  end.
Proof.
  intros HM Hs Hage.
  pose proof HM as (Hcov & Hlab & Hin & Hsep & H01 & Hother & Hstart).
  assert (Hin' : In k (dict_keys (cov_dict s))) by (now rewrite <- Hcov).
  apply dict_get_In in Hin as [ie Hie]. apply dict_get_In in Hin' as [ce Hce].
  specialize (Hstart ie ce Hie Hce).
  unfold store_visit. unfold bind at 1. unfold assign_images.
  destruct (seq cfg) eqn:Hseq; simpl.
  - destruct (Hstart Hseq) as (l & lm & ls & la & -> & Hd & Hm & Hsx & Ha & Hlen).
    unfold bind at 1. unfold gets at 1. unfold bind at 1. unfold lift at 1.
    unfold dict_index. rewrite Hie. simpl.
    unfold bind at 1. unfold lift at 1.
    destruct (np_stack sag trv) as [st|e] eqn:Hst; simpl;
      [|apply np_stack_raises in Hst; subst; reflexivity].
    unfold bind at 1. unfold modify at 1.
    unfold bind at 1.
    erewrite assign_covariates_seq;
      [ | exact Hseq | simpl; exact Hce | exact Hd | exact Hm | exact Hsx | exact Ha ].
    simpl. unfold bind at 1. unfold gets at 1. simpl.
    unfold bind at 1. unfold lift at 1. rewrite dict_get_set_same. simpl.
    unfold bind at 1. unfold gets at 1. simpl.
    unfold bind at 1. unfold lift at 1. rewrite dict_get_set_same. simpl.
    unfold bind at 1.
    erewrite cov_getitem_spec;
      [ | simpl; apply dict_get_set_same
        | simpl; rewrite with_bl_date_other by discriminate;
          rewrite dict_get_set_other by discriminate; apply dict_get_set_same ].
    simpl. unfold bind at 1. unfold ret at 1.
    unfold bind at 1.
    erewrite cov_getitem_spec;
      [ | simpl; apply dict_get_set_same
        | simpl; rewrite with_bl_date_other by discriminate; apply dict_get_set_same ].
    simpl. unfold ret.
    apply consistent_after_store; auto.
    unfold entry_done. rewrite Hseq. split.
    + exists (l ++ [st])%list, (lm ++ [machine])%list, (ls ++ [sex_code sex])%list,
        (la ++ [age])%list.
      unfold list_field; simpl.
      rewrite !with_bl_date_other by discriminate.
      rewrite !dict_get_set_same.
      rewrite !dict_get_set_other by discriminate.
      rewrite !dict_get_set_same.
      rewrite !dict_get_set_other by discriminate.
      rewrite !dict_get_set_same.
      conj_split; auto.
      rewrite !length_app. simpl. now rewrite Hlen.
    + intros H. inversion H. destruct l; discriminate.
  - unfold bind at 1. unfold lift at 1.
    destruct (np_stack sag trv) as [st|e] eqn:Hst; simpl;
      [|apply np_stack_raises in Hst; subst; reflexivity].
    unfold bind at 1. unfold modify at 1.
    unfold bind at 1.
    erewrite assign_covariates_flat; [ | exact Hseq | simpl; exact Hce ].
    simpl. unfold bind at 1. unfold gets at 1. simpl.
    unfold bind at 1. unfold lift at 1. unfold dict_index.
    rewrite dict_get_set_same. simpl.
    unfold bind at 1. unfold gets at 1. simpl.
    unfold bind at 1. unfold lift at 1. rewrite dict_get_set_same. simpl.
    unfold bind at 1.
    erewrite cov_getitem_spec;
      [ | simpl; apply dict_get_set_same
        | simpl; rewrite with_bl_date_other by discriminate;
          rewrite dict_get_set_other by discriminate; apply dict_get_set_same ].
    assert (Hsex : assert_not_None (sex_code sex) = ret tt)
      by (destruct sex; simpl; try reflexivity; destruct (String.eqb s0 "M"); reflexivity).
    rewrite Hsex. unfold bind at 1. unfold ret at 1.
    unfold bind at 1.
    erewrite cov_getitem_spec;
      [ | simpl; apply dict_get_set_same
        | simpl; rewrite with_bl_date_other by discriminate; apply dict_get_set_same ].
    assert (Hage' : assert_not_None age = ret tt)
      by (destruct age; simpl; try reflexivity; congruence).
    rewrite Hage'. unfold ret.
    apply consistent_after_store; auto.
    unfold entry_done. rewrite Hseq.
    exists (fst st), (snd st), age. split; [reflexivity|].
    simpl. rewrite with_bl_date_other by discriminate. apply dict_get_set_same.
Qed.


Lemma split_nonempty sep s : (1 <= List.length (split sep s))%nat.
Proof.
  induction s as [|c s IH]; simpl; [lia|].
  destruct (Ascii.eqb c sep); simpl; [lia|].
  destruct (split sep s); simpl in *; lia.
Qed.

Lemma split_separator a b : (2 <= List.length (split "_" (a ++ "_" ++ b)))%nat.
Proof.
  induction a as [|c a IH]; simpl.
  - pose proof (split_nonempty "_" b). lia.
  - destruct (Ascii.eqb c "_"); simpl.
    + pose proof (split_nonempty "_" (a ++ String "_" b)). lia.
    + simpl in IH. destruct (split "_" (a ++ String "_" b)); simpl in *; lia.
Qed.

Lemma make_dict_key_separator study_id side us_num :
  has_separator (make_dict_key cfg study_id side us_num).
Proof. unfold has_separator, make_dict_key. apply split_separator. Qed.

Lemma preprocess_outcome f s :
  exists d r, preprocess contrast_resized recursion_limit cfg f s = (set_files s d, r)
    /\ forall e, r = Raise e -> handled e = false.
Proof.
  unfold preprocess, on_disk.
  destruct (silent_trial cfg).
  - destruct (process_input_image contrast_resized recursion_limit f (files s)) as [d r] eqn:E.
    exists d, r. split; [reflexivity|]. intros e ->.
    destruct (preprocessing_raises contrast_resized recursion_limit f (files s) e) as [H _].
    rewrite E in H. destruct (H eq_refl); subst; reflexivity.
  - destruct (special_ST_preprocessing contrast_resized recursion_limit f (files s))
      as [d r] eqn:E.
    exists d, r. split; [reflexivity|]. intros e ->.
    destruct (preprocessing_raises contrast_resized recursion_limit f (files s) e) as [_ H].
    rewrite E in H. destruct (H eq_refl); subst; reflexivity.
Qed.

Tactic Notation "step_lift" ident(x) ident(E) :=
  match goal with
  | |- context [bind (lift ?r) _ _] =>
      unfold bind at 1; unfold lift at 1; cbv beta iota;
      destruct r as [x|] eqn:E; [ | simpl; right; assumption ]
  end.

Lemma visit_body_outcome study_id patient side side_dict surgery us_num s :
  consistent cfg s ->
  outcome cfg (visit_body contrast_resized recursion_limit cfg
             study_id patient side side_dict surgery us_num s).
Proof.
  intros HI. unfold visit_body, outcome.
  step_lift visit Evisit. step_lift age Eage. step_lift visit_keys Ekeys.
  destruct (is_NA_or_None age || _) eqn:Hskip; [exact HI|].
  apply orb_false_elim in Hskip as [HNA _].
  step_lift machine Emachine. step_lift sex Esex.
  unfold bind at 1; unfold lift at 1; cbv beta iota.
  unfold bind at 1.
  assert (Hbl : exists bl,
             (if include_baseline_date cfg
              then lift (subscript patient "BL_date") else ret PNone) s = (s, bl)).
  { destruct (include_baseline_date cfg); eexists; reflexivity. }
  destruct Hbl as [bl Hbl]. rewrite Hbl.
  destruct bl as [bl_date|e]; [|right; exact HI].
  destruct (negb ((surgery =? 0) || (surgery =? 1))) eqn:Hsurg; [exact HI|].
  apply negb_false_iff, orb_true_iff in Hsurg.
  assert (Hs : surgery = 0 \/ surgery = 1) by (destruct Hsurg as [H|H]; apply Z.eqb_eq in H; auto).
  step_lift negative Eneg. destruct negative; [exact HI|].
  step_lift too_old Eold. destruct too_old; [exact HI|].
  unfold bind at 1.
  destruct (@init_entries_opens (make_dict_key cfg study_id side us_num) s HI
              (make_dict_key_separator study_id side us_num)) as (s1 & Hinit & HM & _).
  rewrite Hinit.
  unfold bind at 1; unfold lift at 1.
  destruct (rbind (subscript visit "sag") (str_add (data_dir cfg))) as [sag_path|e] eqn:Esag;
    [|left].
  2:{ destruct (subscript visit "sag") as [v|e'] eqn:E'; simpl in Esag.
      - destruct v; inversion Esag; reflexivity.
      - destruct visit; simpl in E'; try (inversion E'; subst; inversion Esag; reflexivity).
        unfold dict_index, of_option in E'. destruct (dict_get d "sag"); inversion E'; subst.
        inversion Esag; reflexivity. }
  unfold bind at 1.
  destruct (preprocess_outcome sag_path s1) as (d1 & r1 & -> & Hr1).
  destruct r1 as [sag_img|e]; [|left; now apply Hr1].
  unfold bind at 1; unfold lift at 1.
  destruct (rbind (subscript visit "trv") (str_add (data_dir cfg))) as [trv_path|e] eqn:Etrv;
    [|left].
  2:{ destruct (subscript visit "trv") as [v|e'] eqn:E'; simpl in Etrv.
      - destruct v; inversion Etrv; reflexivity.
      - destruct visit; simpl in E'; try (inversion E'; subst; inversion Etrv; reflexivity).
        unfold dict_index, of_option in E'. destruct (dict_get d "trv"); inversion E'; subst.
        inversion Etrv; reflexivity. }
  unfold bind at 1.
  destruct (preprocess_outcome trv_path (set_files s1 d1)) as (d2 & r2 & -> & Hr2).
  destruct r2 as [trv_img|e]; [|left; now apply Hr2].
  assert (Hage : age <> PNone) by (intros ->; discriminate).
  pose proof (@store_visit_consistent (make_dict_key cfg study_id side us_num) sag_img trv_img
                surgery machine sex age bl_date (set_files (set_files s1 d1) d2) HM Hs Hage) as Hst.
  destruct (store_visit _ _ _ _ _ _ _ _ _ _) as [s' [[]|e]]; [exact Hst | left; exact Hst].
Qed.


Lemma for_each_outcome (A : Type) (body : A -> M unit) (l : list A) :
  (forall x s, consistent cfg s -> outcome cfg (body x s)) ->
  forall s, consistent cfg s -> outcome cfg (for_each l body s).
Proof.
  intros Hbody. induction l as [|x l IH]; intros s HI; simpl.
  - exact HI.
  - unfold bind. specialize (Hbody x s HI).
    destruct (body x s) as [s' [[]|e]]; simpl in *.
    + now apply IH.
    + exact Hbody.
Qed.

Lemma side_body_outcome study_id patient side s :
  consistent cfg s ->
  outcome cfg (side_body contrast_resized recursion_limit cfg study_id patient side s).
Proof.
  intros HI. unfold side_body, outcome.
  step_lift side_dict Eside. step_lift side_keys Ekeys.
  destruct (get_surgery_label side_dict) as [surgery|]; [|exact HI].
  destruct (Nat.eqb _ 0); [exact HI|].
  apply for_each_outcome; [|exact HI].
  intros. now apply visit_body_outcome.
Qed.

Lemma patient_body_outcome in_dict study_id s :
  consistent cfg s ->
  outcome cfg (patient_body contrast_resized recursion_limit cfg in_dict study_id s).
Proof.
  intros HI. unfold patient_body, try_except.
  assert (Hbody : outcome cfg
    ((bind (lift (dict_index in_dict study_id)) (fun patient =>
      bind (lift (py_keys patient)) (fun patient_keys =>
        for_each (setdiff1d patient_keys ["BL_date"; "Sex"])
                 (side_body contrast_resized recursion_limit cfg study_id patient)))) s)).
  { unfold outcome. step_lift patient Epatient. step_lift patient_keys Ekeys.
    apply for_each_outcome; [|exact HI].
    intros. now apply side_body_outcome. }
  destruct (bind _ _ s) as [s' [[]|e]]; simpl in *.
  - exact Hbody.
  - destruct (handled e) eqn:Hh; simpl.
    + destruct Hbody; [discriminate | assumption].
    + now left.
Qed.

Lemma initial_state_consistent d : consistent cfg (initial_state d).
Proof.
  unfold consistent, initial_state, labels01; simpl. conj_split; auto.
  intros k ie ce H. discriminate.
Qed.

Lemma get_data_dicts_consistent in_dict d out :
  snd (get_data_dicts contrast_resized recursion_limit cfg in_dict d) = Ok out ->
  exists s, consistent cfg s /\ out = (img_dict s, label_dict s, cov_dict s, dict_keys (img_dict s)).
Proof.
  unfold get_data_dicts. intros H.
  pose proof (@for_each_outcome _
                (patient_body contrast_resized recursion_limit cfg in_dict)
                (dict_keys in_dict)
                (fun x s => @patient_body_outcome in_dict x s)
                (initial_state d) (initial_state_consistent d)) as Hout.
  destruct (for_each _ _ _) as [s [[]|e]]; simpl in *.
  - exists s. split; [exact Hout|]. congruence.
  - discriminate.
Qed.


Lemma get_data_dicts_consistent_out in_dict d out :
  snd (get_data_dicts contrast_resized recursion_limit cfg in_dict d) = Ok out ->
  dict_keys (dicts_img out) = dict_keys (dicts_label out)
  /\ dict_keys (dicts_img out) = dict_keys (dicts_cov out)
  /\ dicts_ids out = dict_keys (dicts_img out)
  /\ Forall has_separator (dict_keys (dicts_img out))
  /\ Forall (fun kv => snd kv = 0 \/ snd kv = 1) (dicts_label out)
  /\ (forall k ie ce,
        dict_get (dicts_img out) k = Some ie -> dict_get (dicts_cov out) k = Some ce ->
        entry_done cfg ie ce).
Proof.
  intros H. apply get_data_dicts_consistent in H as (s & HI & ->).
  destruct HI as (H1 & H2 & H3 & H4 & H5).
  unfold dicts_img, dicts_label, dicts_cov, dicts_ids; simpl. conj_split; auto.
Qed.

(** C1: whenever [get_data_dicts] returns, the image dictionary, the label
    dictionary and the covariate dictionary have the same keys, in the
    same order, and the key list is that list: a key is in all four
    results or in none. *)
Theorem get_data_dicts_keys_agree in_dict d out :
  snd (get_data_dicts contrast_resized recursion_limit cfg in_dict d) = Ok out ->
  dict_keys (dicts_img out) = dict_keys (dicts_label out)
  /\ dict_keys (dicts_img out) = dict_keys (dicts_cov out)
  /\ dicts_ids out = dict_keys (dicts_img out)
  /\ forall k,
      (In k (dict_keys (dicts_img out)) <-> In k (dict_keys (dicts_label out)))
      /\ (In k (dict_keys (dicts_img out)) <-> In k (dict_keys (dicts_cov out)))
      /\ (In k (dict_keys (dicts_img out)) <-> In k (dicts_ids out)).
Proof.
  intros H. apply get_data_dicts_consistent_out in H as (H1 & H2 & H3 & _).
  conj_split; auto.
  intros k. rewrite <- H1, <- H2, H3. tauto.
Qed.

Lemma first_integer_filter l :
  match filter is_int l with
  | PInt z :: _ => Some z
  | _ => None
  end = first_integer l.
Proof.
  unfold first_integer. induction l as [|v l IH]; simpl; [reflexivity|].
  destruct v; simpl; auto.
Qed.

Lemma get_surgery_label_resolved side_dict :
  get_surgery_label side_dict
  = match side_dict with
    | PDict fields => resolved_label (dict_get fields "surgery")
    | _ => None
    end.
Proof.
  destruct side_dict as [| | | | | |fields]; try reflexivity.
  unfold get_surgery_label, resolved_label.
  destruct (dict_mem fields "surgery") eqn:Hmem.
  - destruct (dict_get fields "surgery") as [[]|]; try reflexivity.
    apply first_integer_filter.
  - apply dict_mem_false in Hmem. apply dict_get_None in Hmem. now rewrite Hmem.
Qed.

(** A side whose label is undefined is passed over. *)
Lemma side_without_label_skipped study_id patient side fields s :
  subscript patient side = Ok (PDict fields) ->
  get_surgery_label (PDict fields) = None ->
  side_body contrast_resized recursion_limit cfg study_id patient side s = (s, Ok tt).
Proof.
  intros Hside Hlabel. unfold side_body, bind, lift.
  rewrite Hside. cbv beta iota. rewrite Hlabel. reflexivity.
Qed.

(** C6: the label of a side is its [surgery] field when that is a bare
    integer, the first integer element when it is a list, and undefined
    otherwise; a side with an undefined label is passed over; and every
    value that [get_data_dicts] returns in [label_dict] is 0 or 1. *)
Theorem label_dict_values_binary :
  (forall side_dict,
      get_surgery_label side_dict
      = match side_dict with
        | PDict fields => resolved_label (dict_get fields "surgery")
        | _ => None
        end)
  /\ (forall study_id patient side fields s,
        subscript patient side = Ok (PDict fields) ->
        get_surgery_label (PDict fields) = None ->
        side_body contrast_resized recursion_limit cfg study_id patient side s = (s, Ok tt))
  /\ (forall in_dict d out,
        snd (get_data_dicts contrast_resized recursion_limit cfg in_dict d) = Ok out ->
        forall k v, In (k, v) (dicts_label out) -> v = 0 \/ v = 1).
Proof.
  split; [exact get_surgery_label_resolved|].
  split; [intros; eapply side_without_label_skipped; eassumption|].
  intros in_dict d out H k v Hin.
  apply get_data_dicts_consistent_out in H as (_ & _ & _ & _ & H01 & _).
  rewrite Forall_forall in H01. exact (H01 (k, v) Hin).
Qed.

Lemma for_each_app (A : Type) (body : A -> M unit) (l1 l2 : list A) s :
  for_each (l1 ++ l2) body s = bind (for_each l1 body) (fun _ => for_each l2 body) s.
Proof.
  revert s. induction l1 as [|x l1 IH]; intros s; simpl.
  - reflexivity.
  - unfold bind. destruct (body x s) as [s' [[]|e]]; [|reflexivity].
    rewrite IH. reflexivity.
Qed.

Lemma for_each_ext (A : Type) (body1 body2 : A -> M unit) (l : list A) :
  (forall x s, In x l -> body1 x s = body2 x s) ->
  forall s, for_each l body1 s = for_each l body2 s.
Proof.
  induction l as [|x l IH]; intros Hext s; simpl.
  - reflexivity.
  - unfold bind. rewrite Hext by (left; reflexivity).
    destruct (body2 x s) as [s' [[]|e]]; [|reflexivity].
    apply IH. intros y s0 Hy. apply Hext. now right.
Qed.

Lemma patient_body_non_mapping in_dict study_id v s :
  dict_get in_dict study_id = Some v ->
  is_dict v = false ->
  patient_body contrast_resized recursion_limit cfg in_dict study_id s = (s, Ok tt).
Proof.
  intros Hget Hv. unfold patient_body, try_except, bind, lift, dict_index.
  rewrite Hget. simpl.
  destruct v; try discriminate; reflexivity.
Qed.

Lemma patient_body_other_patient before after study_id v k s :
  k <> study_id ->
  patient_body contrast_resized recursion_limit cfg
    (before ++ (study_id, v) :: after)%list k s
  = patient_body contrast_resized recursion_limit cfg (before ++ after)%list k s.
Proof.
  intros Hne. unfold patient_body, try_except, bind, lift, dict_index.
  now rewrite dict_get_app_other.
Qed.

(** C3, as the code has it: a patient whose entry is not a mapping raises
    an [AttributeError], which is caught at the patient level; the
    patient contributes nothing, and the other patients are extracted as
    if the entry were not in the record. *)
Theorem get_data_dicts_skips_non_mapping before after study_id v d :
  is_dict v = false ->
  ~ In study_id (dict_keys before) ->
  ~ In study_id (dict_keys after) ->
  get_data_dicts contrast_resized recursion_limit cfg
    (before ++ (study_id, v) :: after)%list d
  = get_data_dicts contrast_resized recursion_limit cfg (before ++ after)%list d.
Proof.
  intros Hv Hb Ha. unfold get_data_dicts.
  assert (Heq :
    for_each (dict_keys (before ++ (study_id, v) :: after)%list)
      (patient_body contrast_resized recursion_limit cfg
         (before ++ (study_id, v) :: after)%list) (initial_state d)
    = for_each (dict_keys (before ++ after)%list)
        (patient_body contrast_resized recursion_limit cfg (before ++ after)%list)
        (initial_state d)); [|now rewrite Heq].
  unfold dict_keys. rewrite !map_app. simpl.
  rewrite !for_each_app. unfold bind.
  rewrite (for_each_ext
             (patient_body contrast_resized recursion_limit cfg
                (before ++ (study_id, v) :: after)%list)
             (patient_body contrast_resized recursion_limit cfg (before ++ after)%list)).
  2:{ intros k s Hk. apply patient_body_other_patient. intros ->. now apply Hb. }
  destruct (for_each (map fst before) _ (initial_state d)) as [s1 [[]|e]]; [|reflexivity].
  simpl. unfold bind.
  rewrite (@patient_body_non_mapping _ study_id v s1)
    by (try apply dict_get_app_here; assumption).
  apply for_each_ext.
  intros k s Hk. apply patient_body_other_patient. intros ->. now apply Ha.
Qed.

End ExtractorFacts.

(** ** The train/test split *)

Section SortedFacts.

Variable A : Type.
Variable ltb : A -> A -> bool.

Lemma insert_sorted_perm x l : Permutation (insert_sorted ltb x l) (x :: l).
Proof.
  induction l as [|y l IH]; simpl; [reflexivity|].
  destruct (ltb x y); [reflexivity|].
  rewrite IH. apply perm_swap.
Qed.

Lemma sorted_by_perm l : Permutation (sorted_by ltb l) l.
Proof.
  unfold sorted_by.
  assert (H : forall acc, Permutation (fold_left (fun acc x => insert_sorted ltb x acc) l acc)
                                      (l ++ acc)).
  { induction l as [|x l IH]; intros acc; simpl; [reflexivity|].
    rewrite IH. rewrite insert_sorted_perm. symmetry. apply Permutation_middle. }
  rewrite H. now rewrite app_nil_r.
Qed.

End SortedFacts.



Lemma rmap_length (A B : Type) (f : A -> result B) l ys :
  rmap f l = Ok ys -> List.length ys = List.length l.
Proof.
  revert ys. induction l as [|x l IH]; simpl; intros ys H.
  - inversion H; reflexivity.
  - destruct (f x); simpl in H; [|discriminate].
    destruct (rmap f l); simpl in H; [|discriminate].
    inversion H; subst. simpl. f_equal. now apply IH.
Qed.


Lemma rmap_ok (A B : Type) (f : A -> result B) l :
  (forall x, In x l -> exists y, f x = Ok y) -> exists ys, rmap f l = Ok ys.
Proof.
  induction l as [|x l IH]; simpl; intros H; [eauto|].
  destruct (H x (or_introl eq_refl)) as [y Hy]. rewrite Hy. simpl.
  destruct IH as [ys Hys]; [intros; apply H; now right|].
  rewrite Hys. simpl. eauto.
Qed.








Lemma map_fst_combine_eq (A B : Type) (l1 : list A) (l2 : list B) :
  List.length l1 = List.length l2 -> map fst (combine l1 l2) = l1.
Proof.
  revert l2. induction l1 as [|x l1 IH]; intros [|y l2] H; simpl in *; try discriminate.
  - reflexivity.
  - f_equal. apply IH. lia.
Qed.



Section OrderedSplit.

Variable shuffle_indices : nat -> list nat.




End OrderedSplit.

(** ** The dataset adapter *)

Lemma py_index_In (A : Type) (l : list A) i x : py_index l i = Ok x -> In x l.
Proof.
  unfold py_index, of_option. intros H.
  destruct ((0 <=? i) && (i <? Z.of_nat (List.length l))).
  - destruct (nth_error l (Z.to_nat i)) eqn:E; inversion H; subst.
    eapply nth_error_In; eauto.
  - destruct ((- Z.of_nat (List.length l) <=? i) && (i <? 0)); [|discriminate].
    destruct (nth_error l (Z.to_nat (i + Z.of_nat (List.length l)))) eqn:E;
      inversion H; subst.
    eapply nth_error_In; eauto.
Qed.






Section AdapterFacts.

Variable contrast_resized : image -> list byte.
Variable recursion_limit : nat.
Variable cfg : extractor_config.


End AdapterFacts.

(** ** The data module *)

Lemma dict_keys_set_iff (V : Type) (d : dict V) k v k' :
  In k' (dict_keys (dict_set d k v)) <-> In k' (dict_keys d) \/ k' = k.
Proof.
  rewrite <- !dict_get_In.
  destruct (String.eqb_spec k' k) as [->|Hne].
  - rewrite dict_get_set_same. split; eauto.
  - rewrite dict_get_set_other by assumption. split; [auto|].
    intros [H|H]; [assumption | contradiction].
Qed.

Lemma dict_comprehension_spec (V : Type) (d : dict V) (keys : list string) :
  (forall k, In k keys -> In k (dict_keys d)) ->
  exists out,
    dict_comprehension d keys = Ok out
    /\ (forall k, In k (dict_keys out) <-> In k keys)
    /\ (forall k v, dict_get out k = Some v -> dict_get d k = Some v).
Proof.
  unfold dict_comprehension.
  assert (H : forall acc,
    (forall k, In k keys -> In k (dict_keys d)) ->
    (forall k v, dict_get acc k = Some v -> dict_get d k = Some v) ->
    exists out,
      rfold (fun acc k => let? v := dict_index d k in Ok (dict_set acc k v)) keys acc = Ok out
      /\ (forall k, In k (dict_keys out) <-> In k (dict_keys acc) \/ In k keys)
      /\ (forall k v, dict_get out k = Some v -> dict_get d k = Some v)).
  { induction keys as [|k keys IH]; intros acc Hin Hacc; simpl.
    - exists acc. conj_split; auto. intros k; tauto.
    - assert (Hk : In k (dict_keys d)) by (apply Hin; now left).
      apply dict_get_In in Hk as [v Hv]. unfold dict_index. rewrite Hv. simpl.
      destruct (IH (dict_set acc k v)) as (out & Hout & Hkeys & Hvals).
      + intros k' Hk'. apply Hin. now right.
      + intros k' v'. destruct (String.eqb_spec k' k) as [->|Hne].
        * rewrite dict_get_set_same. congruence.
        * rewrite dict_get_set_other by assumption. apply Hacc.
      + exists out. conj_split; auto.
        intros k'. rewrite Hkeys, dict_keys_set_iff. split.
        * intros [[H|H]|H]; auto.
        * intros [H|[H|H]]; auto. }
  intros Hin. destruct (H [] Hin) as (out & Hout & Hkeys & Hvals).
  - intros k v Hk. discriminate.
  - exists out. conj_split; auto.
    intros k. rewrite Hkeys. simpl. tauto.
Qed.

Lemma val_dataloader_no_indices dm train_idx :
  py_index (_train_val_idx_generator dm) (fold dm) = Ok (train_idx, []) ->
  val_dataloader dm = (dm, Ok None).
Proof.
  intros H. unfold val_dataloader. rewrite H. reflexivity.
Qed.

Lemma val_dataloader_indices dm train_idx val_idx val_ids :
  py_index (_train_val_idx_generator dm) (fold dm) = Ok (train_idx, val_idx) ->
  val_idx <> [] ->
  np_take (train_study_ids dm) val_idx = Ok val_ids ->
  (forall k, In k val_ids ->
             In k (dict_keys (train_img_dict dm))
             /\ In k (dict_keys (train_label_dict dm))
             /\ In k (dict_keys (train_cov_dict dm))) ->
  exists dm' loader,
    val_dataloader dm = (dm', Ok (Some loader))
    /\ study_ids (dataset loader) = val_ids
    /\ params loader = val_dataloader_params dm
    /\ include_cov (dataset loader) = args_include_cov (args dm)
    /\ (forall k, In k (dict_keys (image_dict (dataset loader))) <-> In k val_ids)
    /\ (forall k, In k (dict_keys (labels (dataset loader))) <-> In k val_ids)
    /\ (forall k, In k (dict_keys (covariates (dataset loader))) <-> In k val_ids)
    /\ (forall k v, dict_get (image_dict (dataset loader)) k = Some v ->
                    dict_get (train_img_dict dm) k = Some v)
    /\ (forall k v, dict_get (labels (dataset loader)) k = Some v ->
                    dict_get (train_label_dict dm) k = Some v)
    /\ (forall k v, dict_get (covariates (dataset loader)) k = Some v ->
                    dict_get (train_cov_dict dm) k = Some v).
Proof.
  intros Hfold Hne Htake Hkeys. unfold val_dataloader. rewrite Hfold, Htake.
  assert (Hlen : List.length val_ids = List.length val_idx)
    by (eapply rmap_length; exact Htake).
  destruct val_ids as [|id0 ids'].
  { destruct val_idx; [contradiction | discriminate]. }
  cbn [List.length Nat.eqb].
  destruct (@dict_comprehension_spec _ (train_img_dict dm) (id0 :: ids'))
    as (imgs & Himgs & Hik & Hiv); [intros k Hk; now apply Hkeys|].
  destruct (@dict_comprehension_spec _ (train_label_dict dm) (id0 :: ids'))
    as (labs & Hlabs & Hlk & Hlv); [intros k Hk; now apply Hkeys|].
  destruct (@dict_comprehension_spec _ (train_cov_dict dm) (id0 :: ids'))
    as (covs & Hcovs & Hck & Hcv); [intros k Hk; now apply Hkeys|].
  rewrite Himgs, Hlabs, Hcovs. cbn [rbind].
  eexists. eexists. split; [reflexivity|].
  cbn [dataset study_ids params include_cov image_dict labels covariates].
  conj_split; auto.
Qed.

(** ** The train/validation split in the ordered mode *)

Lemma split_positions_disjoint train_ids ids :
  forall i train_idx val_idx,
    split_positions train_ids ids i = (train_idx, val_idx) ->
    (forall x, In x train_idx -> i <= x)
    /\ (forall x, In x val_idx -> i <= x)
    /\ (forall x, In x train_idx -> ~ In x val_idx).
Proof.
  induction ids as [|id_ ids IH]; intros i train_idx val_idx H; simpl in H.
  - inversion H; subst. conj_split; intros x [].
  - destruct (split_positions train_ids ids (i + 1)) as [tr va] eqn:E.
    destruct (IH _ _ _ E) as (Htr & Hva & Hdis).
    destruct (existsb (String.eqb id_) train_ids); inversion H; subst; conj_split.
    + intros x [<-|Hx]; [lia | apply Htr in Hx; lia].
    + intros x Hx. apply Hva in Hx. lia.
    + intros x [<-|Hx] Hx'; [apply Hva in Hx'; lia | exact (Hdis x Hx Hx')].
    + intros x Hx. apply Htr in Hx. lia.
    + intros x [<-|Hx]; [lia | apply Hva in Hx; lia].
    + intros x Hx [<-|Hx']; [apply Htr in Hx; lia | exact (Hdis x Hx Hx')].
Qed.

Lemma shuffle42_In (A : Type) (shuffle_indices : nat -> list nat) (l : list A) x :
  In x (shuffle42 shuffle_indices l) -> In x l.
Proof.
  unfold shuffle42. rewrite in_flat_map. intros [i [_ Hx]].
  destruct (nth_error l i) eqn:E; [|destruct Hx].
  destruct Hx as [<-|[]]. eapply nth_error_In; eauto.
Qed.

Section DataModuleFacts.

Variable contrast_resized : image -> list byte.
Variable recursion_limit : nat.
Variable shuffle_indices : nat -> list nat.
Variable stratified_kfold : nat -> list string -> list Z -> result folds.
Variable stratified_shuffle_split : Q -> list string -> list Z -> result folds.

(** Without validation, [setup] leaves one fold: every position for
    training and none for validation. *)
Lemma setup_without_validation dm json d d' dm' :
  include_validation (args dm) = false ->
  setup contrast_resized recursion_limit shuffle_indices
        stratified_kfold stratified_shuffle_split dm json d = (d', dm', Ok tt) ->
  _train_val_idx_generator dm'
  = [(py_range 0 (Z.of_nat (List.length (train_study_ids dm'))), [])]
  /\ fold dm' = fold dm.
Proof.
  intros Hval. unfold setup. rewrite Hval.
  destruct (load_dataset _ _ _ _ _) as [[train_dict test_dict]|e]; [|discriminate].
  destruct (get_data_dicts _ _ (fit_config (args dm)) train_dict d)
    as [d1 [out|e]] eqn:Hget; [|discriminate].
  assert (Hids : dicts_ids out = dict_keys (dicts_img out)).
  { eapply get_data_dicts_consistent_out. rewrite Hget. reflexivity. }
  destruct out as [[[train_img train_label] train_cov] train_ids].
  unfold dicts_ids, dicts_img in Hids; simpl in Hids. subst train_ids.
  destruct (negb (train_only (args dm))).
  - destruct test_dict as [test_dict|]; [|discriminate].
    destruct (get_data_dicts _ _ (test_config (args dm)) test_dict d1) as [d2 [tests|e]];
      [|discriminate].
    intros H; inversion H; subst; simpl. split; reflexivity.
  - intros H; inversion H; subst; simpl. split; reflexivity.
Qed.

(** C10: when the validation indices of the selected fold are empty,
    [val_dataloader] returns [None]; they are empty after a [setup] without
    validation (fold 0 being selected); otherwise, when the indices are
    positions of [train_study_ids] whose keys the training dictionaries
    hold, it returns a loader whose dataset lists exactly the keys at
    those indices, with the entries of these keys, and the validation
    parameters. *)
Theorem val_dataloader_none_or_loader dm train_idx val_idx :
  py_index (_train_val_idx_generator dm) (fold dm) = Ok (train_idx, val_idx) ->
  (val_idx = [] -> val_dataloader dm = (dm, Ok None))
  /\ (forall json d d' dm0,
        include_validation (args dm0) = false -> fold dm0 = 0 ->
        setup contrast_resized recursion_limit shuffle_indices
              stratified_kfold stratified_shuffle_split dm0 json d = (d', dm, Ok tt) ->
        val_idx = [] /\ val_dataloader dm = (dm, Ok None))
  /\ (val_idx <> [] ->
      forall val_ids,
        np_take (train_study_ids dm) val_idx = Ok val_ids ->
        (forall k, In k val_ids ->
                   In k (dict_keys (train_img_dict dm))
                   /\ In k (dict_keys (train_label_dict dm))
                   /\ In k (dict_keys (train_cov_dict dm))) ->
        exists dm' loader,
          val_dataloader dm = (dm', Ok (Some loader))
          /\ study_ids (dataset loader) = val_ids
          /\ params loader = val_dataloader_params dm
          /\ (forall k, In k (dict_keys (image_dict (dataset loader))) <-> In k val_ids)
          /\ (forall k, In k (dict_keys (labels (dataset loader))) <-> In k val_ids)
          /\ (forall k, In k (dict_keys (covariates (dataset loader))) <-> In k val_ids)
          /\ (forall k v, dict_get (image_dict (dataset loader)) k = Some v ->
                          dict_get (train_img_dict dm) k = Some v)
          /\ (forall k v, dict_get (labels (dataset loader)) k = Some v ->
                          dict_get (train_label_dict dm) k = Some v)
          /\ (forall k v, dict_get (covariates (dataset loader)) k = Some v ->
                          dict_get (train_cov_dict dm) k = Some v)).
Proof.
  intros Hfold. conj_split.
  - intros ->. eapply val_dataloader_no_indices; eauto.
  - intros json d d' dm0 Hval Hf0 Hsetup.
    destruct (setup_without_validation _ _ _ Hval Hsetup) as [Hgen Hf].
    rewrite Hgen, Hf, Hf0 in Hfold. vm_compute in Hfold.
    inversion Hfold; subst. split; [reflexivity|].
    eapply val_dataloader_no_indices. rewrite Hgen, Hf, Hf0. reflexivity.
  - intros Hne val_ids Htake Hkeys.
    destruct (val_dataloader_indices dm Hfold Hne Htake Hkeys)
      as (dm' & loader & H1 & H2 & H3 & _ & H4 & H5 & H6 & H7 & H8 & H9).
    exists dm', loader. conj_split; auto.
Qed.


End DataModuleFacts.

(** ** The extractor on concrete records *)

(** The extraction of [example_record] returns [example_dicts]. *)
Lemma get_data_dicts_example :
  snd (get_data_dicts example_contrast 1000 sequence_config example_record example_disk)
  = Ok example_dicts.
Proof. vm_compute. reflexivity. Qed.

(** The keys agree on the extraction of [example_record]. *)
Lemma get_data_dicts_keys_agree_witness :
  snd (get_data_dicts example_contrast 1000 sequence_config example_record example_disk)
  = Ok example_dicts
  /\ dict_keys (dicts_img example_dicts) = dict_keys (dicts_label example_dicts)
  /\ dict_keys (dicts_img example_dicts) = dict_keys (dicts_cov example_dicts)
  /\ dicts_ids example_dicts = dict_keys (dicts_img example_dicts)
  /\ forall k,
      (In k (dict_keys (dicts_img example_dicts))
       <-> In k (dict_keys (dicts_label example_dicts)))
      /\ (In k (dict_keys (dicts_img example_dicts))
          <-> In k (dict_keys (dicts_cov example_dicts)))
      /\ (In k (dict_keys (dicts_img example_dicts)) <-> In k (dicts_ids example_dicts)).
Proof.
  assert (H : snd (get_data_dicts example_contrast 1000 sequence_config
                     example_record example_disk) = Ok example_dicts)
    by (vm_compute; reflexivity).
  split; [exact H|].
  exact (@get_data_dicts_keys_agree example_contrast 1000 sequence_config
           example_record example_disk example_dicts H).
Defined.

(** The labels extracted from [example_record] are 0 or 1. *)
Lemma label_dict_values_binary_witness :
  snd (get_data_dicts example_contrast 1000 sequence_config example_record example_disk)
  = Ok example_dicts
  /\ forall k v, In (k, v) (dicts_label example_dicts) -> v = 0 \/ v = 1.
Proof.
  assert (H : snd (get_data_dicts example_contrast 1000 sequence_config
                     example_record example_disk) = Ok example_dicts)
    by (vm_compute; reflexivity).
  split; [exact H|].
  exact (proj2 (proj2 (label_dict_values_binary example_contrast 1000 sequence_config))
           example_record example_disk example_dicts H).
Defined.

(** C3, as stated, fails: the first patient of [missing_sex_record] has no
    ["Sex"]. The [KeyError] this raises is not caught, and the extraction
    ends with it instead of going on to the second patient, which alone
    is extracted without error. *)
Lemma missing_sex_stops_extraction :
  snd (get_data_dicts example_contrast 1000 sequence_config missing_sex_record example_disk)
  = Raise KeyError
  /\ result_ids (snd (get_data_dicts example_contrast 1000 sequence_config
                        (tl missing_sex_record) example_disk))
     = Some ["P2_Left"].
Proof. split; vm_compute; reflexivity. Qed.

(** A list in the place of a patient entry, between two complete
    patients, changes nothing to what is extracted. *)
Lemma get_data_dicts_skips_non_mapping_witness :
  is_dict (PList []) = false
  /\ ~ In "PX" (dict_keys [("P1", example_patient)])
  /\ ~ In "PX" (dict_keys [("P2", example_patient)])
  /\ get_data_dicts example_contrast 1000 sequence_config
       ([("P1", example_patient)] ++ ("PX", PList []) :: [("P2", example_patient)])%list
       example_disk
     = get_data_dicts example_contrast 1000 sequence_config
         ([("P1", example_patient)] ++ [("P2", example_patient)])%list example_disk.
Proof.
  assert (H1 : is_dict (PList []) = false) by reflexivity.
  assert (H2 : ~ In "PX" (dict_keys [("P1", example_patient)]))
    by (simpl; intros [H|[]]; discriminate).
  assert (H3 : ~ In "PX" (dict_keys [("P2", example_patient)]))
    by (simpl; intros [H|[]]; discriminate).
  split; [exact H1|]. split; [exact H2|]. split; [exact H3|].
  exact (@get_data_dicts_skips_non_mapping example_contrast 1000 sequence_config
           [("P1", example_patient)] [("P2", example_patient)] "PX" (PList [])
           example_disk H1 H2 H3).
Defined.

(** C4: with [last_visit_only], a side whose visits are "0", "1" and "10"
    is not reduced to its last visit "10". The extractor takes the
    characters of "10" for visit numbers: it processes the visits "1" and
    "0", and never the visit "10". *)
Theorem last_visit_only_iterates_characters :
  forall (contrast_resized : image -> list byte) (depth : nat),
    result_ids (snd (get_data_dicts contrast_resized (S depth) last_visit_config
                       three_visits_record example_disk))
    = Some ["P1_Left_1"; "P1_Left_0"].
Proof. intros contrast_resized depth. vm_compute. reflexivity. Qed.

(** ** The train/test split on a concrete record *)

(** C2: in the ordered mode the patients of [reversed_dates_record] are
    split by their identifiers, not by their baseline dates: the test set
    is patient "D", whose date is the earliest, and the train set is "A"
    and "B", whose dates are the two latest. *)
Theorem ordered_split_sorts_by_identifier :
  forall shuffle_indices : nat -> list nat,
    load_dataset shuffle_indices reversed_dates_record (1 # 2) true false
    = Ok ([("A", dated "2023-01-01"); ("B", dated "2022-01-01")],
          Some [("D", dated "2020-01-01")]).
Proof. intros shuffle_indices. vm_compute. reflexivity. Qed.


(** ** The adapter and the data module on concrete data *)


(** [example_module] validates on the key at position 1. *)
Lemma val_dataloader_none_or_loader_witness :
  py_index (_train_val_idx_generator example_module) (fold example_module)
  = Ok ([0; 2], [1])
  /\ [1] <> []
  /\ np_take (train_study_ids example_module) [1] = Ok ["B_Left"]
  /\ (forall k, In k ["B_Left"] ->
                In k (dict_keys (train_img_dict example_module))
                /\ In k (dict_keys (train_label_dict example_module))
                /\ In k (dict_keys (train_cov_dict example_module)))
  /\ exists dm' loader,
      val_dataloader example_module = (dm', Ok (Some loader))
      /\ study_ids (dataset loader) = ["B_Left"].
Proof.
  assert (H1 : py_index (_train_val_idx_generator example_module) (fold example_module)
               = Ok ([0; 2], [1])) by reflexivity.
  assert (H2 : [1] <> @nil Z) by discriminate.
  assert (H3 : np_take (train_study_ids example_module) [1] = Ok ["B_Left"])
    by reflexivity.
  assert (H4 : forall k, In k ["B_Left"] ->
                         In k (dict_keys (train_img_dict example_module))
                         /\ In k (dict_keys (train_label_dict example_module))
                         /\ In k (dict_keys (train_cov_dict example_module)))
    by (intros k [<-|[]]; simpl; tauto).
  split; [exact H1|]. split; [exact H2|]. split; [exact H3|]. split; [exact H4|].
  destruct (proj2 (proj2 (@val_dataloader_none_or_loader example_contrast 1000
                            example_shuffle (fun _ _ _ => Ok []) (fun _ _ _ => Ok [])
                            example_module [0; 2] [1] H1))
              H2 ["B_Left"] H3 H4)
    as (dm' & loader & Hload & Hids & _).
  exists dm', loader. split; assumption.
Defined.
(** * More facts *)

(** ** The image cache *)

Section CacheFacts.

Variable contrast_resized : image -> list byte.

Lemma contains_app_r needle a b : contains needle b = true -> contains needle (a ++ b) = true.
Proof.
  intros H. induction a as [|c a IH]; simpl; [exact H|].
  rewrite IH. apply orb_true_r.
Qed.

Lemma out_img_filename_preprocessed f :
  contains "preprocessed" (out_img_filename f) = true.
Proof.
  unfold out_img_filename.
  apply contains_app_r. apply contains_app_r. apply contains_app_r. reflexivity.
Qed.

(** What a call does to the disk. *)
Lemma preprocessing_disk depth :
  forall f d,
    (let (d', r) := process_input_image contrast_resized depth f d in
     (d' = d
      \/ (contains "preprocessed" f = false
          /\ dict_get d (out_img_filename f) = None
          /\ exists im0, dict_get d f = Some im0
                         /\ d' = image_save d (out_img_filename f)
                                           (cache_image contrast_resized im0)
                         /\ r = Ok (cache_image contrast_resized im0))))
    /\ (let (d', r) := special_ST_preprocessing contrast_resized depth f d in
        (d' = d
         \/ (contains "preprocessed" f = false
             /\ dict_get d (out_img_filename f) = None
             /\ exists im0, dict_get d f = Some im0
                            /\ d' = image_save d (out_img_filename f)
                                              (cache_image contrast_resized im0)
                            /\ r = Ok (cache_image contrast_resized im0)))).
Proof.
  induction depth as [|depth IH]; intros f d.
  - split; simpl; auto.
  - split.
    + simpl. destruct (image_open d f) as [im|e]; [|auto].
      destruct (negb (Nat.eqb (height im) 256) || negb (Nat.eqb (width im) 256)); [|auto].
      apply IH.
    + simpl. destruct (contains "preprocessed" f) eqn:Hname.
      * pose proof (proj1 (IH f d)) as H.
        destruct (process_input_image contrast_resized depth f d) as [d' r].
        destruct H as [H|(Habs & _)]; [auto | congruence].
      * unfold path_exists.
        destruct (dict_get d (out_img_filename f)) as [cached|] eqn:Hcache; simpl; [auto|].
        unfold image_open at 1. destruct (dict_get d f) as [im0|] eqn:Hsrc; simpl; [|auto].
        right. conj_split; auto. exists im0. conj_split; auto.
        unfold image_open, image_save. simpl. rewrite String.eqb_refl. reflexivity.
Qed.


Lemma source_is_not_cache f : contains "preprocessed" f = false -> f <> out_img_filename f.
Proof.
  intros H Heq. rewrite Heq in H. rewrite out_img_filename_preprocessed in H. discriminate.
Qed.

Lemma special_cache_hit depth depth' f d d1 im :
  contains "preprocessed" f = false ->
  special_ST_preprocessing contrast_resized (S depth) f d = (d1, Ok im) ->
  special_ST_preprocessing contrast_resized (S depth') f d1 = (d1, Ok im)
  /\ dict_get d1 f = dict_get d f.
Proof.
  intros Hname H. simpl in H. rewrite Hname in H. unfold path_exists in H.
  simpl. rewrite Hname. unfold path_exists.
  destruct (dict_get d (out_img_filename f)) as [cached|] eqn:Hcache; simpl in H.
  - unfold image_open in H. rewrite Hcache in H. simpl in H. inversion H; subst.
    rewrite Hcache. simpl. unfold image_open. rewrite Hcache. auto.
  - unfold image_open in H at 1. destruct (dict_get d f) as [im0|] eqn:Hsrc; simpl in H;
      [|discriminate].
    unfold image_open, image_save in H. simpl in H. rewrite String.eqb_refl in H.
    simpl in H. inversion H; subst. simpl. rewrite String.eqb_refl. simpl.
    unfold image_open. simpl. rewrite String.eqb_refl. split; [reflexivity|].
    destruct (String.eqb_spec f (out_img_filename f)) as [Heq|_]; [|exact Hsrc].
    exfalso. exact (source_is_not_cache Hname Heq).
Qed.

(** X1: once [process_input_image] has returned an image for a path that
    does not contain "preprocessed", a second call on the disk it left
    returns the same image and leaves the disk as it is. *)
Theorem process_input_image_idempotent depth f d d1 im :
  contains "preprocessed" f = false ->
  process_input_image contrast_resized depth f d = (d1, Ok im) ->
  process_input_image contrast_resized depth f d1 = (d1, Ok im).
Proof.
  intros Hname. destruct depth as [|depth]; simpl; [discriminate|].
  destruct (image_open d f) as [fit|e] eqn:Hopen; [|discriminate].
  destruct (negb (Nat.eqb (height fit) 256) || negb (Nat.eqb (width fit) 256)) eqn:Hoff.
  - destruct depth as [|depth]; [discriminate|].
    intros H. destruct (@special_cache_hit depth depth f d d1 im Hname H) as [H2 Hsame].
    unfold image_open. rewrite Hsame. unfold image_open in Hopen. rewrite Hopen.
    rewrite Hoff. exact H2.
  - intros H; inversion H; subst. rewrite Hopen, Hoff. reflexivity.
Qed.

Lemma preprocessing_shape depth :
  forall f d d' im,
    (process_input_image contrast_resized depth f d = (d', Ok im) ->
     off_size im = false \/ dict_get d (out_img_filename f) = Some im)
    /\ (special_ST_preprocessing contrast_resized depth f d = (d', Ok im) ->
        off_size im = false \/ dict_get d (out_img_filename f) = Some im).
Proof.
  induction depth as [|depth IH]; intros f d d' im.
  - split; simpl; discriminate.
  - split; simpl.
    + destruct (image_open d f) as [fit|e]; [|discriminate].
      destruct (negb (Nat.eqb (height fit) 256) || negb (Nat.eqb (width fit) 256)) eqn:Hoff.
      * apply IH.
      * intros H; inversion H; subst. left. exact Hoff.
    + destruct (contains "preprocessed" f).
      * apply IH.
      * unfold path_exists.
        destruct (dict_get d (out_img_filename f)) as [cached|] eqn:Hcache; simpl.
        -- unfold image_open. rewrite Hcache. simpl.
           intros H; inversion H; subst. now right.
        -- unfold image_open at 1. destruct (dict_get d f) as [im0|]; simpl; [|discriminate].
           unfold image_open, image_save. simpl. rewrite String.eqb_refl. simpl.
           intros H; inversion H; subst. left. reflexivity.
Qed.

(** X2: the image that [process_input_image] returns is 256x256, or it is
    the cache file of the path, which was on the disk before the call. *)
Theorem process_input_image_shape depth f d d' im :
  process_input_image contrast_resized depth f d = (d', Ok im) ->
  (height im = 256%nat /\ width im = 256%nat)
  \/ dict_get d (out_img_filename f) = Some im.
Proof.
  intros H. destruct (proj1 (preprocessing_shape depth f d d' im) H) as [Hoff|Hc]; [|auto].
  left. unfold off_size in Hoff. apply orb_false_elim in Hoff as [H1 H2].
  apply negb_false_iff in H1, H2. apply Nat.eqb_eq in H1, H2. auto.
Qed.

(** X3: [process_input_image] keeps every file of the disk, changes the
    disk at most at the cache file of the path, and leaves it as it is
    when it raises or when the path contains "preprocessed". *)
Theorem process_input_image_disk depth f d d' r :
  process_input_image contrast_resized depth f d = (d', r) ->
  (forall p im, dict_get d p = Some im -> dict_get d' p = Some im)
  /\ (forall p, p <> out_img_filename f -> dict_get d' p = dict_get d p)
  /\ (forall e, r = Raise e -> d' = d)
  /\ (contains "preprocessed" f = true -> d' = d).
Proof.
  intros H. pose proof (proj1 (preprocessing_disk depth f d)) as Hd. rewrite H in Hd.
  destruct Hd as [->|(Hname & Hcache & im0 & Hsrc & -> & ->)].
  - conj_split; auto.
  - conj_split.
    + intros p im Hp. unfold image_save. simpl.
      destruct (String.eqb_spec p (out_img_filename f)) as [->|_]; [congruence|exact Hp].
    + intros p Hp. unfold image_save. simpl.
      destruct (String.eqb_spec p (out_img_filename f)); [contradiction|reflexivity].
    + intros e He. discriminate.
    + intros Ht. congruence.
Qed.

End CacheFacts.

(** ** Padding *)

Lemma shrink_to_fit_fits fuel :
  forall h w dim,
    (h + w <= fuel)%nat ->
    (fst (shrink_to_fit fuel h w dim) <= dim)%nat
    /\ (snd (shrink_to_fit fuel h w dim) <= dim)%nat.
Proof.
  induction fuel as [|fuel IH]; intros h w dim Hf; cbn [shrink_to_fit].
  - simpl. lia.
  - destruct (Nat.ltb dim h || Nat.ltb dim w) eqn:Hc.
    + apply IH.
      apply orb_true_iff in Hc.
      pose proof (Nat.div_mod_eq (h * 4) 5) as Eh.
      pose proof (Nat.mod_upper_bound (h * 4) 5 ltac:(lia)) as Bh.
      pose proof (Nat.div_mod_eq (w * 4) 5) as Ew.
      pose proof (Nat.mod_upper_bound (w * 4) 5 ltac:(lia)) as Bw.
      destruct Hc as [Hc|Hc]; apply Nat.ltb_lt in Hc; lia.
    + apply orb_false_elim in Hc as [H1 H2].
      apply Nat.ltb_ge in H1, H2. simpl. lia.
Qed.

Lemma half_floor (x : Z) : Qfloor (inject_Z x / 2) = x / 2.
Proof.
  unfold Qfloor, Qdiv, Qmult, Qinv, inject_Z. simpl. now rewrite Z.mul_1_r.
Qed.

Lemma half_ceiling (x : Z) : Qceiling (inject_Z x / 2) = - ((- x) / 2).
Proof.
  unfold Qceiling, Qfloor, Qdiv, Qmult, Qinv, Qopp, inject_Z. simpl.
  now rewrite Z.mul_1_r.
Qed.

(** X4: when no side was resized down to nothing, the image that
    [pad_img_le] returns without [random_pad] is [dim] x [dim]: the
    resized image fits, the borders are not negative and are centred, the
    odd pixel going to the top and to the left, and an image that fits is
    not resized. *)
Theorem pad_img_le_shape h w dim :
  let p := pad_img_le h w dim in
  (1 <= inner_height p)%nat -> (1 <= inner_width p)%nat ->
  padded_shape p = (Z.of_nat dim, Z.of_nat dim)
  /\ (inner_height p <= dim)%nat /\ (inner_width p <= dim)%nat
  /\ 0 <= bottom p <= top p /\ top p <= bottom p + 1
  /\ 0 <= right p <= left p /\ left p <= right p + 1
  /\ ((h <= dim)%nat -> (w <= dim)%nat -> inner_height p = h /\ inner_width p = w).
Proof.
  unfold pad_img_le, padded_shape.
  pose proof (@shrink_to_fit_fits (h + w) h w dim (le_n _)) as [Hh Hw].
  destruct (shrink_to_fit (h + w) h w dim) as [h' w'] eqn:E. simpl in Hh, Hw.
  assert (Hfit : (h <= dim)%nat -> (w <= dim)%nat -> h' = h /\ w' = w).
  { intros H1 H2. destruct (h + w)%nat; simpl in E.
    - inversion E; auto.
    - replace (Nat.ltb dim h) with false in E by (symmetry; apply Nat.ltb_ge; lia).
      replace (Nat.ltb dim w) with false in E by (symmetry; apply Nat.ltb_ge; lia).
      simpl in E. inversion E; auto. }
  cbn zeta. cbn [inner_height inner_width top bottom left right]. intros _ _.
  rewrite !half_floor, !half_ceiling.
  conj_split; auto; try (f_equal; Z.div_mod_to_equations; lia);
    try (Z.div_mod_to_equations; lia).
Qed.

(** ** [load_dataset] *)

Lemma dict_pop_get (V : Type) (d : dict V) k k' :
  NoDup (dict_keys d) ->
  dict_get (dict_pop d k) k' = if String.eqb k' k then None else dict_get d k'.
Proof.
  induction d as [|[k0 v0] d IH]; simpl; intros Hnd.
  - now destruct (String.eqb k' k).
  - inversion Hnd as [|? ? Hnin Hnd']; subst.
    destruct (String.eqb_spec k k0) as [Heq|Hne].
    + subst k0. destruct (String.eqb_spec k' k) as [Heq'|Hne'].
      * subst k'. now apply dict_get_None.
      * reflexivity.
    + simpl. destruct (String.eqb_spec k' k0) as [Heq'|Hne'].
      * subst k'. destruct (String.eqb_spec k0 k); [congruence | reflexivity].
      * now apply IH.
Qed.

Lemma dict_pop_keys_NoDup (V : Type) (d : dict V) k :
  NoDup (dict_keys d) -> NoDup (dict_keys (dict_pop d k)).
Proof.
  induction d as [|[k0 v0] d IH]; simpl; intros Hnd; [constructor|].
  inversion Hnd as [|? ? Hnin Hnd']; subst.
  destruct (String.eqb k k0); [assumption|]. simpl. constructor; [|auto].
  intros Hin. apply Hnin. apply dict_get_In in Hin as [v Hv].
  rewrite dict_pop_get in Hv by assumption.
  destruct (String.eqb k0 k); [discriminate|]. apply dict_get_In. eauto.
Qed.

(** The record [load_dataset] works on holds what the JSON holds, without
    the excluded patient. *)
Lemma load_test_dataset_get json k :
  NoDup (dict_keys json) ->
  dict_get (load_test_dataset json) k
  = if String.eqb k excluded_id then None else dict_get json k.
Proof.
  intros Hnd. unfold load_test_dataset.
  destruct (dict_mem json excluded_id) eqn:Hmem.
  - now apply dict_pop_get.
  - destruct (String.eqb_spec k excluded_id) as [->|_]; [|reflexivity].
    apply dict_get_None. now apply dict_mem_false.
Qed.

Lemma take_patient_entries (B : Type) (in_dict : dict pyval) (ids : list B)
    (name : B -> string) range :
  forall acc out,
    rfold (take_patient in_dict ids name) range acc = Ok out ->
    forall k v, dict_get out k = Some v ->
                dict_get acc k = Some v
                \/ (dict_get in_dict k = Some v /\ exists x, In x ids /\ name x = k).
Proof.
  induction range as [|i range IH]; simpl; intros acc out H k v Hk.
  - inversion H; subst. now left.
  - unfold take_patient at 1 in H.
    destruct (py_index ids i) as [x|] eqn:Hx; [|discriminate]. cbn [rbind] in H.
    unfold dict_index in H.
    destruct (dict_get in_dict (name x)) as [p|] eqn:Hp; [|discriminate].
    cbn [of_option rbind] in H.
    destruct (IH _ _ H k v Hk) as [Hacc|Hin]; [|now right].
    destruct (String.eqb_spec k (name x)) as [->|Hne].
    + rewrite dict_get_set_same in Hacc. inversion Hacc; subst.
      right. split; [assumption|]. exists x. split; [|reflexivity].
      eapply py_index_In; eauto.
    + rewrite dict_get_set_other in Hacc by assumption. now left.
Qed.

Section LoadDatasetFacts.

Variable shuffle_indices : nat -> list nat.

(** X5: whatever the mode, every patient of the train and test sets is a
    patient of the JSON, with its entry, and none is the excluded one. *)
Theorem load_dataset_subset json test_prop ordered train_only' train test :
  NoDup (dict_keys json) ->
  load_dataset shuffle_indices json test_prop ordered train_only' = Ok (train, test) ->
  (forall k v, dict_get train k = Some v ->
               dict_get json k = Some v /\ k <> excluded_id)
  /\ (forall test_out k v, test = Some test_out -> dict_get test_out k = Some v ->
                           dict_get json k = Some v /\ k <> excluded_id).
Proof.
  intros Hnd H.
  assert (Hsrc : forall k v, dict_get (load_test_dataset json) k = Some v ->
                             dict_get json k = Some v /\ k <> excluded_id).
  { intros k v Hk. rewrite load_test_dataset_get in Hk by assumption.
    destruct (String.eqb_spec k excluded_id); [discriminate | auto]. }
  unfold load_dataset in H. fold (load_test_dataset json) in H.
  destruct train_only'.
  - inversion H; subst. split; [exact Hsrc | intros; discriminate].
  - match type of H with rbind ?r _ = _ => destruct r as [dates|] end; [|discriminate].
    cbn [rbind] in H. destruct ordered.
    + match type of H with rbind ?r _ = _ => destruct r as [tr|] eqn:Htr end;
        [|discriminate].
      cbn [rbind] in H.
      match type of H with rbind ?r _ = _ => destruct r as [te|] eqn:Hte end;
        [|discriminate].
      cbn [rbind] in H. inversion H; subst. split.
      * intros k v Hk.
        destruct (take_patient_entries _ _ _ _ _ Htr _ Hk) as [Habs|[Hin _]];
          [discriminate | now apply Hsrc].
      * intros test_out k v Heq Hk. inversion Heq; subst.
        destruct (take_patient_entries _ _ _ _ _ Hte _ Hk) as [Habs|[Hin _]];
          [discriminate | now apply Hsrc].
    + match type of H with rbind ?r _ = _ => destruct r as [te|] eqn:Hte end;
        [|discriminate].
      cbn [rbind] in H.
      match type of H with rbind ?r _ = _ => destruct r as [tr|] eqn:Htr end;
        [|discriminate].
      cbn [rbind] in H. inversion H; subst. split.
      * intros k v Hk.
        destruct (take_patient_entries _ _ _ _ _ Htr _ Hk) as [Habs|[Hin _]];
          [discriminate | now apply Hsrc].
      * intros test_out k v Heq Hk. inversion Heq; subst.
        destruct (take_patient_entries _ _ _ _ _ Hte _ Hk) as [Habs|[Hin _]];
          [discriminate | now apply Hsrc].
Qed.

Lemma rmap_raises (A B : Type) (f : A -> result B) (l : list A) e x :
  (forall y, In y l -> (exists b, f y = Ok b) \/ f y = Raise e) ->
  In x l -> f x = Raise e ->
  rmap f l = Raise e.
Proof.
  induction l as [|y l IH]; intros Hall Hin Hx; [destruct Hin|].
  simpl. destruct (Hall y (or_introl eq_refl)) as [[b Hb]|Hr].
  - rewrite Hb. cbn [rbind]. destruct Hin as [->|Hin]; [congruence|].
    rewrite IH; auto. intros z Hz. apply Hall. now right.
  - now rewrite Hr.
Qed.

Lemma baseline_date_outcome (in_dict : dict pyval) k :
  In k (dict_keys in_dict) ->
  (exists v, baseline_date in_dict k = Ok v) \/ baseline_date in_dict k = Raise AttributeError.
Proof.
  intros Hin. unfold baseline_date, dict_index, rbind, of_option.
  apply dict_get_In in Hin as [p Hp]. rewrite Hp.
  destruct p; unfold py_keys; auto.
  destruct (existsb (String.eqb "BL_date") (dict_keys d)) eqn:Hex; [|eauto].
  unfold subscript, dict_index, of_option.
  assert (Hin : In "BL_date" (dict_keys d)) by (now apply dict_mem_In).
  apply dict_get_In in Hin as [v Hv]. rewrite Hv. eauto.
Qed.

(** X6: unless [train_only] is set, one patient entry that is not a
    mapping makes [load_dataset] fail. *)
Theorem load_dataset_non_mapping json test_prop ordered k v :
  dict_get (load_test_dataset json) k = Some v ->
  is_dict v = false ->
  load_dataset shuffle_indices json test_prop ordered false = Raise AttributeError
  /\ load_dataset shuffle_indices json test_prop ordered true
     = Ok (load_test_dataset json, None).
Proof.
  intros Hk Hv. split; [|reflexivity].
  unfold load_dataset. fold (load_test_dataset json). cbv beta iota.
  rewrite (@rmap_raises _ _ (baseline_date (load_test_dataset json))
             (dict_keys (load_test_dataset json)) AttributeError k); [reflexivity| | |].
  - intros y Hy. now apply baseline_date_outcome.
  - apply dict_get_In. eauto.
  - unfold baseline_date, dict_index. rewrite Hk. simpl.
    destruct v; try reflexivity. discriminate.
Qed.







End LoadDatasetFacts.

(** ** Invariants of the extractor's statements *)

Section Keeps.

Variable P : extractor_state -> Prop.

Lemma keeps_ret A (a : A) : keeps P (ret a).
Proof. intros s s' r HP H. inversion H; subst. exact HP. Qed.

Lemma keeps_raise A e : keeps P (@raise A e).
Proof. intros s s' r HP H. inversion H; subst. exact HP. Qed.

Lemma keeps_lift A (r0 : result A) : keeps P (lift r0).
Proof. intros s s' r HP H. inversion H; subst. exact HP. Qed.

Lemma keeps_gets A (f : extractor_state -> A) : keeps P (gets f).
Proof. intros s s' r HP H. inversion H; subst. exact HP. Qed.

Lemma keeps_modify f : (forall s, P s -> P (f s)) -> keeps P (modify f).
Proof. intros Hf s s' r HP H. inversion H; subst. now apply Hf. Qed.

Lemma keeps_bind A B (c : M A) (k : A -> M B) :
  keeps P c -> (forall x, keeps P (k x)) -> keeps P (bind c k).
Proof.
  intros Hc Hk s s' r HP H. unfold bind in H.
  destruct (c s) as [s1 [a|e]] eqn:E.
  - eapply Hk; [|exact H]. eapply Hc; eauto.
  - inversion H; subst. eapply Hc; eauto.
Qed.

Lemma keeps_bind_lift A B (r0 : result A) (k : A -> M B) :
  (forall x, r0 = Ok x -> keeps P (k x)) -> keeps P (bind (lift r0) k).
Proof.
  intros Hk s s' r HP H. unfold bind, lift in H.
  destruct r0 as [a|e].
  - eapply Hk; eauto.
  - inversion H; subst. exact HP.
Qed.

Lemma keeps_try_except body h : keeps P body -> keeps P (try_except body h).
Proof.
  intros Hb s s' r HP H. unfold try_except in H.
  destruct (body s) as [s1 [a|e]] eqn:E.
  - inversion H; subst. eapply Hb; eauto.
  - destruct (h e); inversion H; subst; eapply Hb; eauto.
Qed.

Lemma keeps_for_each A (l : list A) (body : A -> M unit) :
  (forall x, In x l -> keeps P (body x)) -> keeps P (for_each l body).
Proof.
  induction l as [|x l IH]; intros Hb; simpl.
  - apply keeps_ret.
  - apply keeps_bind.
    + apply Hb. now left.
    + intros _. apply IH. intros y Hy. apply Hb. now right.
Qed.

End Keeps.

Section VisitFacts.

Variable contrast_resized : image -> list byte.
Variable recursion_limit : nat.
Variable cfg : extractor_config.
Variable in_dict : dict pyval.

Local Open Scope py_scope.

Variable P : extractor_state -> Prop.

Hypothesis init_keeps :
  forall k sur m sx a b,
    stored_visit cfg in_dict k sur m sx a b -> keeps P (init_entries cfg k).
Hypothesis store_keeps :
  forall k sur m sx a b sag trv,
    stored_visit cfg in_dict k sur m sx a b -> keeps P (store_visit cfg k sag trv sur m sx a b).
Hypothesis preprocess_keeps :
  forall k sur m sx a b f,
    stored_visit cfg in_dict k sur m sx a b ->
    keeps P (preprocess contrast_resized recursion_limit cfg f).

Lemma visit_body_keeps study_id patient side side_dict surgery us_num :
  dict_get in_dict study_id = Some patient ->
  subscript patient side = Ok side_dict ->
  side <> "BL_date" -> side <> "Sex" ->
  get_surgery_label side_dict = Some surgery ->
  keeps P (visit_body contrast_resized recursion_limit cfg
                      study_id patient side side_dict surgery us_num).
Proof.
  intros Hpat Hside Hbl Hsex Hsur. unfold visit_body.
  apply keeps_bind_lift; intros visit Hvisit.
  apply keeps_bind_lift; intros age Hage.
  apply keeps_bind_lift; intros visit_keys Hkeys.
  destruct (_ || _) eqn:Hskip; [apply keeps_ret|].
  apply orb_false_iff in Hskip as [Hna Hviews].
  apply negb_false_iff, andb_true_iff in Hviews as [Hsag Htrv].
  assert (Hboth : exists sag trv,
             subscript visit "sag" = Ok sag /\ subscript visit "trv" = Ok trv).
  { destruct visit; try discriminate. simpl in Hkeys. inversion Hkeys; subst visit_keys.
    change (dict_mem d "sag" = true) in Hsag. change (dict_mem d "trv" = true) in Htrv.
    apply dict_mem_In, dict_get_In in Hsag as [sag Hs].
    apply dict_mem_In, dict_get_In in Htrv as [trv Ht].
    exists sag, trv. simpl. unfold dict_index. rewrite Hs, Ht. auto. }
  apply keeps_bind_lift; intros machine Hmachine.
  apply keeps_bind_lift; intros sex Hsx.
  apply keeps_bind_lift; intros age_wks Hage_wks.
  assert (Hdate : forall bl_date,
    (if include_baseline_date cfg then subscript patient "BL_date" else Ok PNone)
    = Ok bl_date ->
    keeps P
      (if negb ((surgery =? 0) || (surgery =? 1)) then ret tt
       else
         negative <- lift (num_lt age_wks 0) ;;
         if negative then ret tt
         else
           too_old <- lift (num_gt age_wks (52 * 10)) ;;
           if too_old then ret tt
           else
             init_entries cfg (make_dict_key cfg study_id side us_num) ;;;
             sag_path <- lift (rbind (subscript visit "sag") (str_add (data_dir cfg))) ;;
             sag_img <- preprocess contrast_resized recursion_limit cfg sag_path ;;
             trv_path <- lift (rbind (subscript visit "trv") (str_add (data_dir cfg))) ;;
             trv_img <- preprocess contrast_resized recursion_limit cfg trv_path ;;
             store_visit cfg (make_dict_key cfg study_id side us_num) sag_img trv_img
                         surgery machine sex age_wks bl_date)).
  { intros bl_date Hdate.
    destruct (negb _) eqn:Hbin; [apply keeps_ret|].
    apply keeps_bind_lift; intros negative Hneg.
    destruct negative; [apply keeps_ret|].
    apply keeps_bind_lift; intros too_old Hold.
    destruct too_old; [apply keeps_ret|].
    assert (Hsv : stored_visit cfg in_dict (make_dict_key cfg study_id side us_num)
                               surgery machine sex age_wks bl_date).
    { exists study_id, patient, side, side_dict, us_num, visit.
      conj_split; auto.
      - congruence.
      - apply negb_false_iff, orb_true_iff in Hbin. lia. }
    apply keeps_bind; [eapply init_keeps; exact Hsv|]. intros _.
    apply keeps_bind_lift; intros sag_path _.
    apply keeps_bind; [eapply preprocess_keeps; exact Hsv|]. intros sag_img.
    apply keeps_bind_lift; intros trv_path _.
    apply keeps_bind; [eapply preprocess_keeps; exact Hsv|]. intros trv_img.
    eapply store_keeps; exact Hsv. }
  destruct (include_baseline_date cfg).
  - apply keeps_bind_lift; intros bl_date Hd. now apply Hdate.
  - change (@ret pyval PNone) with (lift (Ok PNone)).
    apply keeps_bind_lift; intros bl_date Hd. now apply Hdate.
Qed.

Lemma setdiff1d_excludes x l :
  In x (setdiff1d l ["BL_date"; "Sex"]) -> x <> "BL_date" /\ x <> "Sex".
Proof.
  unfold setdiff1d. intros H. apply filter_In in H as [_ H].
  change (np_unique ["BL_date"; "Sex"]) with ["BL_date"; "Sex"] in H.
  cbn [existsb] in H. apply negb_true_iff in H.
  apply orb_false_iff in H as [H1 H2]. apply orb_false_iff in H2 as [H2 _].
  apply String.eqb_neq in H1, H2. auto.
Qed.

Lemma side_body_keeps study_id patient side :
  dict_get in_dict study_id = Some patient ->
  side <> "BL_date" -> side <> "Sex" ->
  keeps P (side_body contrast_resized recursion_limit cfg study_id patient side).
Proof.
  intros Hpat Hbl Hsex. unfold side_body.
  apply keeps_bind_lift; intros side_dict Hside.
  apply keeps_bind_lift; intros side_keys Hkeys.
  destruct (get_surgery_label side_dict) as [surgery|] eqn:Hsur; [|apply keeps_ret].
  destruct (Nat.eqb _ 0); [apply keeps_ret|].
  apply keeps_for_each. intros us_num _.
  now apply visit_body_keeps.
Qed.

Lemma patient_body_keeps study_id :
  keeps P (patient_body contrast_resized recursion_limit cfg in_dict study_id).
Proof.
  unfold patient_body. apply keeps_try_except.
  apply keeps_bind_lift; intros patient Hpat.
  apply keeps_bind_lift; intros patient_keys Hkeys.
  apply keeps_for_each. intros side Hside.
  apply setdiff1d_excludes in Hside as [Hbl Hsex].
  apply side_body_keeps; auto.
  unfold dict_index in Hpat. destruct (dict_get in_dict study_id); [|discriminate].
  inversion Hpat; subst. reflexivity.
Qed.

(** An invariant that storing a visit and preprocessing an image keep
    holds of what [get_data_dicts] returns. *)
Lemma get_data_dicts_keeps d d' r :
  P (initial_state d) ->
  get_data_dicts contrast_resized recursion_limit cfg in_dict d = (d', r) ->
  exists s',
    P s' /\ files s' = d'
    /\ (forall out, r = Ok out ->
          out = (img_dict s', label_dict s', cov_dict s', dict_keys (img_dict s'))).
Proof.
  intros HP. unfold get_data_dicts.
  destruct (for_each _ _ _) as [s' [u|e]] eqn:E; intros H; inversion H; subst;
    exists s'; conj_split; auto; try discriminate.
  - eapply (keeps_for_each (P := P)); [|exact HP|exact E].
    intros; apply patient_body_keeps.
  - intros out Hout. inversion Hout. reflexivity.
  - eapply (keeps_for_each (P := P)); [|exact HP|exact E].
    intros; apply patient_body_keeps.
Qed.

End VisitFacts.

Lemma keeps_on_disk P f :
  (forall s d, P s -> P (set_files s d)) -> keeps P (on_disk f).
Proof.
  intros Hf s s' r HP H. unfold on_disk in H.
  destruct (f (files s)) as [d r']. inversion H; subst. now apply Hf.
Qed.

Section Frames.

Local Open Scope py_scope.

Variable contrast_resized : image -> list byte.
Variable recursion_limit : nat.
Variable cfg : extractor_config.

Lemma cov_setitem_frame A (proj : extractor_state -> A) (Q : A -> Prop) k f v :
  (forall s c, proj (set_cov_dict s c) = proj s) ->
  keeps (fun s => Q (proj s)) (cov_setitem k f v).
Proof.
  intros Hp. unfold cov_setitem.
  apply keeps_bind; [apply keeps_gets|]. intros covs.
  apply keeps_bind_lift. intros e _.
  apply keeps_modify. intros s H. now rewrite Hp.
Qed.

Lemma cov_append_frame A (proj : extractor_state -> A) (Q : A -> Prop) k f v :
  (forall s c, proj (set_cov_dict s c) = proj s) ->
  keeps (fun s => Q (proj s)) (cov_append k f v).
Proof.
  intros Hp. unfold cov_append.
  apply keeps_bind; [apply keeps_gets|]. intros covs.
  apply keeps_bind_lift. intros e _.
  destruct (dict_get (fields e) f) as [[]|]; try apply keeps_raise;
    try (apply keeps_modify; intros s H; now rewrite Hp).
  destruct (defaulting e); [|apply keeps_raise].
  apply keeps_modify; intros s H; now rewrite Hp.
Qed.

Lemma cov_getitem_frame A (proj : extractor_state -> A) (Q : A -> Prop) k f :
  (forall s c, proj (set_cov_dict s c) = proj s) ->
  keeps (fun s => Q (proj s)) (cov_getitem k f).
Proof.
  intros Hp. unfold cov_getitem.
  apply keeps_bind; [apply keeps_gets|]. intros covs.
  apply keeps_bind_lift. intros e _.
  destruct (dict_get (fields e) f) as [v|]; [apply keeps_ret|].
  destruct (defaulting e); [|apply keeps_raise].
  apply keeps_bind; [|intros; apply keeps_ret].
  apply keeps_modify; intros s H; now rewrite Hp.
Qed.

Lemma assign_covariates_frame A (proj : extractor_state -> A) (Q : A -> Prop)
    k machine sex age bl :
  (forall s c, proj (set_cov_dict s c) = proj s) ->
  keeps (fun s => Q (proj s)) (assign_covariates cfg k machine sex age bl).
Proof.
  intros Hp. unfold assign_covariates.
  destruct (negb (seq cfg));
    repeat (apply keeps_bind;
            [first [now apply cov_setitem_frame | now apply cov_append_frame]|intros _]);
    destruct bl; first [apply keeps_ret | now apply cov_setitem_frame].
Qed.

Lemma assign_images_frame A (proj : extractor_state -> A) (Q : A -> Prop) k sag trv :
  (forall s c, proj (set_img_dict s c) = proj s) ->
  keeps (fun s => Q (proj s)) (assign_images cfg k sag trv).
Proof.
  intros Hp. unfold assign_images.
  destruct (negb (seq cfg)).
  - apply keeps_bind_lift. intros st _. apply keeps_modify; intros s H; now rewrite Hp.
  - apply keeps_bind; [apply keeps_gets|]. intros imgs.
    apply keeps_bind_lift. intros e _.
    destruct e; try apply keeps_raise.
    apply keeps_bind_lift. intros st _. apply keeps_modify; intros s H; now rewrite Hp.
Qed.

Lemma assert_not_None_keeps P v : keeps P (assert_not_None v).
Proof. destruct v; first [apply keeps_raise | apply keeps_ret]. Qed.

(** The assertions at the end of [store_visit] change a dictionary only
    by the fields that reading a [defaultdict] creates. *)
Lemma store_visit_checks_frame A (proj : extractor_state -> A) (Q : A -> Prop) k :
  (forall s c, proj (set_cov_dict s c) = proj s) ->
  keeps (fun s => Q (proj s))
    (labels <- gets label_dict ;;
     lift (dict_index labels k) ;;;
     imgs <- gets img_dict ;;
     lift (dict_index imgs k) ;;;
     sex' <- cov_getitem k "Sex" ;;
     assert_not_None sex' ;;;
     age' <- cov_getitem k "Age_wks" ;;
     assert_not_None age').
Proof.
  intros Hp.
  apply keeps_bind; [apply keeps_gets|]. intros labels.
  apply keeps_bind_lift. intros _ _.
  apply keeps_bind; [apply keeps_gets|]. intros imgs.
  apply keeps_bind_lift. intros _ _.
  apply keeps_bind; [now apply cov_getitem_frame|]. intros sex'.
  apply keeps_bind; [apply assert_not_None_keeps|]. intros _.
  apply keeps_bind; [now apply cov_getitem_frame|]. intros age'.
  apply assert_not_None_keeps.
Qed.

(** [init_entries] and [store_visit] leave the disk alone. *)
Lemma init_entries_files Q k : keeps (fun s => Q (files s)) (init_entries cfg k).
Proof.
  unfold init_entries.
  apply keeps_bind; [|intros _];
    (apply keeps_modify; intros s H;
     repeat match goal with |- context [if ?b then _ else _] => destruct b end;
     exact H).
Qed.

Lemma store_visit_files Q k sag trv sur m sx a b :
  keeps (fun s => Q (files s)) (store_visit cfg k sag trv sur m sx a b).
Proof.
  unfold store_visit.
  apply keeps_bind; [now apply (assign_images_frame files)|]. intros _.
  apply keeps_bind; [apply keeps_modify; intros s H; exact H|]. intros _.
  apply keeps_bind; [now apply (assign_covariates_frame files)|]. intros _.
  now apply (store_visit_checks_frame files).
Qed.

(** What the preprocessor does to the disk, in either entry point. *)
Lemma preprocess_disk f s s' r :
  preprocess contrast_resized recursion_limit cfg f s = (s', r) ->
  img_dict s' = img_dict s /\ label_dict s' = label_dict s /\ cov_dict s' = cov_dict s
  /\ disk_extends (files s) (files s').
Proof.
  unfold preprocess, on_disk. intros H.
  assert (Hd : forall d' r',
    (process_input_image contrast_resized recursion_limit f (files s) = (d', r')
     \/ special_ST_preprocessing contrast_resized recursion_limit f (files s) = (d', r')) ->
    disk_extends (files s) d').
  { intros d' r' Hrun.
    pose proof (preprocessing_disk contrast_resized recursion_limit f (files s)) as [H1 H2].
    assert (Hcase : d' = files s
                    \/ (dict_get (files s) (out_img_filename f) = None
                        /\ exists im, d' = image_save (files s) (out_img_filename f) im)).
    { destruct Hrun as [Hrun|Hrun].
      - rewrite Hrun in H1. destruct H1 as [->|(_ & Hc & im0 & _ & -> & _)]; eauto.
      - rewrite Hrun in H2. destruct H2 as [->|(_ & Hc & im0 & _ & -> & _)]; eauto. }
    destruct Hcase as [->|(Hc & im & ->)]; split; auto.
    - intros p im' Hp. unfold image_save. simpl.
      destruct (String.eqb_spec p (out_img_filename f)) as [->|_]; [congruence|exact Hp].
    - intros p Hp. unfold image_save. simpl.
      destruct (String.eqb_spec p (out_img_filename f)) as [->|_]; [|reflexivity].
      rewrite out_img_filename_preprocessed in Hp. discriminate. }
  destruct (silent_trial cfg).
  - destruct (process_input_image _ _ _ _) as [d' r'] eqn:E.
    inversion H; subst. simpl. conj_split; eauto.
  - destruct (special_ST_preprocessing _ _ _ _) as [d' r'] eqn:E.
    inversion H; subst. simpl. conj_split; eauto.
Qed.

Lemma disk_extends_refl d : disk_extends d d.
Proof. split; auto. Qed.

Lemma disk_extends_trans d0 d1 d2 :
  disk_extends d0 d1 -> disk_extends d1 d2 -> disk_extends d0 d2.
Proof.
  intros [H1 H2] [H3 H4]. split.
  - auto.
  - intros p Hp. rewrite H4, H2; auto.
Qed.

(** X9: [get_data_dicts] keeps every file that was on the disk as it was,
    and creates files only under names that contain "preprocessed". *)
Theorem get_data_dicts_disk in_dict d d' r :
  get_data_dicts contrast_resized recursion_limit cfg in_dict d = (d', r) ->
  (forall p im, dict_get d p = Some im -> dict_get d' p = Some im)
  /\ (forall p, contains "preprocessed" p = false -> dict_get d' p = dict_get d p).
Proof.
  intros H.
  destruct (@get_data_dicts_keeps contrast_resized recursion_limit cfg in_dict
              (fun s => disk_extends d (files s))
              (fun k _ _ _ _ _ _ => @init_entries_files (disk_extends d) k)
              (fun k sur m sx a b sag trv _ =>
                 @store_visit_files (disk_extends d) k sag trv sur m sx a b))
    with (d := d) (d' := d') (r := r) as (s' & HP & Hfiles & _).
  - intros k0 sur0 m0 sx0 a0 b0 f _ s s' r' HP Hrun. apply preprocess_disk in Hrun as (_ & _ & _ & Hext).
    eapply disk_extends_trans; eauto.
  - apply disk_extends_refl.
  - exact H.
  - rewrite <- Hfiles. exact HP.
Qed.

End Frames.

Lemma dict_set_keys_NoDup (V : Type) (d : dict V) k v :
  NoDup (dict_keys d) -> NoDup (dict_keys (dict_set d k v)).
Proof.
  intros H. destruct (in_dec string_dec k (dict_keys d)) as [Hin|Hnin].
  - now rewrite dict_keys_set_in.
  - rewrite dict_keys_set_notin by assumption.
    apply NoDup_app; [exact H | repeat constructor; auto | ].
    intros x Hx [<-|[]]. contradiction.
Qed.

Section ExtractorInvariants.

Variable contrast_resized : image -> list byte.
Variable recursion_limit : nat.
Variable cfg : extractor_config.
Variable in_dict : dict pyval.

(** *** Exceptions *)

Lemma for_each_patients_unhandled l s s' e :
  for_each l (patient_body contrast_resized recursion_limit cfg in_dict) s = (s', Raise e) ->
  handled e = false.
Proof.
  revert s. induction l as [|x l IH]; intros s; simpl.
  - unfold ret. discriminate.
  - unfold bind.
    destruct (patient_body contrast_resized recursion_limit cfg in_dict x s)
      as [s1 [u|e1]] eqn:E.
    + apply IH.
    + intros H; inversion H; subst. unfold patient_body, try_except in E.
      match type of E with
      | (match ?b with _ => _ end) = _ => destruct b as [s2 [u|e2]]
      end; [discriminate|].
      destruct (handled e2) eqn:Hh; inversion E; subst. exact Hh.
Qed.

(** X10: the exceptions that [get_data_dicts] lets through are not the two
    it handles. *)
Theorem get_data_dicts_raises_unhandled d d' e :
  get_data_dicts contrast_resized recursion_limit cfg in_dict d = (d', Raise e) ->
  e <> AttributeError /\ e <> AssertionError.
Proof.
  unfold get_data_dicts.
  destruct (for_each _ _ _) as [s' [u|e']] eqn:E; [discriminate|].
  intros H; inversion H; subst.
  apply for_each_patients_unhandled in E.
  split; intros ->; discriminate.
Qed.

(** *** Keys *)

Lemma init_entries_img_NoDup k :
  keeps (fun s => NoDup (dict_keys (img_dict s))) (init_entries cfg k).
Proof.
  unfold init_entries. apply keeps_bind; [|intros _]; apply keeps_modify; intros s H.
  - destruct (dict_mem (img_dict s) k); [exact H|]. simpl. now apply dict_set_keys_NoDup.
  - destruct (dict_mem (cov_dict s) k); exact H.
Qed.

Lemma store_visit_img_NoDup k sag trv sur m sx a b :
  keeps (fun s => NoDup (dict_keys (img_dict s))) (store_visit cfg k sag trv sur m sx a b).
Proof.
  unfold store_visit.
  apply keeps_bind; [|intros _].
  { unfold assign_images. destruct (negb (seq cfg)).
    - apply keeps_bind_lift. intros st _. apply keeps_modify. intros s H. simpl.
      now apply dict_set_keys_NoDup.
    - apply keeps_bind; [apply keeps_gets|]. intros imgs.
      apply keeps_bind_lift. intros e _. destruct e; try apply keeps_raise.
      apply keeps_bind_lift. intros st _. apply keeps_modify. intros s H. simpl.
      now apply dict_set_keys_NoDup. }
  apply keeps_bind; [apply keeps_modify; intros s H; exact H|]. intros _.
  apply keeps_bind;
    [now apply (assign_covariates_frame cfg img_dict (fun d => NoDup (dict_keys d)))|].
  intros _.
  now apply (store_visit_checks_frame img_dict (fun d => NoDup (dict_keys d))).
Qed.

Lemma get_data_dicts_ids_NoDup d d' out :
  get_data_dicts contrast_resized recursion_limit cfg in_dict d = (d', Ok out) ->
  NoDup (dict_keys (dicts_img out)).
Proof.
  intros H.
  destruct (@get_data_dicts_keeps contrast_resized recursion_limit cfg in_dict
              (fun s => NoDup (dict_keys (img_dict s)))
              (fun k _ _ _ _ _ _ => @init_entries_img_NoDup k)
              (fun k sur m sx a b sag trv _ =>
                 @store_visit_img_NoDup k sag trv sur m sx a b))
    with (d := d) (d' := d') (r := Ok out) as (s' & HP & _ & Hout).
  - intros k0 sur0 m0 sx0 a0 b0 f _ s s' r' HP Hrun.
    apply (preprocess_disk contrast_resized recursion_limit cfg) in Hrun as (-> & _).
    exact HP.
  - constructor.
  - exact H.
  - rewrite (Hout out eq_refl). exact HP.
Qed.

(** *** Labels *)

Lemma init_entries_label Q k : keeps (fun s => Q (label_dict s)) (init_entries cfg k).
Proof.
  unfold init_entries.
  apply keeps_bind; [|intros _];
    (apply keeps_modify; intros s H;
     repeat match goal with |- context [if ?b then _ else _] => destruct b end;
     exact H).
Qed.

Lemma store_visit_labels_sourced k sag trv sur m sx a b :
  stored_visit cfg in_dict k sur m sx a b ->
  keeps (fun s => labels_sourced cfg in_dict (label_dict s))
        (store_visit cfg k sag trv sur m sx a b).
Proof.
  intros (study_id & patient & side & side_dict & us_num & visit
          & H1 & H2 & H3 & H4 & H5 & H6 & H7 & _ & _ & Hage & Hna & Hviews & _ & _
          & Hlo & Hhi).
  assert (Hvalid : valid_visit visit).
  { split; [|exact Hviews]. exists a. unfold age_in_range. auto. }
  unfold store_visit.
  apply keeps_bind; [now apply (assign_images_frame cfg label_dict)|]. intros _.
  apply keeps_bind; [|intros _].
  { apply keeps_modify. intros s H k' z. simpl.
    destruct (String.eqb_spec k' k) as [->|Hne].
    - rewrite dict_get_set_same. intros Hz; inversion Hz; subst z.
      exists study_id, patient, side, side_dict, us_num, visit. conj_split; auto.
    - rewrite dict_get_set_other by assumption. apply H. }
  apply keeps_bind; [now apply (assign_covariates_frame cfg label_dict)|]. intros _.
  now apply (store_visit_checks_frame label_dict).
Qed.

(** X11: every label that [get_data_dicts] returns is the surgery label of
    a side of a patient of the record, under a key built from that
    patient, that side and a visit of that side which is valid: its age is
    there, is neither "NA" nor [None] and is in range, and it has both
    views. *)
Theorem get_data_dicts_label_source d d' out k z :
  get_data_dicts contrast_resized recursion_limit cfg in_dict d = (d', Ok out) ->
  dict_get (dicts_label out) k = Some z ->
  exists study_id patient side side_dict us_num visit,
    dict_get in_dict study_id = Some patient
    /\ subscript patient side = Ok side_dict
    /\ side <> "BL_date" /\ side <> "Sex"
    /\ get_surgery_label side_dict = Some z
    /\ subscript side_dict us_num = Ok visit
    /\ k = make_dict_key cfg study_id side us_num
    /\ valid_visit visit.
Proof.
  intros H Hk.
  destruct (@get_data_dicts_keeps contrast_resized recursion_limit cfg in_dict
              (fun s => labels_sourced cfg in_dict (label_dict s))
              (fun k _ _ _ _ _ _ => @init_entries_label (labels_sourced cfg in_dict) k)
              (fun k sur m sx a b sag trv Hsv =>
                 @store_visit_labels_sourced k sag trv sur m sx a b Hsv))
    with (d := d) (d' := d') (r := Ok out) as (s' & HP & _ & Hout).
  - intros k0 sur0 m0 sx0 a0 b0 f _ s s' r' HP Hrun.
    apply (preprocess_disk contrast_resized recursion_limit cfg) in Hrun as (_ & Hl & _).
    rewrite Hl. exact HP.
  - intros k' z' Hz. discriminate.
  - exact H.
  - rewrite (Hout out eq_refl) in Hk. exact (HP k z Hk).
Qed.

(** *** Records without a valid visit *)

(** X27: when no visit of the record is valid, [get_data_dicts] touches no
    file and, if it returns, returns four empty results. *)
Theorem get_data_dicts_nothing_valid d d' r :
  (forall study_id patient side side_dict us_num visit,
     dict_get in_dict study_id = Some patient ->
     subscript patient side = Ok side_dict ->
     subscript side_dict us_num = Ok visit ->
     ~ valid_visit visit) ->
  get_data_dicts contrast_resized recursion_limit cfg in_dict d = (d', r) ->
  d' = d /\ forall out, r = Ok out -> out = ([], [], [], []).
Proof.
  intros Hnone H.
  assert (Hnever : forall k sur m sx a b, ~ stored_visit cfg in_dict k sur m sx a b).
  { intros k sur m sx a b
           (study_id & patient & side & side_dict & us_num & visit
            & H1 & H2 & _ & _ & _ & H6 & _ & _ & _ & Hage & Hna & Hviews & _ & _
            & Hlo & Hhi).
    apply (Hnone study_id patient side side_dict us_num visit H1 H2 H6).
    split; [|exact Hviews]. exists a. unfold age_in_range. auto. }
  destruct (@get_data_dicts_keeps contrast_resized recursion_limit cfg in_dict
              (fun s => s = initial_state d))
    with (d := d) (d' := d') (r := r) as (s' & HP & Hfiles & Hout).
  - intros k sur m sx a b Hsv. exfalso. exact (Hnever _ _ _ _ _ _ Hsv).
  - intros k sur m sx a b sag trv Hsv. exfalso. exact (Hnever _ _ _ _ _ _ Hsv).
  - intros k sur m sx a b f Hsv. exfalso. exact (Hnever _ _ _ _ _ _ Hsv).
  - reflexivity.
  - exact H.
  - subst s'. simpl in Hfiles. split; [now symmetry|].
    intros out Hr. rewrite (Hout out Hr). reflexivity.
Qed.

End ExtractorInvariants.

Section CovariateInvariant.

Variable contrast_resized : image -> list byte.
Variable recursion_limit : nat.
Variable cfg : extractor_config.
Variable in_dict : dict pyval.

Lemma covariates_checked_set c k ce :
  covariates_checked cfg c -> covariates_ok cfg ce ->
  covariates_checked cfg (dict_set c k ce).
Proof.
  intros Hc Hce k' ce'. destruct (String.eqb_spec k' k) as [->|Hne].
  - rewrite dict_get_set_same. intros H; inversion H; subst. exact Hce.
  - rewrite dict_get_set_other by assumption. apply Hc.
Qed.

Lemma covariates_ok_set ce f v :
  covariates_ok cfg ce ->
  (f = "Age_wks" -> values_ok cfg age_in_range v) ->
  (f = "Sex" -> values_ok cfg (fun x => is_int x = true) v) ->
  covariates_ok cfg {| defaulting := defaulting ce; fields := dict_set (fields ce) f v |}.
Proof.
  intros (Hd & Ha & Hs & Hn) Hfa Hfs. unfold covariates_ok. cbn [defaulting fields].
  conj_split; [exact Hd| | |now apply dict_set_keys_NoDup].
  - intros v'. destruct (String.eqb_spec "Age_wks" f) as [<-|Hne].
    + rewrite dict_get_set_same. intros H; inversion H; subst. now apply Hfa.
    + rewrite dict_get_set_other by assumption. apply Ha.
  - intros v'. destruct (String.eqb_spec "Sex" f) as [<-|Hne].
    + rewrite dict_get_set_same. intros H; inversion H; subst. now apply Hfs.
    + rewrite dict_get_set_other by assumption. apply Hs.
Qed.

Lemma cov_setitem_checked k f v :
  (f = "Age_wks" -> values_ok cfg age_in_range v) ->
  (f = "Sex" -> values_ok cfg (fun x => is_int x = true) v) ->
  keeps (fun s => covariates_checked cfg (cov_dict s)) (cov_setitem k f v).
Proof.
  intros Hfa Hfs s s' r HP H.
  unfold cov_setitem, bind, gets, lift, modify, dict_index in H.
  destruct (dict_get (cov_dict s) k) as [e|] eqn:E; simpl in H; inversion H; subst; [|exact HP].
  simpl. apply covariates_checked_set; [exact HP|].
  apply covariates_ok_set; auto. exact (HP k e E).
Qed.

Lemma values_ok_append (ok : pyval -> Prop) l v :
  seq cfg = true -> values_ok cfg ok (PList l) -> ok v -> values_ok cfg ok (PList (l ++ [v])).
Proof.
  unfold values_ok. intros ->. intros (l' & Hl & Hall) Hv. inversion Hl; subst l'.
  exists (l ++ [v])%list. split; [reflexivity|]. apply Forall_app. auto.
Qed.

Lemma values_ok_single (ok : pyval -> Prop) v :
  seq cfg = true -> ok v -> values_ok cfg ok (PList [v]).
Proof.
  unfold values_ok. intros -> Hv. exists [v]. auto.
Qed.

Lemma values_ok_empty (ok : pyval -> Prop) :
  seq cfg = true -> values_ok cfg ok (PList []).
Proof.
  unfold values_ok. intros ->. exists []. auto.
Qed.

Lemma cov_append_checked k f v :
  seq cfg = true ->
  (f = "Age_wks" -> age_in_range v) ->
  (f = "Sex" -> is_int v = true) ->
  keeps (fun s => covariates_checked cfg (cov_dict s)) (cov_append k f v).
Proof.
  intros Hseq Hfa Hfs s s' r HP H.
  unfold cov_append, bind, gets, lift, modify, dict_index in H.
  destruct (dict_get (cov_dict s) k) as [e|] eqn:E; simpl in H;
    [|inversion H; subst; exact HP].
  pose proof (HP k e E) as He. pose proof He as (Hd & Ha & Hs & Hn).
  destruct (dict_get (fields e) f) as [old|] eqn:Hf.
  - destruct old; inversion H; subst; try exact HP.
    simpl. apply covariates_checked_set; [exact HP|].
    apply covariates_ok_set; auto.
    + intros ->. apply values_ok_append; auto.
    + intros ->. apply values_ok_append; auto.
  - destruct (defaulting e) eqn:Hdef; inversion H; subst; [|exact HP].
    simpl. apply covariates_checked_set; [exact HP|].
    rewrite <- Hdef. apply covariates_ok_set; auto.
    + intros ->. apply values_ok_single; auto.
    + intros ->. apply values_ok_single; auto.
Qed.

Lemma cov_getitem_checked k f :
  keeps (fun s => covariates_checked cfg (cov_dict s)) (cov_getitem k f).
Proof.
  intros s s' r HP H.
  unfold cov_getitem, bind, gets, lift, modify, ret, dict_index in H.
  destruct (dict_get (cov_dict s) k) as [e|] eqn:E; simpl in H;
    [|inversion H; subst; exact HP].
  pose proof (HP k e E) as He. pose proof He as (Hd & Ha & Hs & Hn).
  destruct (dict_get (fields e) f) as [old|] eqn:Hf; [inversion H; subst; exact HP|].
  destruct (defaulting e) eqn:Hdef; inversion H; subst; [|exact HP].
  simpl. apply covariates_checked_set; [exact HP|].
  rewrite <- Hdef. apply covariates_ok_set; auto.
  - intros _. apply values_ok_empty. congruence.
  - intros _. apply values_ok_empty. congruence.
Qed.

Lemma init_entries_checked k :
  keeps (fun s => covariates_checked cfg (cov_dict s)) (init_entries cfg k).
Proof.
  unfold init_entries. apply keeps_bind; [|intros _]; apply keeps_modify; intros s H.
  - destruct (dict_mem (img_dict s) k); exact H.
  - destruct (dict_mem (cov_dict s) k); [exact H|]. simpl.
    apply covariates_checked_set; [exact H|].
    unfold covariates_ok. simpl.
    conj_split; [reflexivity| | |constructor]; intros v Hv; discriminate.
Qed.

Lemma sex_code_int sex : is_int (sex_code sex) = true.
Proof.
  destruct sex; simpl; try reflexivity. destruct (String.eqb s "M"); reflexivity.
Qed.

Lemma store_visit_checked k sag trv sur m sx a b :
  stored_visit cfg in_dict k sur m sx a b ->
  keeps (fun s => covariates_checked cfg (cov_dict s))
        (store_visit cfg k sag trv sur m sx a b).
Proof.
  intros (study_id & patient & side & side_dict & us_num & visit
          & _ & _ & _ & _ & _ & _ & _ & _ & _ & _ & _ & _ & _ & _ & Hlo & Hhi).
  assert (Hage : age_in_range a) by (split; assumption).
  unfold store_visit.
  apply keeps_bind; [now apply (assign_images_frame cfg cov_dict)|]. intros _.
  apply keeps_bind; [apply keeps_modify; intros s H; exact H|]. intros _.
  apply keeps_bind; [|intros _].
  { unfold assign_covariates. destruct (seq cfg) eqn:Hseq; cbn [negb].
    - apply keeps_bind; [apply cov_append_checked; auto; discriminate|]. intros _.
      apply keeps_bind;
        [apply cov_append_checked; auto; [discriminate | intros _; apply sex_code_int]|].
      intros _.
      apply keeps_bind; [apply cov_append_checked; auto; discriminate|]. intros _.
      destruct b; try apply keeps_ret; apply cov_setitem_checked; discriminate.
    - apply keeps_bind; [apply cov_setitem_checked; discriminate|]. intros _.
      apply keeps_bind; [apply cov_setitem_checked; [discriminate|]|].
      { intros _. unfold values_ok. rewrite Hseq. apply sex_code_int. }
      intros _.
      apply keeps_bind; [apply cov_setitem_checked; [|discriminate]|].
      { intros _. unfold values_ok. rewrite Hseq. exact Hage. }
      intros _.
      destruct b; try apply keeps_ret; apply cov_setitem_checked; discriminate. }
  apply keeps_bind; [apply keeps_gets|]. intros labels.
  apply keeps_bind_lift. intros _ _.
  apply keeps_bind; [apply keeps_gets|]. intros imgs.
  apply keeps_bind_lift. intros _ _.
  apply keeps_bind; [apply cov_getitem_checked|]. intros sex'.
  apply keeps_bind; [apply assert_not_None_keeps|]. intros _.
  apply keeps_bind; [apply cov_getitem_checked|]. intros age'.
  apply assert_not_None_keeps.
Qed.

Lemma get_data_dicts_covariates_checked d d' out :
  get_data_dicts contrast_resized recursion_limit cfg in_dict d = (d', Ok out) ->
  covariates_checked cfg (dicts_cov out).
Proof.
  intros H.
  destruct (@get_data_dicts_keeps contrast_resized recursion_limit cfg in_dict
              (fun s => covariates_checked cfg (cov_dict s))
              (fun k _ _ _ _ _ _ => @init_entries_checked k)
              (fun k sur m sx a b sag trv Hsv =>
                 @store_visit_checked k sag trv sur m sx a b Hsv))
    with (d := d) (d' := d') (r := Ok out) as (s' & HP & _ & Hout).
  - intros k0 sur0 m0 sx0 a0 b0 f _ s s' r' HP Hrun.
    apply (preprocess_disk contrast_resized recursion_limit cfg) in Hrun as (_ & _ & Hc & _).
    rewrite Hc. exact HP.
  - intros k ce Hk. discriminate.
  - exact H.
  - rewrite (Hout out eq_refl). exact HP.
Qed.

(** X12: no age that [get_data_dicts] returns is below 0 or above 520
    weeks: outside sequence mode the field ['Age_wks'] of a key holds one
    such value, in sequence mode a list of them. *)
Theorem get_data_dicts_ages_in_range d d' out k ce v :
  get_data_dicts contrast_resized recursion_limit cfg in_dict d = (d', Ok out) ->
  dict_get (dicts_cov out) k = Some ce ->
  dict_get (fields ce) "Age_wks" = Some v ->
  if seq cfg then exists l, v = PList l /\ Forall age_in_range l else age_in_range v.
Proof.
  intros H Hk Hv.
  destruct (@get_data_dicts_covariates_checked d d' out H k ce Hk) as (_ & Ha & _).
  exact (Ha v Hv).
Qed.


End CovariateInvariant.

(** ** [remove_bl_date] *)

Lemma remove_bl_date_keys cov : dict_keys (remove_bl_date cov) = dict_keys cov.
Proof.
  unfold remove_bl_date, dict_keys. rewrite map_map. reflexivity.
Qed.

Lemma remove_bl_date_get cov k :
  dict_get (remove_bl_date cov) k
  = match dict_get cov k with
    | Some ce =>
        Some (if dict_mem (fields ce) "BL_date"
              then {| defaulting := defaulting ce;
                      fields := dict_pop (fields ce) "BL_date" |}
              else ce)
    | None => None
    end.
Proof.
  induction cov as [|[k0 ce0] cov IH]; simpl; [reflexivity|].
  destruct (String.eqb k k0); [reflexivity | exact IH].
Qed.

(** X14: [remove_bl_date] keeps the keys and their order, and under each
    key the entry without its ['BL_date']: the other fields are as they
    were. *)
Theorem remove_bl_date_spec cov k ce :
  dict_get cov k = Some ce ->
  NoDup (dict_keys (fields ce)) ->
  dict_keys (remove_bl_date cov) = dict_keys cov
  /\ exists ce',
      dict_get (remove_bl_date cov) k = Some ce'
      /\ defaulting ce' = defaulting ce
      /\ dict_get (fields ce') "BL_date" = None
      /\ (forall f, f <> "BL_date" -> dict_get (fields ce') f = dict_get (fields ce) f).
Proof.
  intros Hk Hnd. split; [apply remove_bl_date_keys|].
  rewrite remove_bl_date_get, Hk. eexists. split; [reflexivity|].
  destruct (dict_mem (fields ce) "BL_date") eqn:Hmem; cbn [defaulting fields].
  - conj_split; [reflexivity| |].
    + rewrite dict_pop_get by assumption. now rewrite String.eqb_refl.
    + intros f Hf. rewrite dict_pop_get by assumption.
      destruct (String.eqb_spec f "BL_date"); [contradiction|reflexivity].
  - conj_split; [reflexivity| |reflexivity].
    apply dict_get_None. now apply dict_mem_false.
Qed.

(** ** Index and comprehension round trips *)






Lemma np_take_In (A : Type) (l : list A) idx :
  forall out x,
    np_take l idx = Ok out -> In x out -> exists i, In i idx /\ py_index l i = Ok x.
Proof.
  unfold np_take. induction idx as [|i idx IH]; simpl; intros out x H Hx.
  - inversion H; subst. destruct Hx.
  - destruct (py_index l i) as [y|] eqn:Hy; [|discriminate]. cbn [rbind] in H.
    destruct (rmap (py_index l) idx) as [ys|] eqn:Hys; [|discriminate].
    cbn [rbind] in H. inversion H; subst.
    destruct Hx as [<-|Hx].
    + exists i. auto.
    + destruct (IH ys x eq_refl Hx) as (j & Hj & Hjx). exists j. auto.
Qed.

Lemma py_index_inj (A : Type) (l : list A) i j x :
  NoDup l -> 0 <= i -> 0 <= j ->
  py_index l i = Ok x -> py_index l j = Ok x -> i = j.
Proof.
  intros Hnd Hi Hj. unfold py_index.
  replace (0 <=? i) with true by (symmetry; apply Z.leb_le; lia).
  replace (0 <=? j) with true by (symmetry; apply Z.leb_le; lia).
  replace (i <? 0) with false by (symmetry; apply Z.ltb_ge; lia).
  replace (j <? 0) with false by (symmetry; apply Z.ltb_ge; lia).
  rewrite !andb_false_r. cbn [andb].
  destruct (i <? _) eqn:Bi; [|discriminate]. destruct (j <? _) eqn:Bj; [|discriminate].
  unfold of_option.
  destruct (nth_error l (Z.to_nat i)) as [xi|] eqn:Ei; [|discriminate].
  destruct (nth_error l (Z.to_nat j)) as [xj|] eqn:Ej; [|discriminate].
  intros H1 H2. inversion H1; inversion H2; subst.
  assert (Z.to_nat i = Z.to_nat j).
  { eapply (proj1 (NoDup_nth_error l) Hnd).
    - apply nth_error_Some. congruence.
    - congruence. }
  lia.
Qed.

(** ** [setup] and the loaders *)

Section SetupFacts.

Variable contrast_resized : image -> list byte.
Variable recursion_limit : nat.
Variable shuffle_indices : nat -> list nat.
Variable stratified_kfold : nat -> list string -> list Z -> result folds.
Variable stratified_shuffle_split : Q -> list string -> list Z -> result folds.

(** What a [setup] that returns has computed and stored. *)
Lemma setup_fitted dm json d d' dm' :
  setup contrast_resized recursion_limit shuffle_indices
        stratified_kfold stratified_shuffle_split dm json d = (d', dm', Ok tt) ->
  exists train_dict test_dict d1 out gen,
    load_dataset shuffle_indices json (1 # 5) (ordered_split (args dm)) (train_only (args dm))
    = Ok (train_dict, test_dict)
    /\ get_data_dicts contrast_resized recursion_limit (fit_config (args dm)) train_dict d
       = (d1, Ok out)
    /\ setup_folds shuffle_indices stratified_kfold stratified_shuffle_split (args dm) out
       = Ok gen
    /\ args dm' = args dm
    /\ train_dataloader_params dm' = train_dataloader_params dm
    /\ val_dataloader_params dm' = val_dataloader_params dm
    /\ debug dm' = debug dm
    /\ fold dm' = fold dm
    /\ train_img_dict dm' = dicts_img out
    /\ train_label_dict dm' = dicts_label out
    /\ train_cov_dict dm' = remove_bl_date (dicts_cov out)
    /\ train_study_ids dm' = dict_keys (dicts_img out)
    /\ _train_val_idx_generator dm' = gen
    /\ (if train_only (args dm) then test_set dm' = test_set dm /\ d' = d1
        else exists test_dict' tests,
            test_dict = Some test_dict'
            /\ get_data_dicts contrast_resized recursion_limit (test_config (args dm))
                              test_dict' d1 = (d', Ok tests)
            /\ test_set dm' = Some tests).
Proof.
  unfold setup.
  destruct (load_dataset _ _ _ _ _) as [[train_dict test_dict]|e]; [|discriminate].
  destruct (get_data_dicts _ _ (fit_config (args dm)) train_dict d)
    as [d1 [out|e]] eqn:Hget; [|discriminate].
  destruct out as [[[train_img train_label] train_cov] train_ids].
  match goal with
  | |- (match ?g with Ok _ => _ | Raise _ => _ end) = _ -> _ =>
      destruct g as [gen|e] eqn:Hgen
  end; [|discriminate].
  intros H. exists train_dict, test_dict, d1, (train_img, train_label, train_cov, train_ids), gen.
  destruct (train_only (args dm)); cbn [negb] in H.
  - inversion H; subst; cbn. conj_split; auto.
  - destruct test_dict as [test_dict'|]; [|discriminate].
    destruct (get_data_dicts _ _ (test_config (args dm)) test_dict' d1)
      as [d2 [tests|e]] eqn:Htest; [|discriminate].
    inversion H; subst; cbn. conj_split; auto.
    exists test_dict', tests. auto.
Qed.

Lemma setup_training_keys dm json d d' dm' :
  setup contrast_resized recursion_limit shuffle_indices
        stratified_kfold stratified_shuffle_split dm json d = (d', dm', Ok tt) ->
  dict_keys (train_img_dict dm') = train_study_ids dm'
  /\ dict_keys (train_label_dict dm') = train_study_ids dm'
  /\ dict_keys (train_cov_dict dm') = train_study_ids dm'
  /\ NoDup (train_study_ids dm').
Proof.
  intros H.
  destruct (setup_fitted _ _ _ H)
    as (train_dict & test_dict & d1 & out & gen & _ & Hget & _ & _ & _ & _ & _ & _
        & Himg & Hlab & Hcov & Hids & _).
  assert (Hsnd : snd (get_data_dicts contrast_resized recursion_limit
                        (fit_config (args dm)) train_dict d) = Ok out)
    by (rewrite Hget; reflexivity).
  apply get_data_dicts_consistent_out in Hsnd as (H1 & H2 & _).
  rewrite Himg, Hlab, Hcov, Hids, remove_bl_date_keys. conj_split; auto.
  eapply get_data_dicts_ids_NoDup; eauto.
Qed.

(** X15: after a [setup] that returns, the three training dictionaries
    list the keys of [train_study_ids] in its order, no key twice, and no
    covariate entry holds a ['BL_date']. *)
Theorem setup_training_state dm json d d' dm' :
  setup contrast_resized recursion_limit shuffle_indices
        stratified_kfold stratified_shuffle_split dm json d = (d', dm', Ok tt) ->
  dict_keys (train_img_dict dm') = train_study_ids dm'
  /\ dict_keys (train_label_dict dm') = train_study_ids dm'
  /\ dict_keys (train_cov_dict dm') = train_study_ids dm'
  /\ NoDup (train_study_ids dm')
  /\ (forall k ce, dict_get (train_cov_dict dm') k = Some ce ->
                   dict_get (fields ce) "BL_date" = None).
Proof.
  intros H.
  destruct (setup_training_keys _ _ _ H) as (Ki & Kl & Kc & Hnd).
  destruct (setup_fitted _ _ _ H)
    as (train_dict & test_dict & d1 & out & gen & _ & Hget & _ & _ & _ & _ & _ & _
        & _ & _ & Hcov & _).
  conj_split; auto.
  intros k ce. rewrite Hcov, remove_bl_date_get.
  destruct (dict_get (dicts_cov out) k) as [ce0|] eqn:Hk; [|discriminate].
  destruct (@get_data_dicts_covariates_checked _ _ _ _ _ _ _ Hget _ _ Hk)
    as (_ & _ & _ & Hfields).
  intros Hce; inversion Hce; subst.
  destruct (dict_mem (fields ce0) "BL_date") eqn:Hmem; cbn [fields].
  - rewrite dict_pop_get by assumption. now rewrite String.eqb_refl.
  - apply dict_get_None. now apply dict_mem_false.
Qed.

Lemma py_index_single (A : Type) (x y : A) i : py_index [x] i = Ok y -> y = x.
Proof.
  intros H. apply py_index_In in H. destruct H as [H|[]]. congruence.
Qed.


Lemma make_train_val_split_ordered ids train_labels cov split_prop fs :
  make_train_val_split shuffle_indices stratified_shuffle_split
                       ids train_labels cov split_prop true = Ok fs ->
  exists train_ids tr va,
    split_positions train_ids ids 0 = (tr, va)
    /\ fs = [(shuffle42 shuffle_indices tr, shuffle42 shuffle_indices va)].
Proof.
  unfold make_train_val_split. intros H.
  destruct (rmap _ ids) as [date|]; [|discriminate]. cbn [rbind] in H.
  destruct (rsorted _ _) as [sorted|]; [|discriminate]. cbn [rbind] in H.
  destruct sorted as [|p sorted]; [discriminate|]. cbn [rbind] in H.
  destruct (split_positions _ ids 0) as [tr va] eqn:E.
  inversion H; subst. eauto.
Qed.

Lemma train_dataloader_ids dm stored tl :
  train_dataloader dm = (stored, Ok tl) ->
  exists train_idx val_idx,
    py_index (_train_val_idx_generator dm) (fold dm) = Ok (train_idx, val_idx)
    /\ np_take (train_study_ids dm) train_idx = Ok (study_ids (dataset tl)).
Proof.
  unfold train_dataloader.
  destruct (py_index _ _) as [[train_idx val_idx]|e] eqn:Hp; [|discriminate].
  destruct (np_take _ train_idx) as [train_ids|e] eqn:Ht; [|discriminate].
  destruct (dict_comprehension (train_img_dict dm) train_ids) as [a|]; [|discriminate].
  destruct (dict_comprehension (train_label_dict dm) train_ids) as [b|]; [|discriminate].
  destruct (dict_comprehension (train_cov_dict dm) train_ids) as [c|]; [|discriminate].
  cbn [rbind]. intros H; inversion H; subst. cbn.
  exists train_idx, val_idx. split; [reflexivity | exact Ht].
Qed.

Lemma val_dataloader_ids dm dm' vl :
  val_dataloader dm = (dm', Ok (Some vl)) ->
  exists train_idx val_idx,
    py_index (_train_val_idx_generator dm) (fold dm) = Ok (train_idx, val_idx)
    /\ np_take (train_study_ids dm) val_idx = Ok (study_ids (dataset vl)).
Proof.
  unfold val_dataloader.
  destruct (py_index _ _) as [[train_idx val_idx]|e] eqn:Hp; [|discriminate].
  destruct (np_take _ val_idx) as [val_ids|e] eqn:Ht; [|discriminate].
  destruct (Nat.eqb _ 0); [discriminate|].
  destruct (dict_comprehension (train_img_dict dm) val_ids) as [a|]; [|discriminate].
  destruct (dict_comprehension (train_label_dict dm) val_ids) as [b|]; [|discriminate].
  destruct (dict_comprehension (train_cov_dict dm) val_ids) as [c|]; [|discriminate].
  cbn [rbind]. intros H; inversion H; subst. cbn.
  exists train_idx, val_idx. split; [reflexivity | exact Ht].
Qed.

(** X17: with the ordered validation split, the training loader and the
    validation loader that follow a [setup] have no key in common. *)
Theorem ordered_validation_loaders_disjoint dm json d d' dm' stored tl dm'' vl :
  include_validation (args dm) = true ->
  cv (args dm) = false ->
  ordered_validation (args dm) = true ->
  setup contrast_resized recursion_limit shuffle_indices
        stratified_kfold stratified_shuffle_split dm json d = (d', dm', Ok tt) ->
  train_dataloader dm' = (stored, Ok tl) ->
  val_dataloader dm' = (dm'', Ok (Some vl)) ->
  forall k, In k (study_ids (dataset tl)) -> ~ In k (study_ids (dataset vl)).
Proof.
  intros Hval Hcv Hord H Htl Hvl k Hkt Hkv.
  destruct (setup_training_keys _ _ _ H) as (_ & _ & _ & Hnd).
  destruct (setup_fitted _ _ _ H)
    as (train_dict & test_dict & d1 & out & gen & _ & _ & Hgen & _ & _ & _ & _
        & _ & _ & _ & _ & _ & Hg & _).
  unfold setup_folds in Hgen.
  rewrite Hval, Hcv, Hord in Hgen.
  apply make_train_val_split_ordered in Hgen as (train_ids & tr & va & Hsplit & ->).
  destruct (split_positions_disjoint _ _ _ Hsplit) as (Htr & Hva & Hdis).
  apply train_dataloader_ids in Htl as (ti & vi & Hp1 & Ht).
  apply val_dataloader_ids in Hvl as (ti' & vi' & Hp2 & Hv).
  rewrite Hg in Hp1, Hp2.
  apply py_index_single in Hp1, Hp2. inversion Hp1; inversion Hp2; subst.
  destruct (@np_take_In _ _ _ _ _ Ht Hkt) as (i & Hi & Hik).
  destruct (@np_take_In _ _ _ _ _ Hv Hkv) as (j & Hj & Hjk).
  apply shuffle42_In in Hi, Hj.
  assert (i = j).
  { eapply py_index_inj; eauto. }
  subst j. exact (Hdis i Hi Hj).
Qed.


(** X21: with the ordered validation split, a training extraction without
    any key makes [setup] raise [IndexError] (from [list(zip(...))[0]]);
    the module is left as it was. *)
Theorem setup_ordered_validation_empty dm json d train_dict test_dict d1 out :
  include_validation (args dm) = true ->
  cv (args dm) = false ->
  ordered_validation (args dm) = true ->
  load_dataset shuffle_indices json (1 # 5) (ordered_split (args dm)) (train_only (args dm))
  = Ok (train_dict, test_dict) ->
  get_data_dicts contrast_resized recursion_limit (fit_config (args dm)) train_dict d
  = (d1, Ok out) ->
  dicts_ids out = [] ->
  setup contrast_resized recursion_limit shuffle_indices
        stratified_kfold stratified_shuffle_split dm json d = (d1, dm, Raise IndexError).
Proof.
  intros Hval Hcv Hord Hload Hget Hids. unfold setup.
  rewrite Hload, Hget. destruct out as [[[train_img train_label] train_cov] train_ids].
  unfold dicts_ids in Hids. simpl in Hids. subst train_ids.
  rewrite Hval, Hcv, Hord. reflexivity.
Qed.

End SetupFacts.

(** ** The ordered validation split *)

From Stdlib Require OrderedTypeEx.
From Stdlib Require Import Sorting.Sorted.

(** ** The order of strings *)

Lemma ltb_asym a b : String.ltb a b = true -> String.ltb b a = false.
Proof.
  unfold String.ltb. rewrite (String.compare_antisym a b).
  destruct (String.compare b a); simpl; congruence.
Qed.

Lemma ltb_trans a b c :
  String.ltb a b = true -> String.ltb b c = true -> String.ltb a c = true.
Proof.
  unfold String.ltb. intros H1 H2.
  assert (L1 : String.compare a b = Lt) by (destruct (String.compare a b); congruence).
  assert (L2 : String.compare b c = Lt) by (destruct (String.compare b c); congruence).
  apply OrderedTypeEx.String_as_OT.cmp_lt in L1, L2.
  pose proof (OrderedTypeEx.String_as_OT.lt_trans _ _ _ L1 L2) as L3.
  apply OrderedTypeEx.String_as_OT.cmp_lt in L3.
  unfold OrderedTypeEx.String_as_OT.cmp in L3. now rewrite L3.
Qed.

Lemma not_later_before a b c :
  String.ltb a b = true -> String.ltb c b = false -> String.ltb c a = false.
Proof.
  intros Hab Hcb. destruct (String.ltb c a) eqn:Hca; [|reflexivity].
  rewrite (@ltb_trans _ _ _ Hca Hab) in Hcb. discriminate.
Qed.

(** ** [sorted] by date *)

Lemma rinsert_sorted x l :
  string_dated x -> Forall string_dated l ->
  StronglySorted not_later l ->
  exists l',
    rinsert (fun a b => py_lt (snd a) (snd b)) x l = Ok l'
    /\ Permutation l' (x :: l)
    /\ StronglySorted not_later l'.
Proof.
  intros [sx Hx] Hall Hs. induction l as [|y l IH]; simpl.
  - exists [x]. conj_split; auto. repeat constructor.
  - inversion Hall as [|? ? [sy Hy] Hall']; subst.
    inversion Hs as [|? ? Hs' Hle]; subst.
    rewrite Hx, Hy. cbn [py_lt rbind].
    destruct (String.ltb sx sy) eqn:Hlt.
    + exists (x :: y :: l). conj_split; auto.
      constructor; [exact Hs|]. constructor.
      * exists sx, sy. conj_split; auto. now apply ltb_asym.
      * rewrite Forall_forall in Hle |- *. intros z Hz.
        destruct (Hle z Hz) as (sy' & sz & Hy' & Hz' & Hzy).
        rewrite Hy in Hy'. inversion Hy'; subst sy'.
        exists sx, sz. conj_split; auto. eapply not_later_before; eauto.
    + destruct (IH Hall' Hs') as (l' & Hl' & Hperm & Hsorted).
      rewrite Hl'. cbn [rbind]. exists (y :: l'). conj_split; auto.
      * rewrite Hperm. apply perm_swap.
      * constructor; [exact Hsorted|].
        rewrite Forall_forall in Hle |- *. intros z Hz.
        apply (Permutation_in _ Hperm) in Hz. destruct Hz as [<-|Hz]; [|auto].
        exists sy, sx. conj_split; auto.
Qed.

Lemma rsorted_sorted l :
  Forall string_dated l ->
  exists s,
    rsorted (fun a b => py_lt (snd a) (snd b)) l = Ok s
    /\ Permutation s l
    /\ StronglySorted not_later s.
Proof.
  unfold rsorted. intros Hall.
  assert (H : forall acc,
    Forall string_dated acc -> StronglySorted not_later acc ->
    exists s,
      rfold (fun acc x => rinsert (fun a b => py_lt (snd a) (snd b)) x acc) l acc = Ok s
      /\ Permutation s (acc ++ l)
      /\ StronglySorted not_later s).
  { induction l as [|x l IH]; intros acc Hacc Hs; simpl.
    - exists acc. rewrite app_nil_r. auto.
    - inversion Hall as [|? ? Hx Hall']; subst.
      destruct (rinsert_sorted Hx Hacc Hs) as (acc' & Hins & Hperm & Hs').
      rewrite Hins. cbn [rbind].
      destruct (IH Hall' acc') as (s & Hfold & Hp & Hsorted).
      + rewrite Forall_forall in Hacc |- *. intros z Hz.
        apply (Permutation_in _ Hperm) in Hz. destruct Hz as [<-|Hz]; auto.
      + exact Hs'.
      + exists s. conj_split; auto.
        rewrite Hp, Hperm. simpl. apply Permutation_middle. }
  destruct (H [] (Forall_nil _) (SSorted_nil _)) as (s & Hs & Hp & Hsorted).
  exists s. auto.
Qed.

Lemma StronglySorted_app_le (A : Type) (R : A -> A -> Prop) l1 l2 a b :
  StronglySorted R (l1 ++ l2) -> In a l1 -> In b l2 -> R a b.
Proof.
  induction l1 as [|x l1 IH]; simpl; intros Hs Ha Hb; [destruct Ha|].
  inversion Hs as [|? ? Hs' Hle]; subst. destruct Ha as [<-|Ha].
  - rewrite Forall_forall in Hle. apply Hle. apply in_or_app. now right.
  - now apply IH.
Qed.

Lemma rmap_combine (A B : Type) (f : A -> result B) l :
  forall ys x y, rmap f l = Ok ys -> In (x, y) (combine l ys) -> f x = Ok y.
Proof.
  induction l as [|a l IH]; simpl; intros ys x y H Hin.
  - destruct Hin.
  - destruct (f a) as [b|] eqn:Hb; [|discriminate]. cbn [rbind] in H.
    destruct (rmap f l) as [bs|] eqn:Hbs; [|discriminate]. cbn [rbind] in H.
    inversion H; subst. destruct Hin as [Hin|Hin].
    + inversion Hin; subst. exact Hb.
    + eapply IH; eauto.
Qed.

(** ** Positions *)

Lemma split_positions_spec train_ids ids :
  forall i tr va,
    split_positions train_ids ids i = (tr, va) ->
    (forall x, In x tr ->
       exists id_, nth_error ids (Z.to_nat (x - i)) = Some id_
                   /\ i <= x /\ existsb (String.eqb id_) train_ids = true)
    /\ (forall x, In x va ->
          exists id_, nth_error ids (Z.to_nat (x - i)) = Some id_
                      /\ i <= x /\ existsb (String.eqb id_) train_ids = false).
Proof.
  induction ids as [|id_ ids IH]; intros i tr va H; simpl in H.
  - inversion H; subst. split; intros x [].
  - destruct (split_positions train_ids ids (i + 1)) as [tr' va'] eqn:E.
    destruct (IH _ _ _ E) as [Htr Hva].
    assert (Hshift : forall x id', i + 1 <= x ->
              nth_error ids (Z.to_nat (x - (i + 1))) = Some id' ->
              nth_error (id_ :: ids) (Z.to_nat (x - i)) = Some id').
    { intros x id' Hx Hn.
      replace (Z.to_nat (x - i)) with (S (Z.to_nat (x - (i + 1)))) by lia. exact Hn. }
    destruct (existsb (String.eqb id_) train_ids) eqn:Hmem; inversion H; subst; split.
    + intros x [<-|Hx].
      * exists id_. rewrite Z.sub_diag. simpl. conj_split; [reflexivity | lia | exact Hmem].
      * destruct (Htr x Hx) as (id' & Hn & Hi & Hm). exists id'.
        conj_split; [apply Hshift; [lia|exact Hn] | lia | exact Hm].
    + intros x Hx. destruct (Hva x Hx) as (id' & Hn & Hi & Hm). exists id'.
      conj_split; [apply Hshift; [lia|exact Hn] | lia | exact Hm].
    + intros x Hx. destruct (Htr x Hx) as (id' & Hn & Hi & Hm). exists id'.
      conj_split; [apply Hshift; [lia|exact Hn] | lia | exact Hm].
    + intros x [<-|Hx].
      * exists id_. rewrite Z.sub_diag. simpl. conj_split; [reflexivity | lia | exact Hmem].
      * destruct (Hva x Hx) as (id' & Hn & Hi & Hm). exists id'.
        conj_split; [apply Hshift; [lia|exact Hn] | lia | exact Hm].
Qed.

Lemma py_index_nonneg (A : Type) (l : list A) i x :
  0 <= i -> py_index l i = Ok x -> nth_error l (Z.to_nat i) = Some x.
Proof.
  intros Hi. unfold py_index.
  replace (0 <=? i) with true by (symmetry; apply Z.leb_le; lia).
  replace (i <? 0) with false by (symmetry; apply Z.ltb_ge; lia).
  rewrite andb_false_r. cbn [andb].
  destruct (i <? _); [|discriminate].
  destruct (nth_error l (Z.to_nat i)); simpl; congruence.
Qed.

Lemma slice_to_prefix (A : Type) (l : list A) e : exists m, slice_to l e = firstn m l.
Proof.
  unfold slice_to. destruct (e <? 0); eauto.
Qed.

Lemma existsb_eqb_In x l : existsb (String.eqb x) l = true <-> In x l.
Proof.
  rewrite existsb_exists. split.
  - intros (y & Hy & Heq). apply String.eqb_eq in Heq. now subst.
  - intros H. exists x. split; [assumption | apply String.eqb_refl].
Qed.





Section OrderedValidation.

Variable shuffle_indices : nat -> list nat.
Variable stratified_shuffle_split : Q -> list string -> list Z -> result folds.

(** What the ordered mode computes, when every key has a string for its
    baseline date. *)
Lemma make_train_val_split_sorted ids train_labels cov split_prop :
  (forall id_, In id_ ids -> exists s, date_of cov id_ = Ok (PStr s)) ->
  exists dates sorted,
    rmap (date_of cov) ids = Ok dates
    /\ Permutation sorted (combine ids dates)
    /\ StronglySorted not_later sorted
    /\ make_train_val_split shuffle_indices stratified_shuffle_split
                            ids train_labels cov split_prop true
       = match sorted with
         | [] => Raise IndexError
         | _ =>
             let (tr, va) :=
               split_positions
                 (slice_to (map fst sorted)
                    (Qfloor (inject_Z (Z.of_nat (List.length (map fst sorted)))
                             * split_prop)))
                 ids 0 in
             Ok [(shuffle42 shuffle_indices tr, shuffle42 shuffle_indices va)]
         end.
Proof.
  intros Hdates. unfold make_train_val_split.
  change (fun id_ : string => let? e := dict_index cov id_ in entry_read e "BL_date")
    with (date_of cov).
  destruct (@rmap_ok _ _ (date_of cov) ids) as [dates Hd].
  { intros x Hx. destruct (Hdates x Hx) as [s Hs]. eauto. }
  rewrite Hd. cbn [rbind].
  assert (Hall : Forall string_dated (combine ids dates)).
  { rewrite Forall_forall. intros [x y] Hin.
    pose proof (rmap_combine _ _ _ _ Hd Hin) as Hxy.
    destruct (Hdates x (in_combine_l _ _ _ _ Hin)) as [s Hs].
    exists s. simpl. congruence. }
  destruct (rsorted_sorted Hall) as (sorted & Hsort & Hperm & Hsorted).
  rewrite Hsort. cbn [rbind].
  exists dates, sorted. conj_split; auto.
  destruct sorted as [|p sorted]; reflexivity.
Qed.

(** X19: in the ordered mode, when the keys are distinct and their baseline
    dates are strings, no key at a validation position has a baseline
    date before that of a key at a training position. *)
Theorem make_train_val_split_chronological ids train_labels cov split_prop fs
    train_idx val_idx i j id_i id_j date_i date_j :
  NoDup ids ->
  (forall id_, In id_ ids -> exists s, date_of cov id_ = Ok (PStr s)) ->
  make_train_val_split shuffle_indices stratified_shuffle_split
                       ids train_labels cov split_prop true = Ok fs ->
  In (train_idx, val_idx) fs ->
  In i train_idx -> In j val_idx ->
  py_index ids i = Ok id_i -> py_index ids j = Ok id_j ->
  date_of cov id_i = Ok (PStr date_i) -> date_of cov id_j = Ok (PStr date_j) ->
  String.ltb date_j date_i = false.
Proof.
  intros Hnd Hdates Hsplit Hin Hi Hj Hidi Hidj Hdi Hdj.
  destruct (make_train_val_split_sorted ids train_labels cov split_prop Hdates)
    as (dates & sorted & Hd & Hperm & Hsorted & Hrun).
  rewrite Hrun in Hsplit. destruct sorted as [|p0 sorted0] eqn:Esorted; [discriminate|].
  rewrite <- Esorted in *. clear Esorted p0 sorted0.
  destruct (split_positions _ ids 0) as [tr va] eqn:Hpos.
  inversion Hsplit; subst fs. clear Hsplit.
  destruct Hin as [Hin|[]]. inversion Hin; subst train_idx val_idx. clear Hin.
  apply shuffle42_In in Hi, Hj.
  destruct (split_positions_spec _ _ _ Hpos) as [Htr Hva].
  destruct (Htr i Hi) as (a & Ha & Hi0 & Hamem).
  destruct (Hva j Hj) as (b & Hb & Hj0 & Hbmem).
  rewrite Z.sub_0_r in Ha, Hb.
  rewrite (py_index_nonneg _ Hi0 Hidi) in Ha. inversion Ha; subst a.
  rewrite (py_index_nonneg _ Hj0 Hidj) in Hb. inversion Hb; subst b.
  destruct (slice_to_prefix (map fst sorted)
              (Qfloor (inject_Z (Z.of_nat (List.length (map fst sorted))) * split_prop)))
    as [m Hm].
  rewrite Hm in Hamem, Hbmem. rewrite firstn_map in Hamem, Hbmem.
  apply existsb_eqb_In in Hamem.
  apply in_map_iff in Hamem as ([a da] & Hfa & Hina). simpl in Hfa. subst a.
  assert (Hlen : List.length dates = List.length ids) by (eapply rmap_length; eauto).
  assert (Hjs : In id_j (map fst sorted)).
  { apply (Permutation_in id_j (Permutation_map fst (Permutation_sym Hperm))).
    rewrite map_fst_combine_eq by (symmetry; exact Hlen).
    eapply py_index_In; eauto. }
  apply in_map_iff in Hjs as ([b db] & Hfb & Hinb). simpl in Hfb. subst b.
  rewrite <- (firstn_skipn m sorted) in Hinb. apply in_app_or in Hinb.
  destruct Hinb as [Hinb|Hinb].
  { exfalso. assert (Hc : existsb (String.eqb id_j) (map fst (firstn m sorted)) = true).
    { apply existsb_eqb_In. apply in_map_iff. exists (id_j, db). auto. }
    congruence. }
  assert (Hle : not_later (id_i, da) (id_j, db)).
  { eapply StronglySorted_app_le; [|exact Hina|exact Hinb].
    rewrite firstn_skipn. exact Hsorted. }
  destruct Hle as (sa & sb & Hsa & Hsb & Hlt). simpl in Hsa, Hsb. subst da db.
  assert (Ha' : date_of cov id_i = Ok (PStr sa)).
  { eapply rmap_combine; [exact Hd|].
    apply (Permutation_in _ Hperm). rewrite <- (firstn_skipn m sorted).
    apply in_or_app. now left. }
  assert (Hb' : date_of cov id_j = Ok (PStr sb)).
  { eapply rmap_combine; [exact Hd|].
    apply (Permutation_in _ Hperm). rewrite <- (firstn_skipn m sorted).
    apply in_or_app. now right. }
  congruence.
Qed.


End OrderedValidation.

(** ** [last_visit_only] with one-character visit keys *)

Lemma ltb_irrefl a : String.ltb a a = false.
Proof.
  destruct (String.ltb a a) eqn:E; [|reflexivity].
  pose proof (ltb_asym _ _ E) as H. congruence.
Qed.

Lemma insert_sorted_ordered x l :
  StronglySorted (fun a b => String.ltb b a = false) l ->
  StronglySorted (fun a b => String.ltb b a = false) (insert_sorted String.ltb x l).
Proof.
  intros Hs. induction l as [|y l IH]; simpl.
  - repeat constructor.
  - inversion Hs as [|? ? Hs' Hle]; subst.
    destruct (String.ltb x y) eqn:Hlt.
    + constructor; [exact Hs|]. constructor; [now apply ltb_asym|].
      rewrite Forall_forall in Hle |- *. intros z Hz.
      eapply not_later_before; eauto.
    + constructor; [now apply IH|].
      rewrite Forall_forall in Hle |- *. intros z Hz.
      apply (Permutation_in _ (insert_sorted_perm String.ltb x l)) in Hz.
      destruct Hz as [<-|Hz]; auto.
Qed.

Lemma sorted_by_ordered l :
  StronglySorted (fun a b => String.ltb b a = false) (sorted_by String.ltb l).
Proof.
  unfold sorted_by.
  assert (H : forall acc,
    StronglySorted (fun a b => String.ltb b a = false) acc ->
    StronglySorted (fun a b => String.ltb b a = false)
      (fold_left (fun acc x => insert_sorted String.ltb x acc) l acc)).
  { induction l as [|x l IH]; intros acc Hacc; simpl; [exact Hacc|].
    apply IH. now apply insert_sorted_ordered. }
  apply H. constructor.
Qed.

Lemma last_greatest l d :
  StronglySorted (fun a b => String.ltb b a = false) l ->
  forall x, In x l -> String.ltb (last l d) x = false.
Proof.
  induction l as [|y l IH]; intros Hs x Hx; [destruct Hx|].
  inversion Hs as [|? ? Hs' Hle]; subst.
  destruct l as [|z l].
  - destruct Hx as [<-|[]]. simpl. apply ltb_irrefl.
  - change (last (y :: z :: l) d) with (last (z :: l) d).
    destruct Hx as [<-|Hx]; [|now apply IH].
    rewrite Forall_forall in Hle. apply Hle.
    clear. revert z. induction l as [|w l IH]; intros z; [now left|].
    change (last (z :: w :: l) d) with (last (w :: l) d). right. apply IH.
Qed.

Lemma last_In (A : Type) (l : list A) d : l <> [] -> In (last l d) l.
Proof.
  induction l as [|y l IH]; intros H; [congruence|].
  destruct l as [|z l]; [now left|].
  change (last (y :: z :: l) d) with (last (z :: l) d). right. apply IH. discriminate.
Qed.

Lemma chars_single k : String.length k = 1%nat -> chars k = [k].
Proof.
  destruct k as [|c [|c' k]]; simpl; intros H; try discriminate. reflexivity.
Qed.

Lemma for_each_single (A : Type) (x : A) (body : A -> M unit) s :
  for_each [x] body s = body x s.
Proof.
  simpl. unfold bind, ret. destruct (body x s) as [s' [[]|e]]; reflexivity.
Qed.

Section LastVisit.

Variable contrast_resized : image -> list byte.
Variable recursion_limit : nat.
Variable cfg : extractor_config.

(** X22: with [last_visit_only], when the visit keys of a side are single
    characters, the side is processed as its greatest visit key alone. *)
Theorem last_visit_only_single_character study_id patient side side_dict surgery keys :
  last_visit_only cfg = true ->
  subscript patient side = Ok side_dict ->
  get_surgery_label side_dict = Some surgery ->
  py_keys side_dict = Ok keys ->
  filter (fun k => negb (String.eqb k "surgery")) keys <> [] ->
  (forall k, In k keys -> k <> "surgery" -> String.length k = 1%nat) ->
  exists last_visit,
    In last_visit keys /\ last_visit <> "surgery"
    /\ (forall k, In k keys -> k <> "surgery" -> String.ltb last_visit k = false)
    /\ forall s,
        side_body contrast_resized recursion_limit cfg study_id patient side s
        = visit_body contrast_resized recursion_limit cfg
                     study_id patient side side_dict surgery last_visit s.
Proof.
  intros Hlast Hside Hsur Hkeys Hne Hlen.
  set (us_nums := filter (fun k => negb (String.eqb k "surgery")) keys) in *.
  assert (Hus : forall k, In k us_nums <-> In k keys /\ k <> "surgery").
  { intros k. unfold us_nums. rewrite filter_In, negb_true_iff, String.eqb_neq. tauto. }
  set (last_visit := last (sorted_by String.ltb us_nums) "").
  assert (Hperm : Permutation (sorted_by String.ltb us_nums) us_nums)
    by apply sorted_by_perm.
  assert (Hin : In last_visit us_nums).
  { apply (Permutation_in _ Hperm). apply last_In.
    intros E. rewrite E in Hperm. apply Permutation_nil in Hperm. congruence. }
  exists last_visit. apply Hus in Hin as Hin'. destruct Hin' as [Hk Hs].
  conj_split; auto.
  - intros k Hk' Hs'. apply last_greatest; [apply sorted_by_ordered|].
    apply (Permutation_in _ (Permutation_sym Hperm)). apply Hus. auto.
  - intros s. unfold side_body. unfold bind at 1. unfold lift at 1. rewrite Hside.
    rewrite Hsur. unfold bind at 1. unfold lift at 1. rewrite Hkeys.
    fold us_nums.
    destruct (Nat.eqb (List.length us_nums) 0) eqn:E.
    { apply Nat.eqb_eq in E. destruct us_nums; [congruence | discriminate]. }
    rewrite Hlast. fold last_visit.
    rewrite chars_single by (apply Hlen; assumption).
    apply for_each_single.
Qed.

End LastVisit.

(** ** Indexing the dataset *)

(** X23: [__getitem__] raises [IndexError] outside [-len, len), and a negative
    index counts from the end. *)
Theorem getitem_index_range ds i :
  (Z.of_nat (dataset_len ds) <= i \/ i < - Z.of_nat (dataset_len ds) ->
   getitem ds i = Raise IndexError)
  /\ (- Z.of_nat (dataset_len ds) <= i < 0 ->
      getitem ds i = getitem ds (i + Z.of_nat (dataset_len ds))).
Proof.
  unfold getitem, dataset_len. set (n := Z.of_nat (List.length (study_ids ds))).
  split.
  - intros H. unfold py_index. fold n.
    destruct H as [H|H].
    + replace (i <? n) with false by (symmetry; apply Z.ltb_ge; lia).
      replace (i <? 0) with false by (symmetry; apply Z.ltb_ge; lia).
      rewrite !andb_false_r. reflexivity.
    + replace (0 <=? i) with false by (symmetry; apply Z.leb_gt; lia).
      replace (- n <=? i) with false by (symmetry; apply Z.leb_gt; lia).
      reflexivity.
  - intros H.
    assert (E : py_index (study_ids ds) i = py_index (study_ids ds) (i + n)).
    { unfold py_index. fold n.
      replace (0 <=? i) with false by (symmetry; apply Z.leb_gt; lia).
      replace (- n <=? i) with true by (symmetry; apply Z.leb_le; lia).
      replace (i <? 0) with true by (symmetry; apply Z.ltb_lt; lia).
      replace (0 <=? i + n) with true by (symmetry; apply Z.leb_le; lia).
      replace (i + n <? n) with true by (symmetry; apply Z.ltb_lt; lia).
      reflexivity. }
    rewrite E. reflexivity.
Qed.

(** ** [autocrop] *)

(** *** Maxima *)

Lemma fold_max_above l x t :
  t < fold_left Z.max l x <-> t < x \/ exists y, In y l /\ t < y.
Proof.
  revert x. induction l as [|y l IH]; intros x; simpl.
  - split; [auto | intros [H|(y & [] & _)]; exact H].
  - rewrite IH. split.
    + intros [H|(z & Hz & Ht)].
      * destruct (Z.max_spec x y) as [[_ E]|[_ E]]; rewrite E in H; eauto.
      * eauto.
    + intros [H|(z & [<-|Hz] & Ht)]; [left; lia | left; lia | eauto].
Qed.

Lemma row_max_above row m t :
  row_max row = Ok m -> (t < m <-> exists p, In p row /\ t < p).
Proof.
  destruct row as [|x xs]; simpl; [discriminate|].
  intros H; inversion H; subst. rewrite fold_max_above. split.
  - intros [Hx|(y & Hy & Ht)]; eauto.
  - intros (p & [<-|Hp] & Ht); eauto.
Qed.

Lemma max_axis1_spec a :
  Forall (fun row => row <> []) a ->
  exists maxima,
    max_axis1 a = Ok maxima
    /\ List.length maxima = List.length a
    /\ forall i m t, nth_error maxima i = Some m ->
         (t < m <-> exists row p, nth_error a i = Some row /\ In p row /\ t < p).
Proof.
  unfold max_axis1. induction a as [|row a IH]; intros Hne; simpl.
  - exists []. conj_split; auto. intros [|i] m t H; discriminate.
  - inversion Hne as [|? ? Hrow Hne']; subst.
    destruct (row_max row) as [m0|] eqn:Hm; [|destruct row; [congruence|discriminate]].
    destruct (IH Hne') as (maxima & Hmax & Hlen & Hspec). rewrite Hmax. cbn [rbind].
    exists (m0 :: maxima). conj_split; auto; [simpl; congruence|].
    intros [|i] m t H; simpl in H.
    + inversion H; subst. rewrite (@row_max_above row m t Hm). split.
      * intros (p & Hp & Ht). exists row, p. auto.
      * intros (row' & p & Hr & Hp & Ht). inversion Hr; subst. eauto.
    + apply Hspec. exact H.
Qed.

Lemma fold_columns_spec rest :
  forall acc w,
    List.length acc = w -> rectangular rest w ->
    let out := fold_left (fun acc r => map (fun p => Z.max (fst p) (snd p)) (combine acc r))
                         rest acc in
    List.length out = w
    /\ forall j m t, nth_error out j = Some m ->
         (t < m <-> (exists x, nth_error acc j = Some x /\ t < x)
                    \/ exists row p, In row rest /\ nth_error row j = Some p /\ t < p).
Proof.
  induction rest as [|r rest IH]; intros acc w Hacc Hrect; simpl.
  - split; [exact Hacc|]. intros j m t H. split.
    + intros Ht. left. eauto.
    + intros [(x & Hx & Ht)|(row & p & [] & _)]. congruence.
  - inversion Hrect as [|? ? Hr Hrect']; subst.
    set (acc' := map (fun p => Z.max (fst p) (snd p)) (combine acc r)).
    assert (Hlen' : List.length acc' = List.length acc).
    { unfold acc'. rewrite length_map, length_combine. lia. }
    destruct (IH acc' (List.length acc) Hlen' Hrect') as [Hout Hspec].
    split; [exact Hout|]. intros j m t H. rewrite (Hspec j m t H). clear Hspec.
    assert (Hacc' : forall y, nth_error acc' j = Some y ->
              exists x p, nth_error acc j = Some x /\ nth_error r j = Some p
                          /\ y = Z.max x p).
    { intros y Hy. unfold acc' in Hy. rewrite nth_error_map in Hy.
      destruct (nth_error (combine acc r) j) as [[x p]|] eqn:Hc; [|discriminate].
      simpl in Hy. inversion Hy; subst.
      exists x, p. conj_split; auto.
      - clear - Hc. revert acc r Hc. induction j as [|j IHj]; intros [|a acc] [|b r] Hc;
          simpl in *; try discriminate; [now inversion Hc | eauto].
      - clear - Hc. revert acc r Hc. induction j as [|j IHj]; intros [|a acc] [|b r] Hc;
          simpl in *; try discriminate; [now inversion Hc | eauto]. }
    assert (Hback : forall x, nth_error acc j = Some x ->
              exists p, nth_error r j = Some p /\ nth_error acc' j = Some (Z.max x p)).
    { intros x Hx.
      assert (Hj : (j < List.length r)%nat)
        by (rewrite Hr; apply nth_error_Some; congruence).
      destruct (nth_error r j) as [p|] eqn:Hp; [|apply nth_error_None in Hp; lia].
      exists p. split; [reflexivity|]. unfold acc'. rewrite nth_error_map.
      assert (Hc : nth_error (combine acc r) j = Some (x, p)).
      { clear - Hx Hp. revert acc r Hx Hp.
        induction j as [|j IHj]; intros [|a acc] [|b r] Hx Hp; simpl in *;
          try discriminate; [congruence | eauto]. }
      rewrite Hc. reflexivity. }
    split.
    + intros [(y & Hy & Ht)|(row & p & Hin & Hp & Ht)].
      * destruct (Hacc' y Hy) as (x & p & Hx & Hp & ->).
        destruct (Z.max_spec x p) as [[_ E]|[_ E]]; rewrite E in Ht.
        -- right. exists r, p. auto.
        -- left. eauto.
      * right. exists row, p. auto.
    + intros [(x & Hx & Ht)|(row & p & [<-|Hin] & Hp & Ht)].
      * left. destruct (Hback x Hx) as (p & Hp & Hy). exists (Z.max x p). split; [exact Hy|lia].
      * left.
        assert (Hj : (j < List.length acc)%nat)
          by (rewrite <- Hr; apply nth_error_Some; congruence).
        destruct (nth_error acc j) as [x|] eqn:Hx; [|apply nth_error_None in Hx; lia].
        destruct (Hback x eq_refl) as (p' & Hp' & Hy).
        rewrite Hp in Hp'. inversion Hp'; subst p'.
        exists (Z.max x p). split; [exact Hy|lia].
      * right. exists row, p. auto.
Qed.

Lemma max_axis0_spec a w :
  rectangular a w -> a <> [] ->
  List.length (max_axis0 a) = w
  /\ forall j m t, nth_error (max_axis0 a) j = Some m -> (t < m <-> column_above a t j).
Proof.
  intros Hrect Hne. destruct a as [|row rest]; [congruence|].
  inversion Hrect as [|? ? Hrow Hrest]; subst.
  destruct (@fold_columns_spec rest row (List.length row) eq_refl Hrest) as [Hlen Hspec].
  split; [exact Hlen|]. intros j m t H. unfold max_axis0 in H.
  rewrite (Hspec j m t H). unfold column_above, pixel. split.
  - intros [(x & Hx & Ht)|(r & p & Hin & Hp & Ht)].
    + exists 0%nat, x. simpl. auto.
    + apply In_nth_error in Hin as [i Hi]. exists (S i), p. simpl. rewrite Hi. auto.
  - intros (i & p & Hp & Ht). destruct i as [|i]; simpl in Hp.
    + left. eauto.
    + right. destruct (nth_error rest i) as [r|] eqn:Hr; [|discriminate].
      exists r, p. conj_split; auto. eapply nth_error_In; eauto.
Qed.

(** *** Positions above the threshold *)

Lemma where_gt_In v t i :
  In i (where_gt v t) <-> exists x, nth_error v i = Some x /\ t < x.
Proof.
  unfold where_gt. rewrite filter_In, in_seq. split.
  - intros [_ H]. destruct (nth_error v i) as [x|]; [|discriminate].
    exists x. split; [reflexivity|]. now apply Z.ltb_lt.
  - intros (x & Hx & Ht). split.
    + split; [lia|]. simpl. apply nth_error_Some. congruence.
    + rewrite Hx. now apply Z.ltb_lt.
Qed.

Lemma seq_increasing n : forall a, StronglySorted Nat.lt (List.seq a n).
Proof.
  induction n as [|n IH]; intros a; simpl; constructor; [apply IH|].
  rewrite Forall_forall. intros x Hx. apply in_seq in Hx. unfold Nat.lt. lia.
Qed.

Lemma filter_increasing (f : nat -> bool) l :
  StronglySorted Nat.lt l -> StronglySorted Nat.lt (filter f l).
Proof.
  induction l as [|x l IH]; intros Hs; simpl; [constructor|].
  inversion Hs as [|? ? Hs' Hle]; subst.
  destruct (f x); [|now apply IH].
  constructor; [now apply IH|].
  rewrite Forall_forall in Hle |- *. intros y Hy. apply filter_In in Hy as [Hy _]. auto.
Qed.

Lemma increasing_bounds l :
  StronglySorted Nat.lt l ->
  forall i, In i l -> (hd 0%nat l <= i <= last l 0%nat)%nat.
Proof.
  induction l as [|x l IH]; intros Hs i Hi; [destruct Hi|].
  inversion Hs as [|? ? Hs' Hle]; subst. rewrite Forall_forall in Hle.
  destruct l as [|y l].
  - destruct Hi as [<-|[]]. simpl. lia.
  - change (last (x :: y :: l) 0%nat) with (last (y :: l) 0%nat). cbn [hd].
    pose proof (IH Hs') as IH'. cbn [hd] in IH'.
    destruct Hi as [<-|Hi].
    + specialize (IH' y (or_introl eq_refl)).
      specialize (Hle y (or_introl eq_refl)). unfold Nat.lt in Hle. lia.
    + specialize (IH' i Hi). specialize (Hle i Hi). unfold Nat.lt in Hle. lia.
Qed.

Lemma hd_In (A : Type) (l : list A) d : l <> [] -> In (hd d l) l.
Proof. destruct l; [congruence | now left]. Qed.

Lemma py_index_first (A : Type) (l : list A) d : l <> [] -> py_index l 0 = Ok (hd d l).
Proof. destruct l as [|x l]; [congruence | reflexivity]. Qed.

Lemma py_index_last (A : Type) (l : list A) d : l <> [] -> py_index l (-1) = Ok (last l d).
Proof.
  intros Hne. unfold py_index.
  assert (Hlen : (0 < List.length l)%nat) by (destruct l; [congruence | simpl; lia]).
  cbn [Z.leb Z.compare andb].
  replace (- Z.of_nat (List.length l) <=? -1) with true by (symmetry; apply Z.leb_le; lia).
  cbn [Z.ltb Z.compare andb].
  replace (Z.to_nat (-1 + Z.of_nat (List.length l))) with (List.length l - 1)%nat by lia.
  clear Hlen. induction l as [|x l IH]; [congruence|].
  destruct l as [|y l]; [reflexivity|].
  change (last (x :: y :: l) d) with (last (y :: l) d).
  rewrite <- IH by discriminate. simpl. now rewrite Nat.sub_0_r.
Qed.

Lemma pixel_in_range a w i j p :
  rectangular a w -> pixel a i j = Some p -> (i < List.length a)%nat /\ (j < w)%nat.
Proof.
  unfold pixel, rectangular. intros Hrect H.
  destruct (nth_error a i) as [row|] eqn:Hrow; [|discriminate]. split.
  - apply nth_error_Some. congruence.
  - rewrite Forall_forall in Hrect. rewrite <- (Hrect row (nth_error_In _ _ Hrow)).
    apply nth_error_Some. congruence.
Qed.

(** What [autocrop] reads from the two lists of maxima. *)
Lemma autocrop_positions a w t :
  rectangular a w -> a <> [] -> (0 < w)%nat ->
  (forall j, In j (where_gt (max_axis0 a) t) <-> column_above a t j)
  /\ exists maxima,
      max_axis1 a = Ok maxima
      /\ forall i, In i (where_gt maxima t) <-> row_above a t i.
Proof.
  intros Hrect Hne Hw. split.
  - intros j. rewrite where_gt_In.
    destruct (max_axis0_spec Hrect Hne) as [Hlen Hspec]. split.
    + intros (m & Hm & Ht). now apply (Hspec j m t Hm).
    + intros Hcol. pose proof Hcol as (i & p & Hp & Ht).
      destruct (pixel_in_range _ _ Hrect Hp) as [_ Hj].
      destruct (nth_error (max_axis0 a) j) as [m|] eqn:Hm;
        [|apply nth_error_None in Hm; lia].
      exists m. split; [reflexivity|]. now apply (Hspec j m t Hm).
  - destruct (@max_axis1_spec a) as (maxima & Hmax & Hlen & Hspec).
    { unfold rectangular in Hrect. rewrite Forall_forall in Hrect |- *.
      intros row Hrow E. apply Hrect in Hrow. subst row. simpl in Hrow. lia. }
    exists maxima. split; [exact Hmax|]. intros i. rewrite where_gt_In.
    unfold row_above, pixel. split.
    + intros (m & Hm & Ht). apply (Hspec i m t Hm) in Ht as (row & p & Hrow & Hp & Ht).
      apply In_nth_error in Hp as [j Hj]. exists j, p. rewrite Hrow. auto.
    + intros (j & p & Hp & Ht).
      destruct (nth_error a i) as [row|] eqn:Hrow; [|discriminate].
      assert (Hi : (i < List.length maxima)%nat)
        by (rewrite Hlen; apply nth_error_Some; congruence).
      destruct (nth_error maxima i) as [m|] eqn:Hm; [|apply nth_error_None in Hm; lia].
      exists m. split; [reflexivity|]. apply (Hspec i m t Hm).
      exists row, p. conj_split; auto. eapply nth_error_In; eauto.
Qed.

(** X25: when some element of a rectangular array is above the threshold,
    [autocrop] returns the rows [top..bottom] and columns [left..right]
    of the array, where these are the first and last row and column that
    hold an element above the threshold: every such element is inside. *)
Theorem autocrop_bounding_box a w t i0 j0 p0 :
  rectangular a w ->
  pixel a i0 j0 = Some p0 -> t < p0 ->
  exists top bottom left right,
    autocrop a t = Ok (map (slice left (right + 1)) (slice top (bottom + 1) a))
    /\ (top <= bottom < List.length a)%nat
    /\ (left <= right < w)%nat
    /\ row_above a t top /\ row_above a t bottom
    /\ column_above a t left /\ column_above a t right
    /\ forall i j p, pixel a i j = Some p -> t < p ->
                     (top <= i <= bottom)%nat /\ (left <= j <= right)%nat.
Proof.
  intros Hrect Hp0 Ht0.
  destruct (pixel_in_range _ _ Hrect Hp0) as [Hi0 Hj0].
  assert (Hne : a <> []) by (destruct a; [simpl in Hi0; lia | discriminate]).
  destruct (@autocrop_positions a w t Hrect Hne) as (Hrows & maxima & Hmax & Hcols); [lia|].
  set (rows := where_gt (max_axis0 a) t) in *.
  set (cols := where_gt maxima t) in *.
  assert (Hrow0 : In i0 cols) by (apply Hcols; exists j0, p0; auto).
  assert (Hcol0 : In j0 rows) by (apply Hrows; exists i0, p0; auto).
  assert (Hrne : rows <> []) by (intros E; rewrite E in Hcol0; destruct Hcol0).
  assert (Hcne : cols <> []) by (intros E; rewrite E in Hrow0; destruct Hrow0).
  assert (Hrs : StronglySorted Nat.lt rows)
    by (apply filter_increasing, seq_increasing).
  assert (Hcs : StronglySorted Nat.lt cols)
    by (apply filter_increasing, seq_increasing).
  exists (hd 0%nat cols), (last cols 0%nat), (hd 0%nat rows), (last rows 0%nat).
  assert (Htop : row_above a t (hd 0%nat cols))
    by (apply Hcols; exact (@hd_In nat cols 0%nat Hcne)).
  assert (Hbot : row_above a t (last cols 0%nat))
    by (apply Hcols; exact (@last_In nat cols 0%nat Hcne)).
  assert (Hleft : column_above a t (hd 0%nat rows))
    by (apply Hrows; exact (@hd_In nat rows 0%nat Hrne)).
  assert (Hright : column_above a t (last rows 0%nat))
    by (apply Hrows; exact (@last_In nat rows 0%nat Hrne)).
  conj_split; auto.
  - unfold autocrop. fold rows.
    destruct rows as [|r rows'] eqn:Er; [congruence|]. rewrite <- Er in *.
    cbn [List.length Nat.eqb negb]. replace (Nat.eqb (List.length rows) 0) with false
      by (rewrite Er; reflexivity).
    cbn [negb]. rewrite Hmax. cbn [rbind]. fold cols.
    rewrite (py_index_first 0%nat Hcne), (py_index_last 0%nat Hcne).
    rewrite (py_index_first 0%nat Hrne), (py_index_last 0%nat Hrne).
    reflexivity.
  - apply (increasing_bounds Hcs). exact (@hd_In nat cols 0%nat Hcne).
  - destruct Hbot as (j & p & Hp & _). now destruct (pixel_in_range _ _ Hrect Hp).
  - apply (increasing_bounds Hrs). exact (@hd_In nat rows 0%nat Hrne).
  - destruct Hright as (i & p & Hp & _). now destruct (pixel_in_range _ _ Hrect Hp).
  - intros i j p Hp Ht. split.
    + apply (increasing_bounds Hcs). apply Hcols. exists j, p. auto.
    + apply (increasing_bounds Hrs). apply Hrows. exists i, p. auto.
Qed.


(** * More examples *)

(** A list without repetitions, checked by computation. *)
Lemma NoDup_check (l : list string) : nodup string_dec l = l -> NoDup l.
Proof. intros H. rewrite <- H. apply NoDup_nodup. Qed.

(** A second call on ["data/a.png"] is served from the cache. *)
Lemma process_input_image_idempotent_witness :
  process_input_image example_contrast 10 "data/a.png" example_cached_disk
  = (example_cached_disk, Ok example_cached_image).
Proof.
  apply (@process_input_image_idempotent example_contrast 10 "data/a.png" example_disk);
    reflexivity.
Defined.

(** The image returned for ["data/a.png"] is 256x256. *)
Lemma process_input_image_shape_witness :
  (height example_cached_image = 256%nat /\ width example_cached_image = 256%nat)
  \/ dict_get example_disk (out_img_filename "data/a.png") = Some example_cached_image.
Proof.
  apply (@process_input_image_shape example_contrast 10 "data/a.png" example_disk
           example_cached_disk).
  reflexivity.
Defined.

(** The first call on ["data/a.png"] only adds the cache file. *)
Lemma process_input_image_disk_witness :
  (forall p im, dict_get example_disk p = Some im ->
                dict_get example_cached_disk p = Some im)
  /\ (forall p, p <> out_img_filename "data/a.png" ->
                dict_get example_cached_disk p = dict_get example_disk p)
  /\ (forall e, Ok example_cached_image = Raise e -> example_cached_disk = example_disk)
  /\ (contains "preprocessed" "data/a.png" = true -> example_cached_disk = example_disk).
Proof.
  apply (@process_input_image_disk example_contrast 10 "data/a.png" example_disk
           example_cached_disk (Ok example_cached_image)).
  reflexivity.
Defined.

(** A 100x300 image is shrunk once and padded to 256x256. *)
Lemma pad_img_le_shape_witness :
  padded_shape (pad_img_le 100 300 256) = (256, 256)
  /\ (inner_height (pad_img_le 100 300 256) <= 256)%nat
  /\ (inner_width (pad_img_le 100 300 256) <= 256)%nat.
Proof.
  destruct (@pad_img_le_shape 100 300 256) as (H1 & H2 & H3 & _).
  - vm_compute. lia.
  - vm_compute. lia.
  - exact (conj H1 (conj H2 H3)).
Defined.

(** The ordered split of [ten_patients_record] holds patients of the record. *)
Lemma load_dataset_subset_witness :
  (forall k v, dict_get example_ordered_train k = Some v ->
               dict_get ten_patients_record k = Some v /\ k <> excluded_id)
  /\ (forall test_out k v,
        Some example_ordered_test = Some test_out -> dict_get test_out k = Some v ->
        dict_get ten_patients_record k = Some v /\ k <> excluded_id).
Proof.
  apply (@load_dataset_subset example_shuffle ten_patients_record (1 # 5) true false
           example_ordered_train (Some example_ordered_test)).
  - apply NoDup_check. reflexivity.
  - reflexivity.
Defined.

(** [non_mapping_record] can only be loaded with [train_only]. *)
Lemma load_dataset_non_mapping_witness :
  load_dataset example_shuffle non_mapping_record (1 # 5) false false = Raise AttributeError
  /\ load_dataset example_shuffle non_mapping_record (1 # 5) false true
     = Ok (load_test_dataset non_mapping_record, None).
Proof.
  apply (@load_dataset_non_mapping example_shuffle non_mapping_record (1 # 5) false
           "P1" (PStr "withdrawn")); reflexivity.
Defined.



(** The extraction of [example_record] only adds cache files. *)
Lemma get_data_dicts_disk_witness :
  (forall p im, dict_get example_disk p = Some im ->
                dict_get example_disk_after p = Some im)
  /\ (forall p, contains "preprocessed" p = false ->
                dict_get example_disk_after p = dict_get example_disk p).
Proof.
  apply (@get_data_dicts_disk example_contrast 1000 sequence_config example_record
           example_disk example_disk_after (Ok example_dicts)).
  reflexivity.
Defined.

(** The [KeyError] of [missing_sex_record] is not one of the handled exceptions. *)
Lemma get_data_dicts_raises_unhandled_witness :
  KeyError <> AttributeError /\ KeyError <> AssertionError.
Proof.
  apply (@get_data_dicts_raises_unhandled example_contrast 1000 sequence_config
           missing_sex_record example_disk missing_sex_disk KeyError).
  reflexivity.
Defined.

(** The label of ["P1_Left"] comes from the first patient's left side. *)
Lemma get_data_dicts_label_source_witness :
  exists study_id patient side side_dict us_num visit,
    dict_get example_record study_id = Some patient
    /\ subscript patient side = Ok side_dict
    /\ side <> "BL_date" /\ side <> "Sex"
    /\ get_surgery_label side_dict = Some 1
    /\ subscript side_dict us_num = Ok visit
    /\ "P1_Left" = make_dict_key sequence_config study_id side us_num
    /\ valid_visit visit.
Proof.
  apply (@get_data_dicts_label_source example_contrast 1000 sequence_config example_record
           example_disk example_disk_after example_dicts "P1_Left" 1); reflexivity.
Defined.

(** The ages stored under ["P1_Left"]. *)
Lemma get_data_dicts_ages_in_range_witness :
  exists l, PList [PInt 10] = PList l /\ Forall age_in_range l.
Proof.
  apply (@get_data_dicts_ages_in_range example_contrast 1000 sequence_config example_record
           example_disk example_disk_after example_dicts "P1_Left" example_cov_entry
           (PList [PInt 10])); reflexivity.
Defined.


(** [remove_bl_date] on [dated_covariates]. *)
Lemma remove_bl_date_spec_witness :
  dict_keys (remove_bl_date dated_covariates) = dict_keys dated_covariates
  /\ exists ce',
      dict_get (remove_bl_date dated_covariates) "A_Left" = Some ce'
      /\ defaulting ce' = false
      /\ dict_get (fields ce') "BL_date" = None
      /\ (forall f, f <> "BL_date" ->
                    dict_get (fields ce') f
                    = dict_get [("Age_wks", PInt 10); ("BL_date", PStr "2020-02-01")] f).
Proof.
  apply (@remove_bl_date_spec dated_covariates "A_Left"
           {| defaulting := false;
              fields := [("Age_wks", PInt 10); ("BL_date", PStr "2020-02-01")] |}).
  - reflexivity.
  - apply NoDup_check. reflexivity.
Defined.

(** The module after [setup] on [example_record] with the ordered validation split. *)
Lemma setup_training_state_witness :
  dict_keys (train_img_dict example_validated) = train_study_ids example_validated
  /\ dict_keys (train_label_dict example_validated) = train_study_ids example_validated
  /\ dict_keys (train_cov_dict example_validated) = train_study_ids example_validated
  /\ NoDup (train_study_ids example_validated)
  /\ (forall k ce, dict_get (train_cov_dict example_validated) k = Some ce ->
                   dict_get (fields ce) "BL_date" = None).
Proof.
  apply (@setup_training_state example_contrast 1000 example_shuffle
           (@no_folds nat) (@no_folds Q)
           (new_module (example_args true) example_params true)
           example_record example_disk example_disk_after example_validated).
  reflexivity.
Defined.


(** With the ordered validation split one key trains and the other validates. *)
Lemma ordered_validation_loaders_disjoint_witness :
  study_ids (dataset example_train_loader) = ["P1_Left"]
  /\ study_ids (dataset example_val_loader) = ["P2_Left"]
  /\ forall k, In k (study_ids (dataset example_train_loader)) ->
               ~ In k (study_ids (dataset example_val_loader)).
Proof.
  split; [reflexivity|]. split; [reflexivity|].
  apply (@ordered_validation_loaders_disjoint example_contrast 1000 example_shuffle
           (@no_folds nat) (@no_folds Q)
           (new_module (example_args true) example_params true)
           example_record example_disk example_disk_after example_validated
           (fst (train_dataloader example_validated)) example_train_loader
           (fst (val_dataloader example_validated)) example_val_loader);
    reflexivity.
Defined.


Lemma dated_covariates_strings id_ :
  In id_ ["A_Left"; "B_Left"] -> exists s, date_of dated_covariates id_ = Ok (PStr s).
Proof.
  intros [<-|[<-|[]]]; eexists; reflexivity.
Qed.

(** Of the two keys of [dated_covariates] the earlier one trains. *)
Lemma make_train_val_split_chronological_witness :
  String.ltb "2020-02-01" "2020-01-01" = false.
Proof.
  apply (@make_train_val_split_chronological example_shuffle (@no_folds Q)
           ["A_Left"; "B_Left"] [0; 1] dated_covariates (1 # 2) [([1], [0])]
           [1] [0] 1 0 "B_Left" "A_Left" "2020-01-01" "2020-02-01");
    try reflexivity.
  - apply NoDup_check. reflexivity.
  - exact dated_covariates_strings.
  - now left.
  - now left.
  - now left.
Defined.



(** Of the visits "1" and "2" only "2" is processed. *)
Lemma last_visit_only_single_character_witness :
  exists last_visit,
    In last_visit ["surgery"; "1"; "2"] /\ last_visit <> "surgery"
    /\ (forall k, In k ["surgery"; "1"; "2"] -> k <> "surgery" ->
                  String.ltb last_visit k = false)
    /\ forall s,
        side_body example_contrast 1000 last_visit_config "P1" two_visits_patient "Left" s
        = visit_body example_contrast 1000 last_visit_config
                     "P1" two_visits_patient "Left" two_visits_side 1 last_visit s.
Proof.
  apply (@last_visit_only_single_character example_contrast 1000 last_visit_config
           "P1" two_visits_patient "Left" two_visits_side 1 ["surgery"; "1"; "2"]);
    try reflexivity.
  - discriminate.
  - intros k [<-|[<-|[<-|[]]]] H; [congruence | reflexivity | reflexivity].
Defined.

(** [no_age_record] yields no key, and the ordered validation split fails. *)
Lemma setup_ordered_validation_empty_witness :
  setup example_contrast 1000 example_shuffle (@no_folds nat) (@no_folds Q)
        (new_module (example_args true) example_params true) no_age_record example_disk
  = (example_disk, new_module (example_args true) example_params true, Raise IndexError).
Proof.
  apply (@setup_ordered_validation_empty example_contrast 1000 example_shuffle
           (@no_folds nat) (@no_folds Q)
           (new_module (example_args true) example_params true) no_age_record example_disk
           no_age_record None example_disk empty_dicts);
    reflexivity.
Defined.

(** [framed_array] is cropped to its two bright elements. *)
Lemma autocrop_bounding_box_witness :
  exists top bottom left right,
    autocrop framed_array 0
    = Ok (map (slice left (right + 1)) (slice top (bottom + 1) framed_array))
    /\ (top <= bottom < 3)%nat
    /\ (left <= right < 4)%nat
    /\ row_above framed_array 0 top /\ row_above framed_array 0 bottom
    /\ column_above framed_array 0 left /\ column_above framed_array 0 right
    /\ forall i j p, pixel framed_array i j = Some p -> 0 < p ->
                     (top <= i <= bottom)%nat /\ (left <= j <= right)%nat.
Proof.
  apply (@autocrop_bounding_box framed_array 4 0 1 1 3).
  - repeat constructor.
  - reflexivity.
  - lia.
Defined.



Lemma no_age_record_invalid study_id patient side side_dict us_num visit :
  dict_get no_age_record study_id = Some patient ->
  subscript patient side = Ok side_dict ->
  subscript side_dict us_num = Ok visit ->
  ~ valid_visit visit.
Proof.
  intros Hp Hs Hv [(age & Hage & Hna & _) _].
  unfold no_age_record in Hp. simpl in Hp.
  destruct (String.eqb study_id "P1"); [|discriminate]. inversion Hp; subst patient.
  simpl in Hs. unfold dict_index in Hs. simpl in Hs.
  destruct (String.eqb side "Sex"); [inversion Hs; subst; discriminate|].
  destruct (String.eqb side "BL_date"); [inversion Hs; subst; discriminate|].
  destruct (String.eqb side "Left"); [|discriminate]. inversion Hs; subst side_dict.
  simpl in Hv. unfold dict_index in Hv. simpl in Hv.
  destruct (String.eqb us_num "surgery"); [inversion Hv; subst; discriminate|].
  destruct (String.eqb us_num "1"); [|discriminate]. inversion Hv; subst visit.
  vm_compute in Hage. inversion Hage; subst age. discriminate.
Qed.

(** [no_age_record] has no valid visit: nothing is stored and no file is read. *)
Lemma get_data_dicts_nothing_valid_witness :
  example_disk = example_disk
  /\ forall out, Ok empty_dicts = Ok out -> out = empty_dicts.
Proof.
  apply (@get_data_dicts_nothing_valid example_contrast 1000 sequence_config
           no_age_record example_disk example_disk (Ok empty_dicts)).
  - exact no_age_record_invalid.
  - reflexivity.
Defined.
